(* ===== verification/_CoqProject ===== *)
-Q . S2P
Prelude.v
JsNumber.v
JsDate.v
Task.v
UrlParams.v
TaskList.v
EditTask.v
Dashboard.v
Collection.v
TaskListRefine.v
Theme.v
App.v
