(* ===== verification/Prelude.v ===== *)
(** * A verification development of the task-management dashboard

    The repository is a Next.js single-page client (under
    [src/frontend/src]) for a REST collection of tasks.  Its parts are

    - [app/tasks/page.js], [TasksPage]: the task list.  It keeps the
      loaded page of tasks, a loading flag, an error message, the
      status/priority filters, the search term, the page number and the
      delete-confirmation dialog.  An effect re-runs [fetchTasks]
      whenever the filters, the search term or the page change;
      [handleDelete] deletes and then calls [fetchTasks] again.
    - [app/tasks/edit/[id]/page.js], [EditTaskPage]: loads one task,
      keeps an editable copy ([formData]) and submits it with [PUT].
    - [app/page.js], [Dashboard]: fetches the aggregate counts and the
      five most recent tasks, one after the other, and draws progress
      bars with [calculateProgress].
    - [components/theme-provider.js] and [components/header.js]: the
      theme preference, persisted in [localStorage] and mirrored as the
      [dark] class of the document root, and the toggle button.

    The components never call each other; they interact only through the
    remote collection (the backend, not part of the repository) and the
    browser (links and navigations between the pages' URLs,
    [localStorage], the document's class list).

    ** How the development is organised

    - [Prelude] (this file): the [Hook] monad in which React handlers
      are written (state passing plus a list of emitted effects, i.e.
      the [setX] calls and the [fetch]/[alert]/navigation calls of a
      handler in program order), JavaScript truthiness of strings,
      printing of numbers, the [star] closure of a step relation,
      [eventually] (every way the environment may go leads to a
      property: the liveness of a page), the hint database [ui] and
      shared lemmas.
    - [JsNumber]: JavaScript numbers as IEEE-754 doubles, the Standard
      Library's executable [SpecFloat] at precision 53: [JSON.parse] of
      an integer, [/], [*], [===] and the comparisons.  The lemmas
      describe the rounding of [SFdiv] and [SFmul] on safe integers
      ([0 < n < 2^53]): exact conversion, [n / n = 1], a quotient
      [v / t <= 1] for [v <= t], and [x * 100 <= 100] for [x <= 1].
    - [JsDate]: the browser's [Date] as [formatDate] uses it, from
      ECMA-262 and ECMA-402: the time value arithmetic ([Day],
      [DayFromYear], [YearFromTime] and the month table, [MakeDay],
      [TimeClip]) on [Z] milliseconds, [new Date(string)] on the Date
      Time String Format, and [toLocaleDateString('en-US', ...)].  The
      lemmas: the computed [YearFromTime] meets its specification
      ("the largest [y] with [TimeFromYear(y) <= t]"), [civil] inverts
      [MakeDay] on real dates, digits read back what they print.
    - [Task]: the [Task] record as the JSON the backend sends, and the
      display helpers of the list and dashboard pages; the status badge
      [statusLabel] ([status.replace('_', ' ')]) replaces the first
      underscore only, as the ECMAScript algorithm of
      [String.prototype.replace] ([js_replace]) does.
      [formatDate] runs in a time zone [tz] (minutes east of UTC); the
      theorems on the Due Date column: a due date stored as a date-only
      ISO string ([yyyy-mm-dd]) is shown as written at or east of UTC
      and as the day before west of it (the string is UTC midnight); a
      date-time without offset, the form of the edit page's
      [datetime-local] input, is shown as written everywhere; missing,
      malformed and overflowing dates.
    - [UrlParams]: [URLSearchParams] as the list page uses it: [append]
      and the [application/x-www-form-urlencoded] serializer
      ([toString]), with the matching parser and the round trip.
    - [TaskList]: [TasksPage] as a transition system.  A [World] holds
      the page state, the dependencies of the last effect run and the
      requests in flight; user events ([dispatch]: the handler, then the
      render and the effect on [[filters, searchTerm, page]], [commit])
      and network responses ([deliver]: the continuation after the
      [await]) are the steps of [step].  The theorems: the invariant of
      every reachable state; one list request per change of the query
      and none otherwise; the parameters and the URL of a list request
      (parsed back by the form-urlencoded parser); the pagination guards
      and the page each button requests; the two phases of a delete and
      every outcome of its response (which closes whatever dialog is
      open); and the outcome of every list response, applied whatever
      query it answers and clearing [loading] while other list requests
      may still be pending: the races the code leaves open.
    - [Collection]: the backend's contract as the class
      [TaskCollection] (list, delete, get by id, [PUT], the five recent
      tasks, the stats) with its laws [TaskCollectionLaws] (a listed task
      is what get answers for its id, a [PUT] stores its body, at most
      five recent tasks, counts that partition the total), and an
      in-memory instance that keeps them.  The theorems, for every lawful
      collection: answered by it, the dashboard settles on the
      collection's counts and recent tasks, with bars that are +0 for
      the empty statuses and otherwise in (0, 100]; and the
      edit page, from its [GET] through field edits and Submit to the
      answer of its [PUT], navigates back to the list with the collection
      holding the edited draft.
    - [TaskListRefine]: the list page against a collection:
      [drain], which answers the requests in flight oldest first.  The
      theorems: draining terminates (fuel: [weight], a list request 1 and
      a delete 2, since only a delete's continuation issues a request);
      sequential use refines the abstract page "the table is the
      collection's answer to the current query"; and, for every
      collection and settled page, even with answers in order, a search
      typed while a delete is pending is overwritten by the delete's
      refetch of the old query, so the page is left unsettled unless both
      queries have the same answer.
    - [EditTask]: [EditTaskPage] with the mount effect ([fetchTask]),
      [handleChange], the form submission (the browser's [required] check
      on the title, then [handleSubmit]) and its effects ([PUT], [alert],
      [router.push], [router.back]) logged in order.  The theorems: at
      most one [PUT] and one [GET] in flight; an empty title sends
      nothing; every [PUT] body fits the task schema (a non-empty title,
      enumerated status and priority when the loaded task's are, since
      the [Select]s offer only their items); field edits change only
      the draft, which the [PUT] then carries whole; every failure to
      load shows "Task not found"; every outcome of the [PUT] response.
    - [Dashboard]: [fetchDashboardData] split at its two [await]s, the
      Retry button, [calculateProgress] on doubles ([JsNumber]) and the
      rendered content (stats cards, recent tasks, status distribution).
      The theorems: on safe-integer counts [calculateProgress] is +0 for
      a zero count (for a zero total by its guard, where [0 / 0] would be
      NaN), positive and at most 100 otherwise, and exactly 100 for the
      whole total (3 of 10 gives exactly 30, computed);
      whatever the network answers, the page
      leaves loading after at most two answers; one request at a time with
      [loading] exactly while one is in flight; the recent tasks are
      requested only after the counts succeeded; every outcome of both
      responses; Retry.
    - [Theme]: [localStorage] as a [gmap], the root's class list, the
      provider's [setTheme] and mount effect, and the header's toggle.
      The React context is the class [ThemeContext] with the law
      [ctx_set_get]; the provider is a lawful instance and the default
      value of [createContext] is not.  The theorems: the stored value,
      the theme and the [dark] class agree in every reachable state; the
      toggle flips the theme for any lawful context; the initial theme
      and the spec's dark-preference scenario; the derived theme is
      persisted, so a reload ignores a changed OS preference; stored
      values other than the two themes are taken unchecked.
    - [App]: how the pages connect.  [resolve] is the App Router's
      mapping of paths to the [page.js] files of [src/app]; [Header] is
      the header component; the targets are every link and navigation
      of the pages.  The theorems: every target is served by a page
      except the Add Task links' [/tasks/new]; and, composing the list
      page, the router, the edit page and any lawful collection, the
      Edit link of a row of a settled list opens the edit page whose
      only request is the GET of that task and whose form the answer
      seeds with it.

    Each page's [World] is closed under its [step] relation; invariants
    are proved by [star_invariant] (rule induction on [star]) from the
    mount state.  Concrete traces are evaluated by [vm_compute]; the only
    definition with fuel is [TaskListRefine.drain], whose fuel is shown
    sufficient.  Dates use 4-digit ISO years (0000-9999)
    and zones within a day of UTC ([-1440 < tz < 1440] minutes), which
    covers every real zone; for these [TimeClip] never cuts.  Requests in flight carry the data their continuation
    captured (the query of the render that started them), so that the
    stale closures of the code are modelled as they are.

    What is not modelled: the JSX markup beyond the guards it puts on
    events (a disabled button, a dialog that is not open, rows that are
    not rendered while loading) and the links, and styling; the
    imported [ui/*] components; time zones with daylight saving and the
    browsers' fallback parsers for strings outside the ISO format;
    percent-decoding of route parameters; React's development-mode
    double effects (the effects are run once); the page behind
    [/tasks/new], which is not under [src/app]; and the backend itself:
    its list, delete and get endpoints are given by their contract, its
    other answers are the pages' response events, any of which may
    arrive at any time. *)

From stdpp Require Export base strings list.
From Stdlib Require Export Ascii ZArith DecimalString DecimalN.

Declare Scope ui_scope.
Delimit Scope ui_scope with ui.

Create HintDb ui.
Create Rewrite HintDb ui.

(** ** The [Hook] monad: a handler's [setState] calls and effects

    A React event handler or effect reads the state of the last render,
    performs [setX] calls and starts effects ([fetch], [alert],
    [router.push]).  [Hook S E A] threads the state [S] and collects the
    emitted effects of type [E] in program order. *)

Definition Hook (S E A : Type) : Type := S -> A * S * list E.

#[export] Instance hook_ret {S E} : MRet (Hook S E) := fun A a s => (a, s, []).
#[export] Instance hook_bind {S E} : MBind (Hook S E) :=
  fun A B k m s =>
    let '(a, s1, e1) := m s in
    let '(b, s2, e2) := k a s1 in (b, s2, (e1 ++ e2)%list).

(** [setX(v)] of a React state hook: a state update. *)
Definition set_state {S E} (f : S -> S) : Hook S E unit := fun s => (tt, f s, []).
(** The state as of the last render (a closure's view of [useState]). *)
Definition get_state {S E} : Hook S E S := fun s => (s, s, []).
(** An effect handed to the browser: a request, an alert, a navigation. *)
Definition emit {S E} (e : E) : Hook S E unit := fun s => (tt, s, [e]).

Definition run_hook {S E A} (m : Hook S E A) (s : S) : S * list E :=
  let '(_, s', es) := m s in (s', es).

(** Unfold the monad to its state-passing definition. *)
Ltac hook_unfold :=
  unfold run_hook, mbind, hook_bind, set_state, get_state, emit, mret, hook_ret.

(** ** JavaScript values that the code tests for truthiness *)

(** [a || b] where [a] is a string that may be absent ([null] or
    [undefined], here [None]): the empty string is falsy too. *)
Definition js_or_str (a : option string) (b : string) : string :=
  match a with
  | Some s => if String.eqb s "" then b else s
  | None => b
  end.

(** A JavaScript string is truthy when it is not empty. *)
Definition js_truthy (s : string) : bool := negb (String.eqb s "").

(** [String(n)] for a JavaScript number that is an integer. *)
Definition N_to_string (n : N) : string := NilEmpty.string_of_uint (N.to_uint n).
Definition js_number_string (z : Z) : string :=
  if (z <? 0)%Z then "-" +:+ N_to_string (Z.to_N (- z)) else N_to_string (Z.to_N z).

(** ** Requests in flight

    The fetches a page has started and whose promise has not settled,
    each with an id and what its continuation captured.  [issue] gives
    the requests a handler started fresh ids in program order; a
    response settles one request, which [remove_req] takes out. *)

Fixpoint issue {R} (rs : list R) (fl : list (nat * R)) (n : nat) : list (nat * R) * nat :=
  match rs with
  | [] => (fl, n)
  | r :: rs' => issue rs' (fl ++ [(n, r)]) (S n)
  end.

Definition find_req {R} (i : nat) (fl : list (nat * R)) : option (nat * R) :=
  List.find (fun p => Nat.eqb p.1 i) fl.

Definition remove_req {R} (i : nat) (fl : list (nat * R)) : list (nat * R) :=
  List.filter (fun p => negb (Nat.eqb p.1 i)) fl.

(** Ids below the next fresh id, and distinct. *)
Definition fresh_pool {R} (n : nat) (fl : list (nat * R)) : Prop :=
  Forall (fun p => p.1 < n) fl /\ NoDup (map fst fl).

(** ** Reachability: reflexive-transitive closure of a step relation *)

(** ** Liveness: every way the environment may go leads to [P]

    [ostep x Post] says that from [x] the environment can move, and
    that every state it may move to satisfies [Post] (the "omni-step"
    style of coqutil's [OmniSmallstepCombinators]).  [eventually P x]:
    [P] holds now, or after one such move whatever it turns out to be. *)
Section Eventually.
Variable A : Type.
Variable ostep : A -> (A -> Prop) -> Prop.

Inductive eventually (P : A -> Prop) : A -> Prop :=
| eventually_done x : P x -> eventually P x
| eventually_step x (mid : A -> Prop) :
    ostep x mid -> (forall y, mid y -> eventually P y) -> eventually P x.
End Eventually.
Arguments eventually {A} ostep P _.

Section Star.
Context {A : Type} (R : A -> A -> Prop).

Inductive star : A -> A -> Prop :=
| star_refl a : star a a
| star_step a b c : R a b -> star b c -> star a c.

Lemma star_one a b : R a b -> star a b.
Proof. eauto using star. Qed.

Lemma star_trans a b c : star a b -> star b c -> star a c.
Proof. induction 1; eauto using star. Qed.

Lemma star_right a b c : star a b -> R b c -> star a c.
Proof. eauto using star_trans, star_one. Qed.

(** An invariant that holds initially and is preserved by every step
    holds of every reachable state. *)
Lemma star_invariant (P : A -> Prop) a b :
  (forall x y, P x -> R x y -> P y) -> P a -> star a b -> P b.
Proof. intros Hstep Ha Hs. induction Hs; eauto. Qed.
End Star.

#[export] Hint Resolve star_refl star_one star_trans star_right : ui.

(** ** Shared lemmas *)

Lemma js_or_str_none b : js_or_str None b = b.
Proof. reflexivity. Qed.

Lemma js_or_str_empty b : js_or_str (Some "") b = b.
Proof. reflexivity. Qed.

Lemma js_or_str_truthy s b : s <> "" -> js_or_str (Some s) b = s.
Proof. intros Hs. cbn. destruct (String.eqb_spec s ""); congruence. Qed.

Lemma js_or_str_nonempty a b : b <> "" -> js_or_str a b <> "".
Proof.
  intros Hb. destruct a as [s|]; cbn; [|done].
  destruct (String.eqb_spec s ""); congruence.
Qed.

Lemma js_truthy_iff s : js_truthy s = true <-> s <> "".
Proof. unfold js_truthy. destruct (String.eqb_spec s ""); naive_solver. Qed.

#[export] Hint Rewrite js_or_str_none js_or_str_empty : ui.

Lemma string_app_cons c a b : String c a +:+ b = String c (a +:+ b).
Proof. reflexivity. Qed.

Lemma string_app_nil b : EmptyString +:+ b = b.
Proof. reflexivity. Qed.

Lemma string_app_nil_r a : a +:+ EmptyString = a.
Proof. induction a as [|c a IH]; [done|by rewrite string_app_cons, IH]. Qed.

Lemma string_app_assoc a b c : (a +:+ b) +:+ c = a +:+ (b +:+ c).
Proof. induction a as [|x a IH]; [done|by rewrite !string_app_cons, IH]. Qed.

#[export] Hint Rewrite string_app_cons string_app_nil : ui.

Lemma N_to_string_inj n m : N_to_string n = N_to_string m -> n = m.
Proof.
  unfold N_to_string. intros H.
  apply (f_equal NilEmpty.uint_of_string) in H. rewrite !NilEmpty.usu in H.
  injection H as H. by apply DecimalN.Unsigned.to_uint_inj.
Qed.

Lemma js_number_string_nonneg z : (0 <= z)%Z -> js_number_string z = N_to_string (Z.to_N z).
Proof. intros Hz. unfold js_number_string. by destruct (Z.ltb_spec z 0); [lia|]. Qed.

Section Pool.
Context {R : Type}.
Implicit Types (fl : list (nat * R)) (rs : list R).

Lemma issue_spec rs fl n :
  issue rs fl n = (fl ++ zip (seq n (length rs)) rs, n + length rs).
Proof.
  revert fl n. induction rs as [|r rs IH]; intros fl n; cbn.
  - by rewrite app_nil_r, Nat.add_0_r.
  - rewrite IH, <- app_assoc. f_equal. lia.
Qed.

Lemma map_snd_zip_seq n rs : map snd (zip (seq n (length rs)) rs) = rs.
Proof. revert n. induction rs as [|r rs IH]; intros n; cbn; [done|]. by rewrite IH. Qed.

Lemma map_snd_issue rs fl n : map snd (issue rs fl n).1 = map snd fl ++ rs.
Proof. by rewrite issue_spec; cbn; rewrite map_app, map_snd_zip_seq. Qed.

Lemma fresh_not_in n fl : Forall (fun p => p.1 < n) fl -> n ∉ map fst fl.
Proof.
  intros H Hin. apply list_elem_of_fmap in Hin as ([m r] & -> & Hin).
  rewrite Forall_forall in H. specialize (H _ Hin). cbn in H. lia.
Qed.

Lemma issue_fresh rs fl n :
  fresh_pool n fl -> fresh_pool (issue rs fl n).2 (issue rs fl n).1.
Proof.
  revert fl n. induction rs as [|r rs IH]; intros fl n [Hlt Hnd]; cbn; [done|].
  apply IH. split.
  - apply Forall_app; rewrite Forall_singleton; cbn; split; [|lia].
    apply (Forall_impl _ _ _ Hlt). intros [] ?; cbn in *; lia.
  - rewrite map_app. apply NoDup_app; split_and!; [done| |by apply NoDup_singleton].
    intros x Hx ->%list_elem_of_singleton. by apply (fresh_not_in n fl).
Qed.

Lemma issue_Forall (P : R -> Prop) rs fl n :
  Forall (fun p => P p.2) fl -> Forall P rs -> Forall (fun p => P p.2) (issue rs fl n).1.
Proof.
  revert fl n. induction rs as [|r rs IH]; intros fl n Hfl Hrs; cbn; [done|].
  apply Forall_cons in Hrs as [Hr Hrs]. apply IH; [|done].
  by apply Forall_app; rewrite Forall_singleton.
Qed.

Lemma remove_req_fst_incl i k fl : k ∈ map fst (remove_req i fl) -> k ∈ map fst fl.
Proof.
  intros (p & -> & Hin)%list_elem_of_fmap. apply list_elem_of_fmap. exists p.
  split; [done|]. unfold remove_req in Hin.
  by apply list_elem_of_In, filter_In in Hin as [Hin%list_elem_of_In _].
Qed.

Lemma remove_req_cons i j r fl :
  remove_req i ((j, r) :: fl) = if Nat.eqb j i then remove_req i fl else (j, r) :: remove_req i fl.
Proof. unfold remove_req; cbn. by destruct (Nat.eqb j i). Qed.

Lemma remove_req_fresh n i fl : fresh_pool n fl -> fresh_pool n (remove_req i fl).
Proof.
  induction fl as [|[j r] fl IH]; intros [Hlt Hnd]; [done|].
  apply Forall_cons in Hlt as [? ?]. cbn [map fst] in Hnd. apply NoDup_cons in Hnd as [Hj Hnd].
  destruct IH as [? ?]; [done|]. rewrite remove_req_cons. destruct (Nat.eqb j i); [done|].
  split; [by constructor|]. cbn [map fst]. apply NoDup_cons. split; [|done].
  intros Hin. by apply Hj, (remove_req_fst_incl i).
Qed.

Lemma remove_req_Forall (P : R -> Prop) i fl :
  Forall (fun p => P p.2) fl -> Forall (fun p => P p.2) (remove_req i fl).
Proof.
  intros H. apply Forall_forall. intros p Hin. rewrite Forall_forall in H. apply H.
  unfold remove_req in Hin. by apply list_elem_of_In, filter_In in Hin as [Hin%list_elem_of_In _].
Qed.

Lemma find_req_some i fl p : find_req i fl = Some p -> p ∈ fl /\ p.1 = i.
Proof.
  intros Hf. apply find_some in Hf as [Hin Hi%Nat.eqb_eq]. by split; [apply list_elem_of_In|].
Qed.

Lemma find_req_by_id i r fl : NoDup (map fst fl) -> (i, r) ∈ fl -> find_req i fl = Some (i, r).
Proof.
  unfold find_req. induction fl as [|[j r'] fl IH]; intros Hnd Hin; [by apply not_elem_of_nil in Hin|].
  cbn [map fst] in Hnd. apply NoDup_cons in Hnd as [Hj Hnd]. cbn.
  apply elem_of_cons in Hin as [[= -> ->]|Hin]; [by rewrite Nat.eqb_refl|].
  destruct (Nat.eqb_spec j i) as [->|]; [|by apply IH].
  exfalso. apply Hj, list_elem_of_fmap. by exists (i, r).
Qed.

Lemma remove_req_notin i fl : i ∉ map fst fl -> remove_req i fl = fl.
Proof.
  induction fl as [|[j r] fl IH]; intros Hi; [done|]. rewrite remove_req_cons.
  cbn [map fst] in Hi. apply not_elem_of_cons in Hi as [Hij Hi].
  destruct (Nat.eqb_spec j i); [congruence|]. by rewrite IH.
Qed.

(** With distinct ids, taking request [i] out leaves the others. *)
Lemma remove_req_perm i r fl :
  NoDup (map fst fl) -> (i, r) ∈ fl -> map snd fl ≡ₚ r :: map snd (remove_req i fl).
Proof.
  induction fl as [|[j r'] fl IH]; intros Hnd Hin; [by apply not_elem_of_nil in Hin|].
  cbn [map fst] in Hnd. apply NoDup_cons in Hnd as [Hj Hnd]. rewrite remove_req_cons.
  apply elem_of_cons in Hin as [[= -> ->]|Hin].
  - rewrite Nat.eqb_refl, remove_req_notin by done. done.
  - destruct (Nat.eqb_spec j i) as [->|Hji].
    { exfalso. apply Hj, list_elem_of_fmap. by exists (i, r). }
    cbn [map snd]. rewrite (IH Hnd Hin). by constructor.
Qed.
Lemma filter_length_perm (p : R -> bool) (l l' : list R) :
  l ≡ₚ l' -> length (List.filter p l) = length (List.filter p l').
Proof.
  induction 1 as [|x l l' _ IH|x y l|l l' l'' _ IH1 _ IH2]; cbn; [done| | |lia].
  - destruct (p x); cbn; lia.
  - destruct (p x), (p y); cbn; lia.
Qed.

End Pool.

Lemma run_hook_bind {S E A B} (m : Hook S E A) (k : A -> Hook S E B) s :
  run_hook (m ≫= k) s =
  let '(a, s1, e1) := m s in let '(s2, e2) := run_hook (k a) s1 in (s2, (e1 ++ e2)%list).
Proof.
  unfold run_hook, mbind, hook_bind. destruct (m s) as [[a s1] e1].
  by destruct (k a s1) as [[b s2] e2].
Qed.
