(* ===== verification/JsNumber.v ===== *)
(** * JavaScript numbers: IEEE-754 binary64

    A JavaScript number is a double (ECMA-262, 6.1.6.1).  It is modelled
    by the Standard Library's [SpecFloat.spec_float] at precision 53 and
    maximal exponent 1024, whose operations [SFdiv], [SFmul] and
    [SFcompare] are executable definitions of IEEE-754 round-to-nearest-even
    arithmetic: [x / 0] is an infinity or NaN, results are rounded.

    [of_Z n] is the number an integer literal [n] of a JSON body parses
    to (the nearest double); [strict_eq] is [===] on numbers (NaN is not
    equal to itself, +0 and -0 are equal).

    The lemmas characterise the three operations the dashboard performs
    on safe integers ([0 < n < 2^53]): the conversion is exact and
    normal ([of_int_normal]), a number divided by itself is exactly 1
    ([div_self]), a quotient [v / t] with [v < t] is a normal double at
    most 1 ([div_lt_one]), and such a double times 100 is at most 100
    ([mul_hundred_le]).  They rest on a description of the rounding
    ([round_aux_below]): the shifts of [shr] divide the mantissa by a
    power of 2 ([shifted]), and rounding adds at most 1 to it. *)

From Stdlib Require Import ZArith Lia Floats.SpecFloat.
From S2P Require Import Prelude.

Module JsNumber.
Local Open Scope Z_scope.

(** Binary64: 53 bits of precision, exponents below 1024. *)
Abbreviation prec := 53%Z.
Abbreviation emax := 1024%Z.

Definition number := spec_float.

(** [JSON.parse] of an integer literal. *)
Definition of_Z (n : Z) : number := binary_normalize prec emax n 0 false.

(** The literal [0]. *)
Definition zero : number := S754_zero false.

Definition div (x y : number) : number := SFdiv prec emax x y.
Definition mul (x y : number) : number := SFmul prec emax x y.

(** [===], [<=] and [<] on numbers. *)
Definition strict_eq (x y : number) : bool := SFeqb x y.
Definition le (x y : number) : bool := SFleb x y.
Definition lt (x y : number) : bool := SFltb x y.

(** The doubles 1 and 100. *)
Abbreviation one := (S754_finite false 4503599627370496 (-52)).
Abbreviation hundred := (S754_finite false 7036874417766400 (-46)).

(** ** Rounding *)

Definition sticky (x : shr_record) : bool := shr_r x || shr_s x.

(** [k] right shifts of [x] give [y]: the mantissa is divided by [2^k],
    and [y] is exact when [x] was and no bit was lost. *)
Definition shifted (k : Z) (x y : shr_record) : Prop :=
  0 <= shr_m x -> 0 <= shr_m y /\ shr_m y = shr_m x / 2 ^ k /\
  (sticky y = false <-> sticky x = false /\ shr_m x mod 2 ^ k = 0).

Lemma digits2_pos_bounds p :
  2 ^ (Zpos (digits2_pos p) - 1) <= Zpos p < 2 ^ Zpos (digits2_pos p).
Proof.
  induction p as [p IH|p IH|]; cbn [digits2_pos]; [..|cbn; lia];
  rewrite Pos2Z.inj_succ, Z.pow_succ_r by lia;
  replace (Z.succ (Zpos (digits2_pos p)) - 1) with (Zpos (digits2_pos p)) by lia;
  replace (Zpos (digits2_pos p)) with (Z.succ (Zpos (digits2_pos p) - 1)) at 1 by lia;
  rewrite Z.pow_succ_r by lia; lia.
Qed.

Lemma digits2_pos_unique p d :
  2 ^ (d - 1) <= Zpos p < 2 ^ d -> Zpos (digits2_pos p) = d.
Proof.
  intros Hd. pose proof (digits2_pos_bounds p) as Hp.
  assert (1 <= Zpos (digits2_pos p)) by lia.
  destruct (Z.lt_trichotomy (Zpos (digits2_pos p)) d) as [Hlt|[Heq|Hgt]]; [|done|].
  - assert (2 ^ Zpos (digits2_pos p) <= 2 ^ (d - 1)) by (apply Z.pow_le_mono_r; lia). lia.
  - assert (2 ^ d <= 2 ^ (Zpos (digits2_pos p) - 1)) by (apply Z.pow_le_mono_r; lia). lia.
Qed.



Lemma shr_1_shifted x : shifted 1 x (shr_1 x).
Proof.
  destruct x as [m r s]; intros Hm; cbn in Hm |- *.
  change (2 ^ 1) with 2. destruct m as [|[p|p|]|p]; cbn; unfold sticky; cbn; try lia.
  - split_and!; [lia|reflexivity|destruct r, s; compute; intuition congruence].
  - assert (Zpos p~1 / 2 = Zpos p /\ Zpos p~1 mod 2 = 1) as [-> ->]
      by (rewrite Pos2Z.inj_xI; split; Z.div_mod_to_equations; lia).
    split_and!; [lia|lia|destruct r, s; compute; intuition congruence].
  - assert (Zpos p~0 / 2 = Zpos p /\ Zpos p~0 mod 2 = 0) as [-> ->]
      by (rewrite Pos2Z.inj_xO; split; Z.div_mod_to_equations; lia).
    split_and!; [lia|lia|destruct r, s; compute; intuition congruence].
  - split_and!; [lia|reflexivity|destruct r, s; compute; intuition congruence].
Qed.

Lemma shifted_trans a b x y z :
  0 <= a -> 0 <= b -> shifted a x y -> shifted b y z -> shifted (a + b) x z.
Proof.
  intros Ha Hb Hxy Hyz Hx. destruct (Hxy Hx) as (Hy & Hmy & Hsy).
  destruct (Hyz Hy) as (Hz & Hmz & Hsz).
  assert (0 < 2 ^ a) by (apply Z.pow_pos_nonneg; lia).
  assert (0 < 2 ^ b) by (apply Z.pow_pos_nonneg; lia).
  rewrite Hmz, Hmy, Z.div_div, <- Z.pow_add_r by lia. split_and!; [apply Z.div_pos; lia|done|].
  rewrite Hsz, Hsy, Z.pow_add_r, Z.rem_mul_r by lia. rewrite <- Hmy.
  pose proof (Z.mod_pos_bound (shr_m x) (2 ^ a)). pose proof (Z.mod_pos_bound (shr_m y) (2 ^ b)).
  split; [intros [[? ?] ?]; split; [done|nia]|intros [? ?]].
  assert (shr_m x mod 2 ^ a = 0 /\ shr_m y mod 2 ^ b = 0) as [? ?] by nia. tauto.
Qed.

Lemma iter_shr_1_shifted p x : shifted (Zpos p) x (SpecFloat.iter_pos shr_1 p x).
Proof.
  revert x. induction p as [p IH|p IH|]; intros x; cbn [iter_pos].
  - rewrite Pos2Z.inj_xI. replace (2 * Zpos p + 1) with (1 + (Zpos p + Zpos p)) by lia.
    eapply shifted_trans; [lia|lia|apply shr_1_shifted|].
    eapply shifted_trans; [lia|lia|apply IH|apply IH].
  - rewrite Pos2Z.inj_xO. replace (2 * Zpos p) with (Zpos p + Zpos p) by lia.
    eapply shifted_trans; [lia|lia|apply IH|apply IH].
  - apply shr_1_shifted.
Qed.

Lemma shr_shifted x e n :
  0 <= n -> (shr x e n).2 = e + n /\ shifted n x (shr x e n).1.
Proof.
  intros Hn. destruct n as [|p|p]; cbn; [|split; [done|apply iter_shr_1_shifted]|lia].
  split; [lia|]. intros Hx. rewrite Z.div_1_r, Z.mod_1_r. tauto.
Qed.


Lemma fexp_normal x : -1074 <= x - prec -> fexp prec emax x = x - prec.
Proof. unfold fexp, emin. lia. Qed.

Lemma round_nearest_even_range m l : m <= round_nearest_even m l <= m + 1.
Proof. destruct l as [|[]]; cbn; try lia. destruct (Z.even m); lia. Qed.

Lemma Zdigits2_pos p : Zdigits2 (Zpos p) = Zpos (digits2_pos p).
Proof. reflexivity. Qed.

(** Rounding a mantissa [m] of [d >= 53] digits at exponent [e] in the
    normal range gives a normal double, and if [m] is below [N * 2^(d-53)]
    the result, scaled to the exponent [d + e - 53], is at most [N]. *)
Lemma round_aux_below (m : positive) e l N :
  let d := Zpos (digits2_pos m) in
  prec <= d -> -1074 <= d + e - prec -> d + e - prec < emax - prec ->
  Zpos m < N * 2 ^ (d - prec) ->
  exists m' e', binary_round_aux prec emax false (Zpos m) e l = S754_finite false m' e' /\
    2 ^ 52 <= Zpos m' < 2 ^ 53 /\ d + e - prec <= e' /\ Zpos m' * 2 ^ (e' - (d + e - prec)) <= N.
Proof.
  intros d Hd Hlo Hhi HN. pose proof (digits2_pos_bounds m) as Hm. fold d in Hm.
  unfold binary_round_aux, shr_fexp. rewrite Zdigits2_pos. fold d.
  rewrite fexp_normal by lia. replace (d + e - prec - e) with (d - prec) by lia.
  destruct (shr_shifted (shr_record_of_loc (Zpos m) l) e (d - prec)) as [He1 Hs1]; [lia|].
  destruct (shr _ e (d - prec)) as [mrs1 e1]; cbn in He1, Hs1.
  destruct (Hs1 ltac:(destruct l as [|[]]; cbn; lia)) as (_ & Hm1 & _).
  replace (shr_m (shr_record_of_loc (Zpos m) l)) with (Zpos m) in Hm1 by (destruct l as [|[]]; reflexivity).
  assert (0 < 2 ^ (d - prec)) by (apply Z.pow_pos_nonneg; lia).
  assert (2 ^ 52 <= shr_m mrs1 < 2 ^ 53) as Hr1.
  { rewrite Hm1. split.
    - apply Z.div_le_lower_bound; [lia|]. rewrite <- Z.pow_add_r by lia.
      replace (d - prec + 52) with (d - 1) by lia. lia.
    - apply Z.div_lt_upper_bound; [lia|]. rewrite <- Z.pow_add_r by lia.
      replace (d - prec + 53) with d by lia. lia. }
  assert (shr_m mrs1 < N) as HN1 by (rewrite Hm1; apply Z.div_lt_upper_bound; lia).
  pose proof (round_nearest_even_range (shr_m mrs1) (loc_of_shr_record mrs1)) as Hrn.
  destruct (round_nearest_even _ _) as [|rn|rn] eqn:Ern; [lia| |lia].
  rewrite Zdigits2_pos.
  destruct (Z.eq_dec (Zpos rn) (2 ^ 53)) as [Hc|Hc].
  - assert (Zpos (digits2_pos rn) = 54) as -> by (apply digits2_pos_unique; rewrite Hc; cbn; lia).
    rewrite fexp_normal by lia. replace (54 + e1 - prec - e1) with 1 by lia. cbn.
    assert (rn = 9007199254740992%positive) as -> by lia. cbn.
    rewrite (proj2 (Z.leb_le _ _)) by lia. eexists _, _. split; [reflexivity|].
    split_and!; [cbn; lia..|]. replace (e1 + 1 - (d + e - prec)) with 1 by lia. cbn. lia.
  - assert (Zpos (digits2_pos rn) = 53) as -> by (apply digits2_pos_unique; cbn; lia).
    rewrite fexp_normal by lia. replace (53 + e1 - prec - e1) with 0 by lia. cbn.
    rewrite (proj2 (Z.leb_le _ _)) by lia. eexists _, _. split; [reflexivity|].
    split_and!; [lia..|]. replace (e1 - (d + e - prec)) with 0 by lia. cbn. lia.
Qed.

Lemma round_aux_53 (m : positive) e :
  Zpos (digits2_pos m) = prec -> -1074 <= e -> e <= emax - prec ->
  binary_round_aux prec emax false (Zpos m) e loc_Exact = S754_finite false m e.
Proof.
  intros Hd Hlo Hhi. unfold binary_round_aux, shr_fexp. rewrite Zdigits2_pos, Hd, fexp_normal by lia.
  replace (53 + e - 53 - e) with 0 by lia. cbn. rewrite Hd, fexp_normal by lia.
  replace (53 + e - 53 - e) with 0 by lia. cbn.
  rewrite (proj2 (Z.leb_le _ _)) by lia. reflexivity.
Qed.

Lemma iter_xO (m k : positive) : Zpos (Pos.iter xO m k) = Zpos m * 2 ^ Zpos k.
Proof.
  induction k as [|k IH] using Pos.peano_ind; [cbn; lia|].
  rewrite Pos.iter_succ, Pos2Z.inj_succ, Z.pow_succ_r by lia. rewrite Pos2Z.inj_xO, IH. lia.
Qed.

(** A safe integer [0 < n < 2^53] is a normal double [m * 2^e] with
    [e <= 0]: its mantissa is [n] shifted to 53 bits. *)
Lemma of_int_normal (n : Z) :
  0 < n < 2 ^ 53 ->
  exists m e, binary_normalize prec emax n 0 false = S754_finite false m e /\
    2 ^ 52 <= Zpos m < 2 ^ 53 /\ -52 <= e <= 0 /\ Zpos m = n * 2 ^ (- e).
Proof.
  intros Hn. destruct n as [|p|p]; [lia| |lia]. cbn [binary_normalize].
  pose proof (digits2_pos_bounds p) as Hp. set (d := Zpos (digits2_pos p)) in Hp.
  assert (d <= 53).
  { destruct (Z.le_gt_cases d 53) as [|Hgt]; [done|].
    assert (2 ^ 53 <= 2 ^ (d - 1)) by (apply Z.pow_le_mono_r; lia). lia. }
  unfold binary_round, shl_align. rewrite fexp_normal by lia. fold d.
  replace (d + 0 - prec - 0) with (d - 53) by lia.
  destruct (Z.eq_dec d 53) as [Hd|Hd].
  - rewrite Hd. change (53 - 53) with 0. cbv beta iota zeta. rewrite round_aux_53 by lia. eexists _, _. split; [reflexivity|].
    rewrite Hd in Hp. cbn in Hp |- *. lia.
  - destruct (d - 53) as [|k|k] eqn:Ek; [lia|lia|].
    assert (Zpos (Pos.iter xO p k) = Zpos p * 2 ^ (53 - d)) as Hit by (rewrite iter_xO; f_equal; f_equal; lia).
    assert (2 ^ 52 <= Zpos p * 2 ^ (53 - d) < 2 ^ 53).
    { assert (2 ^ (d - 1) * 2 ^ (53 - d) = 2 ^ 52) by (rewrite <- Z.pow_add_r by lia; f_equal; lia).
      assert (2 ^ d * 2 ^ (53 - d) = 2 ^ 53) by (rewrite <- Z.pow_add_r by lia; f_equal; lia).
      assert (0 < 2 ^ (53 - d)) by (apply Z.pow_pos_nonneg; lia). nia. }
    rewrite round_aux_53.
    + eexists _, _. split; [reflexivity|]. rewrite Hit. split_and!; try lia. f_equal; f_equal; lia.
    + apply digits2_pos_unique. rewrite Hit. lia.
    + lia.
    + lia.
Qed.

Lemma div_eucl_div_mod a b : Z.div_eucl a b = (a / b, a mod b).
Proof. unfold Z.div, Z.modulo. by destruct (Z.div_eucl a b). Qed.


(** A finite double divided by itself is exactly 1. *)
Lemma div_self s m e : SFdiv prec emax (S754_finite s m e) (S754_finite s m e) = one.
Proof.
  unfold SFdiv, SFdiv_core_binary. rewrite Z.sub_diag, Bool.xorb_nilpotent.
  replace (Zdigits2 (Zpos m) + e - (Zdigits2 (Zpos m) + e)) with 0 by lia. cbn - [Z.shiftl Z.div_eucl].
  replace (fexp 53 1024 0) with (-53) by reflexivity. replace (0 - Z.min (-53) 0) with 53 by reflexivity.
  cbv beta iota. rewrite div_eucl_div_mod, Z.shiftl_mul_pow2 by lia. rewrite (Z.mul_comm (Zpos m)), Z.div_mul, Z.mod_mul by lia.
  unfold new_location, new_location_even, new_location_odd. by destruct (Z.even _).
Qed.

Lemma leb_finite m1 e1 m2 e2 :
  SFleb (S754_finite false m1 e1) (S754_finite false m2 e2) = true <->
  e1 < e2 \/ (e1 = e2 /\ Zpos m1 <= Zpos m2).
Proof.
  unfold SFleb; cbn. change (PosDef.Pos.compare_cont Eq m1 m2) with (Pos.compare m1 m2).
  destruct (Z.compare_spec e1 e2); [|split; [lia|done]|split; [done|lia]].
  destruct (Pos.compare_spec m1 m2); split; try done; lia.
Qed.

(** Two normal doubles compared through their values scaled by [2^-c]. *)
Lemma leb_scaled m1 e1 m2 e2 c :
  2 ^ 52 <= Zpos m1 -> Zpos m2 < 2 ^ 53 -> c <= e1 -> c <= e2 ->
  Zpos m1 * 2 ^ (e1 - c) <= Zpos m2 * 2 ^ (e2 - c) ->
  SFleb (S754_finite false m1 e1) (S754_finite false m2 e2) = true.
Proof.
  intros H1 H2 Hc1 Hc2 Hle. apply leb_finite.
  destruct (Z.lt_trichotomy e1 e2) as [|[<-|Hgt]]; [by left| |].
  - right. split; [done|]. assert (0 < 2 ^ (e1 - c)) by (apply Z.pow_pos_nonneg; lia). nia.
  - exfalso. assert (0 < 2 ^ (e2 - c)) by (apply Z.pow_pos_nonneg; lia).
    assert (2 ^ (e1 - c) = 2 * 2 ^ (e1 - c - 1)) as Hs by (rewrite <- Z.pow_succ_r by lia; f_equal; lia).
    assert (2 ^ (e2 - c) <= 2 ^ (e1 - c - 1)) by (apply Z.pow_le_mono_r; lia). nia.
Qed.

Lemma div_core_normal mx ex my ey :
  Zpos (digits2_pos mx) = prec -> Zpos (digits2_pos my) = prec -> -1000 <= ex - ey <= 1000 ->
  SFdiv_core_binary prec emax (Zpos mx) ex (Zpos my) ey =
  (Zpos mx * 2 ^ 53 / Zpos my, ex - ey - 53, new_location (Zpos my) (Zpos mx * 2 ^ 53 mod Zpos my)).
Proof.
  intros Hx Hy He. unfold SFdiv_core_binary. cbv zeta. rewrite !Zdigits2_pos, Hx, Hy.
  rewrite fexp_normal, Z.min_l by lia. replace (ex - ey - (53 + ex - (53 + ey) - 53)) with 53 by lia.
  cbv beta iota. rewrite Z.shiftl_mul_pow2, div_eucl_div_mod by lia. do 2 f_equal; lia.
Qed.

Lemma pow2_pos k : 0 <= k -> 0 < 2 ^ k.
Proof. intros. apply Z.pow_pos_nonneg; lia. Qed.

(** The quotient of two safe integers [0 < v < t] is a normal double
    at most 1. *)
Lemma div_lt_one v t :
  0 < v < t -> t < 2 ^ 53 ->
  exists m e, SFdiv prec emax (binary_normalize prec emax v 0 false) (binary_normalize prec emax t 0 false) =
    S754_finite false m e /\ 2 ^ 52 <= Zpos m < 2 ^ 53 /\ -200 <= e /\ SFleb (S754_finite false m e) one = true.
Proof.
  intros Hv Ht.
  destruct (of_int_normal v) as (mv & ev & -> & Hmv & Hev & Hv'); [lia|].
  destruct (of_int_normal t) as (mt & et & -> & Hmt & Het & Ht'); [lia|].
  unfold SFdiv. rewrite div_core_normal; [|apply digits2_pos_unique; cbn; lia..|lia]. cbv beta iota.
  (* the exponents: [delta = et - ev >= 0] and [mv < mt * 2^delta] *)
  assert (Zpos mv * 2 ^ (- et) < Zpos mt * 2 ^ (- ev)) as Hlt.
  { rewrite Hv', Ht', <- !Z.mul_assoc, (Z.mul_comm (2 ^ (- ev))).
    pose proof (pow2_pos (- ev)). pose proof (pow2_pos (- et)). nia. }
  assert (0 <= et - ev) as Hd.
  { destruct (Z.le_gt_cases 0 (et - ev)) as [|Hneg]; [done|exfalso].
    replace (2 ^ (- et)) with (2 ^ (- ev) * 2 ^ (ev - et)) in Hlt by (rewrite <- Z.pow_add_r by lia; f_equal; lia).
    assert (2 <= 2 ^ (ev - et)) by (change 2 with (2 ^ 1) at 1; apply Z.pow_le_mono_r; lia).
    assert (Zpos mv * 2 ^ (ev - et) < Zpos mt).
    { apply (Z.mul_lt_mono_pos_r (2 ^ (- ev))); [apply pow2_pos; lia|lia]. }
    nia. }
  assert (Zpos mv < Zpos mt * 2 ^ (et - ev)) as Hlt'.
  { replace (2 ^ (- ev)) with (2 ^ (- et) * 2 ^ (et - ev)) in Hlt by (rewrite <- Z.pow_add_r by lia; f_equal; lia).
    apply (Z.mul_lt_mono_pos_r (2 ^ (- et))); [apply pow2_pos; lia|lia]. }
  set (q := Zpos mv * 2 ^ 53 / Zpos mt).
  assert (2 ^ 52 <= q) as Hq1 by (apply Z.div_le_lower_bound; lia).
  assert (q < 2 ^ (53 + (et - ev))) as Hq2.
  { apply Z.div_lt_upper_bound; [lia|]. rewrite Z.pow_add_r by lia. nia. }
  destruct q as [|qp|qp] eqn:Eq; [lia| |lia].
  pose proof (digits2_pos_bounds qp) as Hqd. set (d := Zpos (digits2_pos qp)) in Hqd.
  assert (53 <= d).
  { destruct (Z.le_gt_cases 53 d) as [|Hgt]; [done|].
    assert (2 ^ d <= 2 ^ 52) by (apply Z.pow_le_mono_r; lia). lia. }
  assert (d <= 53 + (et - ev)).
  { destruct (Z.le_gt_cases d (53 + (et - ev))) as [|Hgt]; [done|].
    assert (2 ^ (53 + (et - ev)) <= 2 ^ (d - 1)) by (apply Z.pow_le_mono_r; lia). lia. }
  set (c := d + (ev - et - 53) - prec).
  change (xorb false false) with false.
  destruct (round_aux_below qp (ev - et - 53) (new_location (Zpos mt) (Zpos mv * 2 ^ 53 mod Zpos mt))
              (2 ^ (- c))) as (m' & e' & -> & Hm' & Hc & HN); [lia|lia|lia| |].
  { fold d. rewrite <- Z.pow_add_r by lia. replace (- c + (d - prec)) with (53 + (et - ev)) by lia. lia. }
  exists m', e'. split_and!; [done|lia|lia|lia|]. apply (leb_scaled _ _ _ _ c); [lia|cbn; lia|lia|lia|].
  change (Zpos (digits2_pos qp) + (ev - et - 53) - 53) with c in HN.
  change 4503599627370496 with (2 ^ 52). rewrite <- Z.pow_add_r by lia.
  replace (52 + (-52 - c)) with (- c) by lia. lia.
Qed.


(** A normal double at most 1, multiplied by 100, is at most 100. *)
Lemma mul_hundred_le m e :
  2 ^ 52 <= Zpos m < 2 ^ 53 -> -200 <= e -> SFleb (S754_finite false m e) one = true ->
  exists m' e', SFmul prec emax (S754_finite false m e) hundred = S754_finite false m' e' /\
    SFleb (S754_finite false m' e') hundred = true.
Proof.
  intros Hm He Hle. apply leb_finite in Hle as [Hlt|[-> Hle]].
  2:{ assert (m = 4503599627370496%positive) as -> by (cbn in *; lia). eexists _, _. split; reflexivity. }
  unfold SFmul. change (xorb false false) with false.
  set (h := 7036874417766400%positive).
  pose proof (digits2_pos_bounds (m * h)) as Hd. set (d := Zpos (digits2_pos (m * h))) in Hd.
  rewrite Pos2Z.inj_mul in Hd. change (Zpos h) with (100 * 2 ^ 46) in Hd.
  assert (105 <= d <= 106).
  { split; [destruct (Z.le_gt_cases 105 d) as [|Hgt]; [done|] | destruct (Z.le_gt_cases d 106) as [|Hgt]; [done|]].
    - assert (2 ^ d <= 2 ^ 104) by (apply Z.pow_le_mono_r; lia). nia.
    - assert (2 ^ 106 <= 2 ^ (d - 1)) by (apply Z.pow_le_mono_r; lia). nia. }
  set (c := d + (e + -46) - prec).
  destruct (round_aux_below (m * h) (e + -46) loc_Exact (Zpos h * 2 ^ (-46 - c)))
    as (m' & e' & -> & Hm' & Hc & HN); [fold d; lia..| |].
  { fold d. rewrite Pos2Z.inj_mul, <- Z.mul_assoc, <- Z.pow_add_r by lia.
    replace (-46 - c + (d - prec)) with (- e) by lia.
    assert (2 ^ 53 <= 2 ^ (- e)) by (apply Z.pow_le_mono_r; lia). change (Zpos h) with (100 * 2 ^ 46). nia. }
  exists m', e'. split; [done|]. apply (leb_scaled _ _ _ _ c); [lia|cbn; lia|lia|lia|exact HN].
Qed.

(** ** The operations on safe integers *)

Lemma of_Z_one : of_Z 1 = one.
Proof. reflexivity. Qed.

Lemma of_Z_hundred : of_Z 100 = hundred.
Proof. reflexivity. Qed.

Lemma of_Z_zero : of_Z 0 = zero.
Proof. reflexivity. Qed.

Lemma of_Z_finite n :
  0 < n < 2 ^ 53 -> exists m e, of_Z n = S754_finite false m e.
Proof. intros Hn. destruct (of_int_normal n Hn) as (m & e & He & _). by exists m, e. Qed.

Lemma div_of_Z_self n : 0 < n < 2 ^ 53 -> div (of_Z n) (of_Z n) = one.
Proof. intros Hn. destruct (of_Z_finite n Hn) as (m & e & ->). apply div_self. Qed.

Lemma div_zero_of_Z n : 0 < n < 2 ^ 53 -> div zero (of_Z n) = zero.
Proof. intros Hn. destruct (of_Z_finite n Hn) as (m & e & ->). reflexivity. Qed.

Lemma mul_zero_hundred : mul zero hundred = zero.
Proof. reflexivity. Qed.

Lemma mul_one_hundred : mul one hundred = hundred.
Proof. reflexivity. Qed.

(** For safe integers [0 < v <= t], [v / t * 100] is a positive double at
    most 100. *)
Lemma percent_bounds v t :
  0 < v <= t -> t < 2 ^ 53 ->
  exists m e, mul (div (of_Z v) (of_Z t)) hundred = S754_finite false m e /\
    le (S754_finite false m e) hundred = true.
Proof.
  intros Hv Ht. destruct (Z.eq_dec v t) as [->|Hne].
  - rewrite div_of_Z_self, mul_one_hundred by lia. by eexists _, _.
  - destruct (div_lt_one v t) as (m & e & He & Hm & Hlo & Hle); [lia|lia|].
    unfold mul, div, of_Z. rewrite He. by apply mul_hundred_le.
Qed.

End JsNumber.
