(* ===== verification/JsDate.v ===== *)
(** * ECMAScript [Date] as [formatDate] uses it

    [formatDate] (app/tasks/page.js, lines 26-31) prints a due date with
    [new Date(dateString).toLocaleDateString('en-US', {year: 'numeric',
    month: 'short', day: 'numeric'})].  The browser code is not part of
    the repository; this file models it from ECMA-262 (section 21.4) and
    ECMA-402 for the one call the page makes:

    - the time value arithmetic of 21.4.1 ([Day], [DayFromYear],
      [YearFromTime], [MonthFromTime], [DateFromTime], [MakeDay],
      [MakeTime], [MakeDate], [TimeClip]), on [Z] milliseconds;
    - [Date.parse] on the Date Time String Format of 21.4.1.32
      ([YYYY], [YYYY-MM], [YYYY-MM-DD], each optionally followed by
      [THH:mm], [THH:mm:ss] or [THH:mm:ss.sss] and an offset [Z] or
      [+HH:mm]/[-HH:mm]; six-digit signed years).  A date-only form is
      UTC, a date-time form without offset is local time.  Strings
      outside the format are [NaN] ([None]): the implementation-specific
      fallback parsers of browsers are not modelled;
    - [toLocaleDateString] for [en-US] with those options: ["Invalid
      Date"] for [NaN], otherwise ["MMM d, y"] of the local date.

    The local time zone is a fixed offset [tz] in minutes east of UTC
    (UTC-5 is [-300]); zones with daylight saving are not modelled.

    [YearFromTime] is specified as "the largest [y] such that
    [TimeFromYear(y) <= t]"; [YearFromDay] computes it from an estimate
    by the mean Gregorian year (146097 days per 400 years) corrected by
    one, and [YearFromDay_spec] proves it meets the specification. *)

From S2P Require Import Prelude.

Module JsDate.
Local Open Scope Z_scope.

(** ** Time values (ECMA-262 21.4.1) *)

Definition msPerSecond : Z := 1000.
Definition msPerMinute : Z := 60000.
Definition msPerHour : Z := 3600000.
Definition msPerDay : Z := 86400000.

(** [Day(t)] and [TimeWithinDay(t)]: [floor] and [modulo]. *)
Definition Day (t : Z) : Z := t / msPerDay.
Definition TimeWithinDay (t : Z) : Z := t mod msPerDay.

Definition DaysInYear (y : Z) : Z :=
  if negb (y mod 4 =? 0) then 365
  else if negb (y mod 100 =? 0) then 366
  else if negb (y mod 400 =? 0) then 365
  else 366.

Definition DayFromYear (y : Z) : Z :=
  365 * (y - 1970) + (y - 1969) / 4 - (y - 1901) / 100 + (y - 1601) / 400.

(** [InLeapYear] as a number, 0 or 1. *)
Definition InLeapYear (y : Z) : Z := DaysInYear y - 365.

(** [YearFromTime] on a day number: the mean-year estimate, corrected. *)
Definition year_estimate (d : Z) : Z := 1970 + (400 * d) / 146097.

Definition YearFromDay (d : Z) : Z :=
  let y := year_estimate d in
  if DayFromYear (y + 1) <=? d then y + 1
  else if d <? DayFromYear y then y - 1
  else y.

(** The first day of each month in a year ([leap] is [InLeapYear]). *)
Definition month_start (leap m : Z) : Z :=
  if m =? 0 then 0 else if m =? 1 then 31 else if m =? 2 then 59 + leap
  else if m =? 3 then 90 + leap else if m =? 4 then 120 + leap
  else if m =? 5 then 151 + leap else if m =? 6 then 181 + leap
  else if m =? 7 then 212 + leap else if m =? 8 then 243 + leap
  else if m =? 9 then 273 + leap else if m =? 10 then 304 + leap
  else 334 + leap.

(** [MonthFromTime], on the day within the year, as the table of
    21.4.1.11 gives it. *)
Definition MonthFromDwy (leap dwy : Z) : Z :=
  if dwy <? 31 then 0 else if dwy <? 59 + leap then 1
  else if dwy <? 90 + leap then 2 else if dwy <? 120 + leap then 3
  else if dwy <? 151 + leap then 4 else if dwy <? 181 + leap then 5
  else if dwy <? 212 + leap then 6 else if dwy <? 243 + leap then 7
  else if dwy <? 273 + leap then 8 else if dwy <? 304 + leap then 9
  else if dwy <? 334 + leap then 10 else 11.

(** [DateFromTime] (21.4.1.12): the day within the month, from 1. *)
Definition DateFromDwy (leap dwy : Z) : Z :=
  dwy - month_start leap (MonthFromDwy leap dwy) + 1.

(** Year, month (0-11) and date of a day number. *)
Definition civil (d : Z) : Z * Z * Z :=
  let y := YearFromDay d in
  let leap := InLeapYear y in
  let dwy := d - DayFromYear y in
  (y, MonthFromDwy leap dwy, DateFromDwy leap dwy).

Definition YearFromTime (t : Z) : Z := (civil (Day t)).1.1.
Definition MonthFromTime (t : Z) : Z := (civil (Day t)).1.2.
Definition DateFromTime (t : Z) : Z := (civil (Day t)).2.

(** [MakeDay(year, month, date)] (21.4.1.28): the first day of month
    [month mod 12] of year [year + floor(month / 12)], plus [date - 1]. *)
Definition MakeDay (year month date : Z) : Z :=
  let ym := year + month / 12 in
  let mn := month mod 12 in
  DayFromYear ym + month_start (InLeapYear ym) mn + date - 1.

Definition MakeTime (hour min sec ms : Z) : Z :=
  hour * msPerHour + min * msPerMinute + sec * msPerSecond + ms.

Definition MakeDate (day time : Z) : Z := day * msPerDay + time.

(** [TimeClip]: [NaN] beyond 100,000,000 days either side of 1970. *)
Definition maxTime : Z := 8640000000000000.

Definition TimeClip (t : Z) : option Z :=
  if Z.abs t <=? maxTime then Some t else None.

(** The days of month [m] (0-11): the differences of the table of
    21.4.1.11. *)
Definition month_length (leap m : Z) : Z :=
  if m =? 1 then 28 + leap
  else if (m =? 3) || (m =? 5) || (m =? 8) || (m =? 10) then 30
  else 31.

Definition days_in_month (y m : Z) : Z := month_length (InLeapYear y) m.

(** ** [Date.parse] on the Date Time String Format (21.4.1.32) *)

Definition digit_value (c : ascii) : option Z :=
  let n := Z.of_nat (nat_of_ascii c) in
  if (48 <=? n) && (n <=? 57) then Some (n - 48) else None.

(** Exactly [n] decimal digits, read after [acc]. *)
Fixpoint read_digits (n : nat) (acc : Z) (s : string) : option (Z * string) :=
  match n with
  | O => Some (acc, s)
  | S k =>
      match s with
      | EmptyString => None
      | String c r => v ← digit_value c; read_digits k (acc * 10 + v) r
      end
  end.

Definition expect (c : ascii) (s : string) : option string :=
  match s with
  | String c' r => if Ascii.eqb c' c then Some r else None
  | EmptyString => None
  end.

(** [YYYY], or the expanded [+YYYYYY] and [-YYYYYY] ([-000000] is not a
    year). *)
Definition parse_year (s : string) : option (Z * string) :=
  match s with
  | String c r =>
      if Ascii.eqb c "+" then read_digits 6 0 r
      else if Ascii.eqb c "-" then
        '(y, r') ← read_digits 6 0 r; if y =? 0 then None else Some (- y, r')
      else read_digits 4 0 s
  | EmptyString => None
  end.

(** [-MM] or [-DD], when the string goes on with [-]. *)
Definition parse_opt_field (s : string) : option (option Z * string) :=
  match expect "-" s with
  | Some r => '(v, r') ← read_digits 2 0 r; Some (Some v, r')
  | None => Some (None, s)
  end.

(** [HH:mm], [HH:mm:ss] or [HH:mm:ss.sss]. *)
Definition parse_time (s : string) : option (Z * Z * Z * Z * string) :=
  '(h, r) ← read_digits 2 0 s; r ← expect ":" r; '(mi, r) ← read_digits 2 0 r;
  match expect ":" r with
  | None => Some (h, mi, 0, 0, r)
  | Some r =>
      '(se, r) ← read_digits 2 0 r;
      match expect "." r with
      | None => Some (h, mi, se, 0, r)
      | Some r => '(ms, r) ← read_digits 3 0 r; Some (h, mi, se, ms, r)
      end
  end.

(** [Z], [+HH:mm] or [-HH:mm], in minutes east of UTC; [None] when the
    string does not go on with one. *)
Definition parse_offset (s : string) : option (option Z * string) :=
  match s with
  | String c r =>
      if Ascii.eqb c "Z" then Some (Some 0, r)
      else if Ascii.eqb c "+" || Ascii.eqb c "-" then
        '(hh, r) ← read_digits 2 0 r; r ← expect ":" r; '(mm, r) ← read_digits 2 0 r;
        if (hh <=? 24) && (mm <=? 59)
        then Some (Some (if Ascii.eqb c "+" then hh * 60 + mm else - (hh * 60 + mm)), r)
        else None
      else Some (None, s)
  | EmptyString => Some (None, s)
  end.

(** The fields of a string of the format; [month] and [day] default to
    [01], and only a date-time form has a time and an offset. *)
Record Fields := mkFields {
  fyear : Z;
  fmonth : Z;
  fday : Z;
  ftime : option (Z * Z * Z * Z);
  foffset : option Z;
}.

Definition parse_fields (s : string) : option Fields :=
  '(y, r) ← parse_year s;
  '(mo, r) ← parse_opt_field r;
  '(d, r) ← match mo with Some _ => parse_opt_field r | None => Some (None, r) end;
  match r with
  | EmptyString => Some (mkFields y (default 1 mo) (default 1 d) None None)
  | _ =>
      r ← expect "T" r; '(h, mi, se, ms, r) ← parse_time r; '(off, r) ← parse_offset r;
      match r with
      | EmptyString => Some (mkFields y (default 1 mo) (default 1 d) (Some (h, mi, se, ms)) off)
      | _ => None
      end
  end.

(** The ranges of 21.4.1.32: [MM] 01-12, [DD] 01-31, [HH] 00-24 (24
    only as [24:00:00.000]), [mm] and [ss] 00-59. *)
Definition fields_valid (f : Fields) : bool :=
  (1 <=? f.(fmonth)) && (f.(fmonth) <=? 12) && (1 <=? f.(fday)) && (f.(fday) <=? 31) &&
  match f.(ftime) with
  | None => true
  | Some (h, mi, se, ms) =>
      (h <=? 24) && (mi <=? 59) && (se <=? 59) &&
      (negb (h =? 24) || ((mi =? 0) && (se =? 0) && (ms =? 0)))
  end.

(** A date-only form is UTC; a date-time form is at its offset, or in
    local time ([UTC(t) = t - LocalTZA]) without one. *)
Definition time_value (tz : Z) (f : Fields) : Z :=
  let day := MakeDay f.(fyear) (f.(fmonth) - 1) f.(fday) in
  match f.(ftime) with
  | None => MakeDate day 0
  | Some (h, mi, se, ms) => MakeDate day (MakeTime h mi se ms) - default tz f.(foffset) * msPerMinute
  end.

(** [new Date(dateString)]: the time value, [None] for [NaN]. *)
Definition parse (tz : Z) (s : string) : option Z :=
  f ← parse_fields s;
  if fields_valid f then TimeClip (time_value tz f) else None.

(** ** [toLocaleDateString('en-US', {year, month: 'short', day})] *)

Definition LocalTime (tz t : Z) : Z := t + tz * msPerMinute.

Definition month_names : list string :=
  ["Jan"; "Feb"; "Mar"; "Apr"; "May"; "Jun"; "Jul"; "Aug"; "Sep"; "Oct"; "Nov"; "Dec"].

Definition month_short (m : Z) : string := default "" (month_names !! Z.to_nat m).

(** The year of the era: year 0 is 1 BC. *)
Definition era_year (y : Z) : Z := if y <=? 0 then 1 - y else y.

(** The pattern ["MMM d, y"]. *)
Definition date_text (ymd : Z * Z * Z) : string :=
  let '(y, m, d) := ymd in
  month_short m +:+ " " +:+ js_number_string d +:+ ", " +:+ js_number_string (era_year y).

Definition toLocaleDateString (tz : Z) (tv : option Z) : string :=
  match tv with
  | None => "Invalid Date"
  | Some t => date_text (civil (Day (LocalTime tz t)))
  end.

(** ISO-8601 calendar dates as strings: [show_digits n v] prints [v]
    on [n] digits; [iso_date] is the date-only form [yyyy-mm-dd], the
    year on four digits. *)
Definition digit_char (v : Z) : ascii := ascii_of_nat (Z.to_nat (48 + v)).

Fixpoint show_digits (n : nat) (v : Z) : string :=
  match n with
  | O => EmptyString
  | S k => String (digit_char (v / 10 ^ Z.of_nat k)) (show_digits k (v mod 10 ^ Z.of_nat k))
  end.

Definition iso_date (y m d : Z) : string :=
  show_digits 4 y +:+ "-" +:+ show_digits 2 m +:+ "-" +:+ show_digits 2 d.

(** [yyyy-mm-ddTHH:mm], a date-time form without offset: the value of
    the edit page's [<input type="datetime-local">]. *)
Definition iso_local (y m d h mi : Z) : string :=
  iso_date y m d +:+ "T" +:+ show_digits 2 h +:+ ":" +:+ show_digits 2 mi.

(** ** The day arithmetic *)

Lemma DayFromYear_mean y :
  -640 < 400 * DayFromYear y - 146097 * (y - 1970) < 640.
Proof. unfold DayFromYear. Z.div_mod_to_equations. lia. Qed.

Lemma DayFromYear_succ y : DayFromYear (y + 1) = DayFromYear y + DaysInYear y.
Proof.
  unfold DayFromYear, DaysInYear.
  destruct (Z.eqb_spec (y mod 4) 0), (Z.eqb_spec (y mod 100) 0), (Z.eqb_spec (y mod 400) 0);
    cbn; Z.div_mod_to_equations; lia.
Qed.

Lemma DaysInYear_range y : 365 <= DaysInYear y <= 366.
Proof. unfold DaysInYear. repeat case_match; lia. Qed.

(** [YearFromDay d] is the year that holds day [d]: the spec's largest
    [y] with [DayFromYear y <= d]. *)
Lemma YearFromDay_between d :
  DayFromYear (YearFromDay d) <= d < DayFromYear (YearFromDay d + 1).
Proof.
  unfold YearFromDay. set (y := year_estimate d).
  assert (400 * d < 146097 * (y + 1 - 1970) /\ 146097 * (y - 1970) <= 400 * d)
    by (subst y; unfold year_estimate; Z.div_mod_to_equations; lia).
  pose proof (DayFromYear_mean (y - 1)). pose proof (DayFromYear_mean (y + 2)).
  destruct (Z.leb_spec (DayFromYear (y + 1)) d), (Z.ltb_spec d (DayFromYear y)).
  all: rewrite ?(Z.sub_add 1 y); try replace (y + 1 + 1) with (y + 2) by lia.
  all: lia.
Qed.

Lemma InLeapYear_range y : 0 <= InLeapYear y <= 1.
Proof. pose proof (DaysInYear_range y). unfold InLeapYear. lia. Qed.

Lemma DayFromYear_mono y1 y2 : y1 <= y2 -> DayFromYear y1 <= DayFromYear y2.
Proof.
  intros Hle. destruct (Z.eq_dec y1 y2) as [->|]; [lia|].
  pose proof (DayFromYear_mean y1). pose proof (DayFromYear_mean y2). lia.
Qed.

Lemma YearFromDay_eq d y :
  DayFromYear y <= d < DayFromYear (y + 1) -> YearFromDay d = y.
Proof.
  intros Hy. pose proof (YearFromDay_between d) as Hd.
  destruct (Z.lt_total (YearFromDay d) y) as [Hlt|[?|Hlt]]; [|done|].
  - pose proof (DayFromYear_mono (YearFromDay d + 1) y). lia.
  - pose proof (DayFromYear_mono (y + 1) (YearFromDay d)). lia.
Qed.

(** Case analysis on a month number and the comparisons of the month
    table. *)
Ltac month_cases m :=
  assert (m = 0 \/ m = 1 \/ m = 2 \/ m = 3 \/ m = 4 \/ m = 5 \/ m = 6 \/ m = 7 \/
          m = 8 \/ m = 9 \/ m = 10 \/ m = 11) as Hm_cases by lia;
  destruct_or! Hm_cases; subst m;
  unfold month_length, month_start, MonthFromDwy in *; simpl in *;
  repeat match goal with |- context [?a <? ?b] => destruct (Z.ltb_spec a b) end; lia.

Lemma month_table leap m d :
  0 <= leap <= 1 -> 0 <= m <= 11 -> 1 <= d <= month_length leap m ->
  MonthFromDwy leap (month_start leap m + d - 1) = m.
Proof. intros Hl Hm Hd. month_cases m. Qed.

Lemma month_span leap m :
  0 <= leap <= 1 -> 0 <= m <= 11 ->
  0 <= month_start leap m /\ 28 <= month_length leap m <= 31 /\
  month_start leap m + month_length leap m <= 365 + leap.
Proof. intros Hl Hm. month_cases m. Qed.

Lemma MakeDay_in_year y m d :
  0 <= m <= 11 -> MakeDay y m d = DayFromYear y + month_start (InLeapYear y) m + d - 1.
Proof. intros Hm. unfold MakeDay. by rewrite Z.div_small, Z.mod_small, Z.add_0_r by lia. Qed.

Lemma civil_MakeDay y m d :
  0 <= m <= 11 -> 1 <= d <= days_in_month y m -> civil (MakeDay y m d) = (y, m, d).
Proof.
  unfold days_in_month. intros Hm Hd. rewrite MakeDay_in_year by done.
  pose proof (InLeapYear_range y) as Hl. pose proof (month_span _ m Hl Hm).
  unfold civil. rewrite (YearFromDay_eq _ y)
    by (rewrite DayFromYear_succ; unfold InLeapYear in *; lia).
  replace (DayFromYear y + month_start (InLeapYear y) m + d - 1 - DayFromYear y)
    with (month_start (InLeapYear y) m + d - 1) by lia.
  unfold DateFromDwy. rewrite month_table by done. f_equal. lia.
Qed.

(** The day after the last of a month is the first of the next. *)
Lemma MakeDay_next_month y m d :
  0 <= m <= 10 -> MakeDay y m d = MakeDay y (m + 1) (d - days_in_month y m).
Proof.
  intros Hm. rewrite !MakeDay_in_year by lia. unfold days_in_month.
  pose proof (InLeapYear_range y). month_cases m.
Qed.

Lemma days_in_month_range y m : 0 <= m <= 11 -> 28 <= days_in_month y m <= 31.
Proof. intros Hm. pose proof (InLeapYear_range y) as Hl. unfold days_in_month. pose proof (month_span _ m Hl Hm). lia. Qed.

(** ** Reading and printing digits *)

Lemma digit_value_char v : 0 <= v <= 9 -> digit_value (digit_char v) = Some v.
Proof.
  intros Hv. assert (v = 0 \/ v = 1 \/ v = 2 \/ v = 3 \/ v = 4 \/ v = 5 \/ v = 6 \/
                     v = 7 \/ v = 8 \/ v = 9) as Hc by lia.
  by destruct_or! Hc; subst v.
Qed.

Lemma digit_char_not v c :
  0 <= v <= 9 -> digit_value c = None -> Ascii.eqb (digit_char v) c = false.
Proof.
  intros Hv Hc. destruct (Ascii.eqb_spec (digit_char v) c) as [<-|]; [|done].
  by rewrite digit_value_char in Hc.
Qed.

Lemma read_show n acc v r :
  0 <= v < 10 ^ Z.of_nat n ->
  read_digits n acc (show_digits n v +:+ r) = Some (acc * 10 ^ Z.of_nat n + v, r).
Proof.
  revert acc v. induction n as [|n IH]; intros acc v Hv.
  - cbn in *. f_equal. f_equal. lia.
  - rewrite Nat2Z.inj_succ, Z.pow_succ_r in * by lia.
    set (p := 10 ^ Z.of_nat n) in *.
    assert (0 < p) by (subst p; apply Z.pow_pos_nonneg; lia).
    assert (0 <= v / p <= 9) by (split; [apply Z.div_pos|apply Z.lt_succ_r, Z.div_lt_upper_bound]; lia).
    cbn [show_digits read_digits]. rewrite string_app_cons. cbv beta iota. fold p.
    rewrite digit_value_char by done. cbn [mbind option_bind].
    rewrite IH by (apply Z.mod_pos_bound; lia). f_equal. f_equal.
    pose proof (Z.div_mod v p). nia.
Qed.

Lemma expect_cons c r : expect c (String c r) = Some r.
Proof. unfold expect. by rewrite Ascii.eqb_refl. Qed.

Lemma digit_bound n v : 0 <= v < 10 * 10 ^ n -> 0 <= n -> 0 <= v / 10 ^ n <= 9.
Proof.
  intros Hv Hn. assert (0 < 10 ^ n) by (apply Z.pow_pos_nonneg; lia).
  split; [apply Z.div_pos|apply Z.lt_succ_r, Z.div_lt_upper_bound]; lia.
Qed.

Lemma parse_year_digits y r :
  0 <= y <= 9999 -> parse_year (show_digits 4 y +:+ r) = Some (y, r).
Proof.
  intros Hy. unfold parse_year.
  pose proof (digit_bound 3 y ltac:(lia) ltac:(lia)).
  destruct (show_digits 4 y +:+ r) as [|c rest] eqn:E; [done|].
  assert (c = digit_char (y / 10 ^ 3)) as ->
    by (cbn [show_digits] in E; rewrite string_app_cons in E; by injection E).
  rewrite !digit_char_not by done. rewrite <- E, read_show by (cbn; lia); done.
Qed.

Lemma parse_field_digits v r :
  0 <= v <= 99 -> parse_opt_field ("-" +:+ show_digits 2 v +:+ r) = Some (Some v, r).
Proof.
  intros Hv. unfold parse_opt_field. rewrite string_app_cons, string_app_nil, expect_cons.
  by rewrite read_show by (cbn; lia).
Qed.

Lemma iso_date_app y m d r :
  iso_date y m d +:+ r =
  show_digits 4 y +:+ "-" +:+ show_digits 2 m +:+ "-" +:+ show_digits 2 d +:+ r.
Proof. unfold iso_date. by rewrite !string_app_assoc. Qed.

Lemma parse_date_prefix y m d r :
  0 <= y <= 9999 -> 0 <= m <= 99 -> 0 <= d <= 99 ->
  parse_fields (iso_date y m d +:+ r) =
  match r with
  | EmptyString => Some (mkFields y m d None None)
  | _ =>
      r ← expect "T" r; '(h, mi, se, ms, r) ← parse_time r; '(off, r) ← parse_offset r;
      match r with
      | EmptyString => Some (mkFields y m d (Some (h, mi, se, ms)) off)
      | _ => None
      end
  end.
Proof.
  intros Hy Hm Hd. unfold parse_fields. rewrite iso_date_app, parse_year_digits by done.
  cbn [mbind option_bind]. rewrite parse_field_digits by done. cbn [mbind option_bind].
  by rewrite parse_field_digits.
Qed.

Lemma parse_fields_iso_date y m d :
  0 <= y <= 9999 -> 0 <= m <= 99 -> 0 <= d <= 99 ->
  parse_fields (iso_date y m d) = Some (mkFields y m d None None).
Proof. intros. rewrite <- (string_app_nil_r (iso_date y m d)). by apply parse_date_prefix. Qed.

Lemma parse_fields_iso_local y m d h mi :
  0 <= y <= 9999 -> 0 <= m <= 99 -> 0 <= d <= 99 -> 0 <= h <= 99 -> 0 <= mi <= 99 ->
  parse_fields (iso_local y m d h mi) = Some (mkFields y m d (Some (h, mi, 0, 0)) None).
Proof.
  intros Hy Hm Hd Hh Hmi. unfold iso_local. rewrite parse_date_prefix by done.
  rewrite string_app_cons, string_app_nil, expect_cons.
  cbn [mbind option_bind]. unfold parse_time.
  rewrite read_show by (cbn; lia). cbn [mbind option_bind].
  rewrite string_app_cons, string_app_nil, expect_cons.
  cbn [mbind option_bind]. rewrite <- (string_app_nil_r (show_digits 2 mi)), read_show by (cbn; lia).
  done.
Qed.

(** The days of the four-digit years. *)
Lemma MakeDay_range y m d :
  0 <= y <= 9999 -> 0 <= m <= 11 -> 1 <= d <= 31 ->
  -719528 <= MakeDay y m d <= 2932897 + 365.
Proof.
  intros Hy Hm Hd. rewrite MakeDay_in_year by done.
  pose proof (DayFromYear_mono 0 y ltac:(lia)). pose proof (DayFromYear_mono y 9999 ltac:(lia)).
  assert (DayFromYear 0 = -719528) as E0 by reflexivity.
  assert (DayFromYear 9999 = 2932532) as E1 by reflexivity.
  pose proof (InLeapYear_range y) as Hl. pose proof (month_span _ m Hl Hm). lia.
Qed.

Lemma parse_iso_date tz y m d :
  0 <= y <= 9999 -> 0 <= m <= 99 -> 0 <= d <= 99 ->
  parse tz (iso_date y m d) =
  if bool_decide (1 <= m <= 12 /\ 1 <= d <= 31) then Some (MakeDay y (m - 1) d * msPerDay) else None.
Proof.
  intros Hy Hm Hd. unfold parse. rewrite parse_fields_iso_date by done. cbn [mbind option_bind].
  unfold fields_valid; cbn [fmonth fday ftime].
  case_bool_decide as Hv.
  - rewrite (proj2 (andb_true_iff _ _)) by (rewrite !andb_true_iff, !Z.leb_le; lia).
    unfold TimeClip, time_value, MakeDate; cbn [fyear fmonth fday ftime].
    pose proof (MakeDay_range y (m - 1) d ltac:(lia) ltac:(lia) ltac:(lia)).
    rewrite (proj2 (Z.leb_le _ _)) by (unfold msPerDay, maxTime; lia). f_equal. lia.
  - destruct (_ && _) eqn:E; [|done]. exfalso. apply Hv.
    rewrite !andb_true_iff, !Z.leb_le in E. lia.
Qed.

Lemma parse_iso_local tz y m d h mi :
  0 <= y <= 9999 -> 1 <= m <= 12 -> 1 <= d <= 31 -> 0 <= h <= 23 -> 0 <= mi <= 59 ->
  -1440 < tz < 1440 ->
  parse tz (iso_local y m d h mi) =
  Some (MakeDay y (m - 1) d * msPerDay + MakeTime h mi 0 0 - tz * msPerMinute).
Proof.
  intros Hy Hm Hd Hh Hmi Htz. unfold parse. rewrite parse_fields_iso_local by lia.
  cbn [mbind option_bind]. unfold fields_valid; cbn [fmonth fday ftime].
  assert (Z.eqb h 24 = false) as -> by lia.
  rewrite (proj2 (andb_true_iff _ _)) by (rewrite !andb_true_iff, !Z.leb_le; lia).
  unfold TimeClip, time_value, MakeDate, MakeTime; cbn [fyear fmonth fday ftime foffset default].
  pose proof (MakeDay_range y (m - 1) d ltac:(lia) ltac:(lia) ltac:(lia)).
  rewrite (proj2 (Z.leb_le _ _)); [done|].
  unfold msPerDay, msPerHour, msPerMinute, msPerSecond, maxTime. lia.
Qed.

(** A UTC midnight seen from a zone [tz] minutes east of UTC: the same
    day east of (or at) UTC, the day before west of it. *)
Lemma Day_local_midnight tz D :
  -1440 < tz < 1440 -> Day (LocalTime tz (D * msPerDay)) = D - (if tz <? 0 then 1 else 0).
Proof.
  intros Htz. unfold Day, LocalTime, msPerDay, msPerMinute.
  destruct (Z.ltb_spec tz 0); Z.div_mod_to_equations; lia.
Qed.

(** A local time converted to UTC and back is in its own day. *)
Lemma Day_local_roundtrip tz D time :
  0 <= time < msPerDay -> Day (LocalTime tz (D * msPerDay + time - tz * msPerMinute)) = D.
Proof.
  intros Ht. unfold Day, LocalTime.
  replace (D * msPerDay + time - tz * msPerMinute + tz * msPerMinute) with (time + D * msPerDay) by lia.
  rewrite Z.div_add by (unfold msPerDay; lia). rewrite Z.div_small by done. lia.
Qed.

End JsDate.
