(* ===== verification/Task.v ===== *)
(** * Tasks as the pages receive them, and their display helpers

    A task is the JSON object the backend sends ([GET /api/tasks],
    [GET /api/tasks/{id}]).  The client reads [_id], [title],
    [description], [status], [priority] and [due_date]; [status] and
    [priority] are compared as strings in the [switch] statements, and
    [description] and [due_date] may be absent ([null]), hence [option].

    The display helpers are the small pure functions of
    [app/tasks/page.js] and [app/page.js] that choose a badge, a colour
    class, a label or a fallback text.  [formatDate] prints a due date
    through the [JsDate] model of [new Date(...).toLocaleDateString] in
    the browser's time zone; the theorems of section [DueDate] say what
    the Due Date column shows for date-only ISO strings ([yyyy-mm-dd]),
    for the local date-times the edit page's [datetime-local] input
    produces ([yyyy-mm-ddTHH:mm]) and for malformed dates.  The
    [statusLabel] theorem says which underscore the badge text replaces. *)

From S2P Require Import Prelude.
From S2P Require Import JsDate.

Record Task := mkTask {
  _id : string;
  title : string;
  description : option string;
  status : string;
  priority : string;
  due_date : option string;
}.

#[export] Instance Task_eq_dec : EqDecision Task.
Proof. solve_decision. Defined.

(** ** Responses as [fetch] delivers them

    A network failure rejects the [fetch] promise with an error whose
    [message] the browser chooses ([NetworkError msg]).  Otherwise the
    response has an [ok] flag (status 200-299) and a body; [body] is the
    value [response.json()] resolves to, in the shape the endpoint
    sends, or [None] when [response.json()] throws because the body is
    not JSON. *)
Inductive Response (A : Type) : Type :=
| NetworkError (msg : string)
| HttpResponse (ok : bool) (body : option A).
Arguments NetworkError {A} msg.
Arguments HttpResponse {A} ok body.

Module Display.

(** [formatDate] (tasks/page.js): a falsy date string prints as
    [N/A]; any other is [new Date(dateString).toLocaleDateString(...)]
    in the browser's time zone, [tz] minutes east of UTC ([JsDate]). *)
Definition formatDate (tz : Z) (dateString : option string) : string :=
  match dateString with
  | Some s => if js_truthy s then JsDate.toLocaleDateString tz (JsDate.parse tz s) else "N/A"
  | None => "N/A"
  end.

(** [getStatusBadgeVariant] (tasks/page.js). *)
Definition getStatusBadgeVariant (st : string) : string :=
  if String.eqb st "completed" then "default"
  else if String.eqb st "in_progress" then "secondary"
  else "outline".

(** [getPriorityBadgeVariant] (tasks/page.js). *)
Definition getPriorityBadgeVariant (p : string) : string :=
  if String.eqb p "high" then "destructive"
  else if String.eqb p "medium" then "secondary"
  else "outline".

(** [getStatusColor] (app/page.js). *)
Definition getStatusColor (st : string) : string :=
  if String.eqb st "completed"
  then "bg-green-100 text-green-800 dark:bg-green-900/50 dark:text-green-300"
  else if String.eqb st "in_progress"
  then "bg-blue-100 text-blue-800 dark:bg-blue-900/50 dark:text-blue-300"
  else "bg-yellow-100 text-yellow-800 dark:bg-yellow-900/50 dark:text-yellow-300".

(** [getPriorityColor] (app/page.js). *)
Definition getPriorityColor (p : string) : string :=
  if String.eqb p "high"
  then "border-red-500/50 bg-red-100 text-red-800 dark:bg-red-900/50 dark:text-red-300"
  else if String.eqb p "medium"
  then "border-orange-500/50 bg-orange-100 text-orange-800 dark:bg-orange-900/50 dark:text-orange-300"
  else "border-green-500/50 bg-green-100 text-green-800 dark:bg-green-900/50 dark:text-green-300".

(** [s.replace('_', ' ')] with a string pattern: JavaScript replaces
    the first occurrence only. *)
Fixpoint replace_first (pat : Ascii.ascii) (rep : string) (s : string) : string :=
  match s with
  | EmptyString => EmptyString
  | String c rest =>
      if Ascii.eqb c pat then rep +:+ rest else String c (replace_first pat rep rest)
  end.

(** The status badge text, [task.status.replace('_', ' ')], on both
    pages. *)
Definition statusLabel (t : Task) : string :=
  replace_first "_"%char " " t.(status).

(** [task.description || 'No description'] (app/page.js). *)
Definition descriptionText (t : Task) : string :=
  js_or_str t.(description) "No description".

(** [formatDate(task.due_date)] in the list's Due Date column. *)
Definition dueDateText (tz : Z) (t : Task) : string :=
  formatDate tz t.(due_date).

(** [String.prototype.replace(searchValue, replaceValue)] as ECMA-262
    specifies it for a string [searchValue]: [StringIndexOf] the first
    occurrence, then [preceding + replacement + following].  The
    replacement is [GetSubstitution], the identity on a [replaceValue]
    without [$], which is the only kind the pages pass. *)
Definition js_replace (pat rep s : string) : string :=
  match String.index 0 pat s with
  | None => s
  | Some i =>
      String.substring 0 i s +:+ rep +:+
      String.substring (i + String.length pat) (String.length s - (i + String.length pat)) s
  end.

Lemma substring_whole s : String.substring 0 (String.length s) s = s.
Proof. induction s as [|c s IH]; cbn; [done|by rewrite IH]. Qed.

Lemma index_char_cons c b s :
  String.index 0 (String c EmptyString) (String b s) =
  if Ascii.eqb b c then Some 0 else option_map S (String.index 0 (String c EmptyString) s).
Proof.
  cbn. destruct (Ascii.eqb_spec b c); destruct (Ascii.ascii_dec c b); subst; try congruence.
  - by destruct s.
  - by destruct (String.index 0 _ s).
Qed.

(** The recursive [replace_first] is the ECMAScript algorithm: for a
    one-character pattern it agrees with [js_replace] on every string. *)
Theorem replace_first_ecma c rep s :
  replace_first c rep s = js_replace (String c EmptyString) rep s.
Proof.
  unfold js_replace. induction s as [|b s IH]; [done|].
  rewrite index_char_cons. cbn [replace_first].
  destruct (Ascii.eqb b c); [cbn; by rewrite ?Nat.sub_0_r, substring_whole|].
  rewrite IH. destruct (String.index 0 _ s) as [i|]; [|done]. cbn.
  by replace (String.length s - (i + 1)) with (String.length s - S i) by lia.
Qed.

Lemma replace_first_absent c rep s :
  ~ In c (String.list_ascii_of_string s) -> replace_first c rep s = s.
Proof.
  induction s as [|b s IH]; cbn; [done|]. intros Hn.
  destruct (Ascii.eqb_spec b c); [subst; tauto|]. rewrite IH; tauto.
Qed.

Lemma replace_first_split c rep a b :
  ~ In c (String.list_ascii_of_string a) -> replace_first c rep (a +:+ String c b) = a +:+ rep +:+ b.
Proof.
  induction a as [|x a IH]; intros Hn.
  - rewrite string_app_nil. cbn [replace_first]. destruct (Ascii.eqb_spec c c); [done|congruence].
  - rewrite !string_app_cons. cbn [replace_first]. cbn in Hn.
    destruct (Ascii.eqb_spec x c); [subst; tauto|]. rewrite IH; tauto.
Qed.

(** C17: the status badge text [task.status.replace('_', ' ')] is
    [String.prototype.replace] with a string pattern: only the first
    underscore becomes a space, the text after it is kept as it is
    (later underscores included), and a status without underscore is
    shown unchanged. *)
Theorem statusLabel_first_underscore (t : Task) :
  statusLabel t = js_replace "_" " " t.(status) /\
  (forall a b, ~ In "_"%char (String.list_ascii_of_string a) ->
     t.(status) = a +:+ String "_" b -> statusLabel t = a +:+ String " " b) /\
  (~ In "_"%char (String.list_ascii_of_string t.(status)) -> statusLabel t = t.(status)).
Proof.
  unfold statusLabel. split_and!.
  - apply replace_first_ecma.
  - intros a b Ha ->. by rewrite replace_first_split.
  - apply replace_first_absent.
Qed.

(** ** The Due Date column *)

Section DueDate.
Local Open Scope Z_scope.
Import JsDate.

Lemma iso_date_truthy y m d : js_truthy (iso_date y m d) = true.
Proof. done. Qed.

(** A date-only string, shown from a zone [tz] minutes east of UTC: the
    UTC day it names, moved into that zone. *)
Lemma formatDate_iso_date tz y m d :
  -1440 < tz < 1440 -> 0 <= y <= 9999 -> 1 <= m <= 12 -> 1 <= d <= 31 ->
  formatDate tz (Some (iso_date y m d)) =
  date_text (civil (MakeDay y (m - 1) d - (if tz <? 0 then 1 else 0))).
Proof.
  intros Htz Hy Hm Hd. unfold formatDate. rewrite ?iso_date_truthy, parse_iso_date by lia.
  rewrite bool_decide_eq_true_2 by lia. cbn [toLocaleDateString].
  by rewrite Day_local_midnight.
Qed.

Lemma formatDate_iso_date_east tz y m d :
  0 <= tz < 1440 -> 0 <= y <= 9999 -> 1 <= m <= 12 -> 1 <= d <= 31 ->
  formatDate tz (Some (iso_date y m d)) = date_text (civil (MakeDay y (m - 1) d)).
Proof.
  intros. rewrite formatDate_iso_date by lia.
  destruct (Z.ltb_spec tz 0); [lia|]. by rewrite Z.sub_0_r.
Qed.

(** C25: a due date stored as a date-only ISO string ([yyyy-mm-dd]) is
    shown in the list as that very date by a browser at or east of
    UTC: parsing and printing are inverse there. *)
Theorem due_date_shown_east tz y m d :
  0 <= tz < 1440 -> 0 <= y <= 9999 -> 1 <= m <= 12 -> 1 <= d <= days_in_month y (m - 1) ->
  formatDate tz (Some (iso_date y m d)) = date_text (y, m - 1, d).
Proof.
  intros Htz Hy Hm Hd. pose proof (days_in_month_range y (m - 1) ltac:(lia)).
  rewrite formatDate_iso_date_east by lia. by rewrite civil_MakeDay by lia.
Qed.

(** C22: west of UTC a due date stored as a date-only ISO string
    ([yyyy-mm-dd]) is shown one day early: [new Date] reads the
    date-only form as UTC midnight, which is still the previous day in
    local time.  (The edit page's own input is [datetime-local]; its
    [yyyy-mm-ddTHH:mm] values are local and shown as written, C26.) *)
Theorem due_date_shown_day_before tz y m d :
  -1440 < tz < 0 -> 0 <= y <= 9999 -> 1 <= m <= 12 -> 1 <= d <= days_in_month y (m - 1) ->
  formatDate tz (Some (iso_date y m d)) = date_text (civil (MakeDay y (m - 1) d - 1)) /\
  (2 <= d -> formatDate tz (Some (iso_date y m d)) = date_text (y, m - 1, d - 1)).
Proof.
  intros Htz Hy Hm Hd. pose proof (days_in_month_range y (m - 1) ltac:(lia)).
  rewrite formatDate_iso_date by lia. destruct (Z.ltb_spec tz 0); [|lia].
  split; [done|]. intros Hd2.
  replace (MakeDay y (m - 1) d - 1) with (MakeDay y (m - 1) (d - 1))
    by (rewrite !MakeDay_in_year by lia; lia).
  by rewrite civil_MakeDay by lia.
Qed.

(** C26: a date-time without offset ([yyyy-mm-ddTHH:mm]) is local time,
    so it is shown as written in every zone. *)
Theorem local_due_date_shown_as_written tz y m d h mi :
  -1440 < tz < 1440 -> 0 <= y <= 9999 -> 1 <= m <= 12 -> 1 <= d <= days_in_month y (m - 1) ->
  0 <= h <= 23 -> 0 <= mi <= 59 ->
  formatDate tz (Some (iso_local y m d h mi)) = date_text (y, m - 1, d).
Proof.
  intros Htz Hy Hm Hd Hh Hmi. pose proof (days_in_month_range y (m - 1) ltac:(lia)).
  unfold formatDate. rewrite parse_iso_local by lia. cbn [toLocaleDateString].
  rewrite Day_local_roundtrip by (unfold MakeTime, msPerDay, msPerHour, msPerMinute, msPerSecond; lia).
  by rewrite civil_MakeDay by lia.
Qed.

(** C28: no date prints [N/A]; a date-only string whose month is not
    01-12 or whose day is not 01-31 prints [Invalid Date]; a day past
    the end of its month (up to 31) rolls over into the next month. *)
Theorem due_date_errors tz y m d :
  0 <= tz < 1440 -> 0 <= y <= 9999 -> 0 <= m <= 99 -> 0 <= d <= 99 ->
  formatDate tz None = "N/A" /\ formatDate tz (Some "") = "N/A" /\
  (~ (1 <= m <= 12 /\ 1 <= d <= 31) -> formatDate tz (Some (iso_date y m d)) = "Invalid Date") /\
  (1 <= m <= 11 -> days_in_month y (m - 1) < d <= 31 ->
   formatDate tz (Some (iso_date y m d)) = date_text (y, m, d - days_in_month y (m - 1))).
Proof.
  intros Htz Hy Hm Hd. split_and!; [done|done| |].
  - intros Hbad. unfold formatDate. rewrite iso_date_truthy, parse_iso_date by lia.
    by rewrite bool_decide_eq_false_2.
  - intros Hm' Hd'. pose proof (days_in_month_range y (m - 1) ltac:(lia)).
    pose proof (days_in_month_range y m ltac:(lia)).
    rewrite formatDate_iso_date_east by lia.
    rewrite MakeDay_next_month by lia. replace (m - 1 + 1) with m by lia.
    by rewrite civil_MakeDay by lia.
Qed.

(** The hypotheses at concrete dates: ranges by [lia], month lengths by
    evaluation. *)
Local Ltac date_side := repeat split; first [lia | vm_compute; first [reflexivity | discriminate]].

Lemma due_date_shown_east_witness :
  formatDate 60 (Some (iso_date 2025 1 15)) = "Jan 15, 2025".
Proof. rewrite (due_date_shown_east 60 2025 1 15); [reflexivity|date_side..]. Defined.

Lemma due_date_shown_day_before_witness :
  formatDate (-300) (Some (iso_date 2025 1 15)) = "Jan 14, 2025" /\
  formatDate (-300) (Some (iso_date 2025 1 1)) = "Dec 31, 2024".
Proof.
  split.
  - rewrite (proj2 (due_date_shown_day_before (-300) 2025 1 15 ltac:(date_side) ltac:(date_side)
      ltac:(date_side) ltac:(date_side))) by lia. reflexivity.
  - rewrite (proj1 (due_date_shown_day_before (-300) 2025 1 1 ltac:(date_side) ltac:(date_side)
      ltac:(date_side) ltac:(date_side))). vm_compute. reflexivity.
Defined.

Lemma local_due_date_shown_as_written_witness :
  formatDate (-300) (Some (iso_local 2025 1 15 23 30)) = "Jan 15, 2025".
Proof. rewrite (local_due_date_shown_as_written (-300) 2025 1 15 23 30); [reflexivity|date_side..]. Defined.

Lemma due_date_errors_witness :
  formatDate 0 (Some (iso_date 2025 13 1)) = "Invalid Date" /\
  formatDate 0 (Some (iso_date 2025 2 30)) = "Mar 2, 2025".
Proof.
  destruct (due_date_errors 0 2025 13 1 ltac:(lia) ltac:(lia) ltac:(lia) ltac:(lia)) as (_ & _ & Hbad & _).
  destruct (due_date_errors 0 2025 2 30 ltac:(lia) ltac:(lia) ltac:(lia) ltac:(lia)) as (_ & _ & _ & Hroll).
  split; [apply Hbad; lia|]. rewrite Hroll by date_side. vm_compute. reflexivity.
Defined.

End DueDate.

Lemma statusLabel_first_underscore_witness :
  let t := mkTask "t9" "Ship release" None "in_progress_review" "high" None in
  ~ In "_"%char (String.list_ascii_of_string "in") /\ statusLabel t = "in progress_review".
Proof.
  cbn zeta. assert (~ In "_"%char (String.list_ascii_of_string "in")) as Ha by (cbn; intuition discriminate).
  split; [exact Ha|].
  apply (proj1 (proj2 (statusLabel_first_underscore (mkTask "t9" "Ship release" None "in_progress_review" "high" None)))
           "in" "progress_review" Ha). reflexivity.
Defined.

End Display.
