(* ===== verification/UrlParams.v ===== *)
(** * [URLSearchParams]: building and reading a query string

    [fetchTasks] (app/tasks/page.js) builds its query with
    [new URLSearchParams()], [append] and [toString()].  The class is a
    browser API, not code of the repository: it is modelled from the
    WHATWG URL standard ("application/x-www-form-urlencoded"), which is
    what a backend uses to read the query back.

    A JavaScript string is first encoded as UTF-8; here a [string] is
    that byte sequence already (one [ascii] per byte).

    The main result is the round trip [parse_toString]: the parser
    returns exactly the appended name/value list, whatever bytes the
    names and values contain (an [&], [=], [+] or [%] in a search term
    included). *)

From S2P Require Import Prelude.

Module URLSearchParams.

(** The list of name/value pairs, in insertion order. *)
Definition t := list (string * string).

Definition empty : t := [].

(** [params.append(name, value)] adds at the end, duplicates kept. *)
Definition append (name value : string) (ps : t) : t := ps ++ [(name, value)].

(** ** The urlencoded byte serializer *)

(** Bytes kept as they are: [*], [-], [.], digits, letters, [_]. *)
Definition keep_byte (c : ascii) : bool :=
  let n := nat_of_ascii c in
  (n =? 42) || (n =? 45) || (n =? 46) || ((48 <=? n) && (n <=? 57))
  || ((65 <=? n) && (n <=? 90)) || (n =? 95) || ((97 <=? n) && (n <=? 122)).

(** Upper-case hexadecimal digit of [n < 16]. *)
Definition hex_upper (n : nat) : ascii :=
  if n <? 10 then ascii_of_nat (48 + n) else ascii_of_nat (55 + n).

Definition serialize_byte (c : ascii) : string :=
  let n := nat_of_ascii c in
  if n =? 32 then "+"
  else if keep_byte c then String c EmptyString
  else String "%"%char (String (hex_upper (n / 16)) (String (hex_upper (n mod 16)) EmptyString)).

Fixpoint byteSerialize (s : string) : string :=
  match s with
  | EmptyString => EmptyString
  | String c r => serialize_byte c +:+ byteSerialize r
  end.

Definition serialize_pair (p : string * string) : string :=
  byteSerialize p.1 +:+ "=" +:+ byteSerialize p.2.

(** [params.toString()]: the pairs serialized and joined by [&]. *)
Definition toString (ps : t) : string :=
  String.concat "&" (map serialize_pair ps).

(** ** The urlencoded parser *)

(** [s.split(c)]: always at least one piece. *)
Fixpoint split_on (c : ascii) (s : string) : list string :=
  match s with
  | EmptyString => [EmptyString]
  | String d r =>
      if Ascii.eqb d c then EmptyString :: split_on c r
      else match split_on c r with
           | [] => [String d EmptyString]
           | x :: xs => String d x :: xs
           end
  end.

(** The part before the first [c] and the part after it, or the whole
    string and [""] when there is no [c]. *)
Fixpoint split_first (c : ascii) (s : string) : string * string :=
  match s with
  | EmptyString => (EmptyString, EmptyString)
  | String d r =>
      if Ascii.eqb d c then (EmptyString, r)
      else let '(a, b) := split_first c r in (String d a, b)
  end.

Fixpoint plus_to_space (s : string) : string :=
  match s with
  | EmptyString => EmptyString
  | String d r => String (if Ascii.eqb d "+"%char then " "%char else d) (plus_to_space r)
  end.

Definition hex_value (c : ascii) : option nat :=
  let n := nat_of_ascii c in
  if (48 <=? n) && (n <=? 57) then Some (n - 48)
  else if (65 <=? n) && (n <=? 70) then Some (n - 55)
  else if (97 <=? n) && (n <=? 102) then Some (n - 87)
  else None.

(** Percent-decoding: [%] and two hex digits give one byte; any other
    byte, a lone [%] included, is kept. *)
Fixpoint percentDecode (s : string) : string :=
  match s with
  | EmptyString => EmptyString
  | String d r =>
      if Ascii.eqb d "%"%char then
        match r with
        | String h1 (String h2 rest) =>
            match hex_value h1, hex_value h2 with
            | Some a, Some b => String (ascii_of_nat (a * 16 + b)) (percentDecode rest)
            | _, _ => String d (percentDecode r)
            end
        | _ => String d (percentDecode r)
        end
      else String d (percentDecode r)
  end.

Definition decode (s : string) : string := percentDecode (plus_to_space s).

Definition parse_sequence (sq : string) : string * string :=
  let '(n, v) := split_first "="%char sq in (decode n, decode v).

(** The parser: split on [&], skip empty sequences, split each at its
    first [=], decode both halves. *)
Definition parse (input : string) : t :=
  map parse_sequence (List.filter (fun sq => negb (String.eqb sq "")) (split_on "&"%char input)).

(** [params.get(name)]: the value of the first pair with that name. *)
Definition get (name : string) (ps : t) : option string :=
  snd <$> List.find (fun p => String.eqb p.1 name) ps.

(** ** Lemmas *)

Fixpoint has_char (c : ascii) (s : string) : bool :=
  match s with
  | EmptyString => false
  | String d r => Ascii.eqb d c || has_char c r
  end.

Lemma has_char_app c a b : has_char c (a +:+ b) = has_char c a || has_char c b.
Proof. induction a as [|d a IH]; autorewrite with ui; cbn; [done|]. by rewrite IH, orb_assoc. Qed.

Lemma plus_to_space_app a b : plus_to_space (a +:+ b) = plus_to_space a +:+ plus_to_space b.
Proof. induction a as [|d a IH]; autorewrite with ui; cbn; [done|]. by rewrite IH. Qed.

(** Byte by byte (all 256 cases): the serialized byte decodes back to
    itself, and it is never [&] or [=]. *)
Lemma serialize_byte_decode c r :
  percentDecode (plus_to_space (serialize_byte c +:+ r)) =
  String c (percentDecode (plus_to_space r)).
Proof. destruct c as [[] [] [] [] [] [] [] []]; reflexivity. Qed.

Lemma serialize_byte_no_sep c :
  has_char "&"%char (serialize_byte c) = false /\ has_char "="%char (serialize_byte c) = false.
Proof. destruct c as [[] [] [] [] [] [] [] []]; split; reflexivity. Qed.

Lemma decode_byteSerialize s : decode (byteSerialize s) = s.
Proof.
  unfold decode. induction s as [|c s IH]; cbn [byteSerialize]; [done|].
  by rewrite serialize_byte_decode, IH.
Qed.

Lemma byteSerialize_no_sep s :
  has_char "&"%char (byteSerialize s) = false /\ has_char "="%char (byteSerialize s) = false.
Proof.
  induction s as [|c s [IH1 IH2]]; cbn [byteSerialize]; [done|].
  rewrite !has_char_app, IH1, IH2. destruct (serialize_byte_no_sep c) as [-> ->]. done.
Qed.

Lemma split_first_app c a b :
  has_char c a = false -> split_first c (a +:+ String c b) = (a, b).
Proof.
  induction a as [|d a IH]; autorewrite with ui; cbn; intros H.
  - by rewrite Ascii.eqb_refl.
  - apply orb_false_iff in H as [-> H]. by rewrite IH.
Qed.

Lemma split_on_no_char c a : has_char c a = false -> split_on c a = [a].
Proof.
  induction a as [|d a IH]; cbn; intros H; [done|].
  apply orb_false_iff in H as [-> H]. by rewrite IH.
Qed.

Lemma split_on_app c a b :
  has_char c a = false -> split_on c (a +:+ String c b) = a :: split_on c b.
Proof.
  induction a as [|d a IH]; autorewrite with ui; cbn; intros H.
  - by rewrite Ascii.eqb_refl.
  - apply orb_false_iff in H as [-> H]. by rewrite IH.
Qed.

Lemma serialize_pair_no_amp p : has_char "&"%char (serialize_pair p) = false.
Proof.
  unfold serialize_pair. rewrite !has_char_app.
  rewrite (proj1 (byteSerialize_no_sep p.1)), (proj1 (byteSerialize_no_sep p.2)). done.
Qed.

Lemma split_on_toString ps :
  ps <> [] -> split_on "&"%char (toString ps) = map serialize_pair ps.
Proof.
  unfold toString. induction ps as [|p ps IH]; intros Hne; [done|].
  destruct ps as [|p' ps].
  - cbn [map String.concat]. by rewrite split_on_no_char by apply serialize_pair_no_amp.
  - change (String.concat "&" (map serialize_pair (p :: p' :: ps)))
      with (serialize_pair p +:+ String "&"%char (String.concat "&" (map serialize_pair (p' :: ps)))).
    rewrite split_on_app by apply serialize_pair_no_amp. by rewrite IH.
Qed.

Lemma parse_sequence_serialize_pair p : parse_sequence (serialize_pair p) = p.
Proof.
  destruct p as [n v]. unfold parse_sequence, serialize_pair; cbn [fst snd].
  autorewrite with ui. rewrite split_first_app by apply (proj2 (byteSerialize_no_sep n)).
  by rewrite !decode_byteSerialize.
Qed.

Lemma serialize_pair_nonempty p : String.eqb (serialize_pair p) "" = false.
Proof.
  unfold serialize_pair. autorewrite with ui. by destruct (byteSerialize p.1).
Qed.

(** Round trip: parsing [toString ps] gives back exactly [ps], in
    order, whatever bytes the names and values contain. *)
Theorem parse_toString ps : parse (toString ps) = ps.
Proof.
  destruct ps as [|p ps]; [done|]. unfold parse.
  rewrite split_on_toString by done.
  generalize (p :: ps) as qs. induction qs as [|q qs IH]; [done|].
  cbn [map List.filter]. rewrite serialize_pair_nonempty. cbn.
  by rewrite parse_sequence_serialize_pair, IH.
Qed.

Corollary toString_inj ps qs : toString ps = toString qs -> ps = qs.
Proof. intros H. by rewrite <- (parse_toString ps), H, parse_toString. Qed.

End URLSearchParams.
