(* ===== verification/TaskList.v ===== *)
(** * The task list page ([app/tasks/page.js], [TasksPage])

    The page state is the record [State], one field per [useState] of
    [TasksPage] (lines 34-48).  Handlers are [Hook] programs: their
    [setX] calls in program order and the requests they start.

    The page runs inside React and the browser, which [World] models:
    - [deps] are the dependencies [[filters, searchTerm, page]] of the
      [fetchTasks] callback at the last effect run: React re-runs the
      effect of lines 72-74 after a render in which one of them changed.
      [filters] is an object, compared by identity: [filters_obj]
      numbers the objects [setFilters] creates (a new one per call);
    - [inflight] are the requests whose promise has not settled, each
      with the continuation's captured data; their responses arrive in
      any order.

    [step] is the transition relation: an enabled user event
    ([dispatch]) or the arrival of the response of a request in flight
    ([deliver]).  Both end with [commit], the render and effect phase.
    [enabled] is what the rendered markup lets the user do, and
    [table_body] what the table shows (skeletons, rows, or "No tasks
    found."); the two are proved to agree on the rows' Delete buttons. *)

From S2P Require Import Prelude.
From S2P Require Import Task.
From S2P Require Import UrlParams.

Module TasksPage.

Record Filters := mkFilters { f_status : string; f_priority : string }.

#[export] Instance Filters_eq_dec : EqDecision Filters.
Proof. solve_decision. Defined.

(** What a [fetchTasks] closure reads: the state of its render. *)
Record Query := mkQuery { q_filters : Filters; q_search : string; q_page : Z }.

#[export] Instance Query_eq_dec : EqDecision Query.
Proof. solve_decision. Defined.

Definition TASKS_PER_PAGE : Z := 10.

Record State := mkState {
  tasks : list Task;
  loading : bool;
  error : option string;
  filters : Filters;
  filters_obj : nat;
  searchTerm : string;
  page : Z;
  isDeleteDialogOpen : bool;
  taskToDelete : option Task;
}.

(** The initial [useState] values. *)
Definition initial : State :=
  mkState [] true None (mkFilters "all" "all") 0 "" 0 false None.

(** ** The state setters *)

Definition setTasks (v : list Task) (s : State) : State :=
  mkState v s.(loading) s.(error) s.(filters) s.(filters_obj) s.(searchTerm) s.(page)
    s.(isDeleteDialogOpen) s.(taskToDelete).
Definition setLoading (v : bool) (s : State) : State :=
  mkState s.(tasks) v s.(error) s.(filters) s.(filters_obj) s.(searchTerm) s.(page)
    s.(isDeleteDialogOpen) s.(taskToDelete).
Definition setError (v : option string) (s : State) : State :=
  mkState s.(tasks) s.(loading) v s.(filters) s.(filters_obj) s.(searchTerm) s.(page)
    s.(isDeleteDialogOpen) s.(taskToDelete).
(** [setFilters(f => ({ ...f, ... }))]: a new object every call. *)
Definition setFilters (upd : Filters -> Filters) (s : State) : State :=
  mkState s.(tasks) s.(loading) s.(error) (upd s.(filters)) (S s.(filters_obj))
    s.(searchTerm) s.(page) s.(isDeleteDialogOpen) s.(taskToDelete).
Definition setSearchTerm (v : string) (s : State) : State :=
  mkState s.(tasks) s.(loading) s.(error) s.(filters) s.(filters_obj) v s.(page)
    s.(isDeleteDialogOpen) s.(taskToDelete).
Definition setPage (upd : Z -> Z) (s : State) : State :=
  mkState s.(tasks) s.(loading) s.(error) s.(filters) s.(filters_obj) s.(searchTerm)
    (upd s.(page)) s.(isDeleteDialogOpen) s.(taskToDelete).
Definition setIsDeleteDialogOpen (v : bool) (s : State) : State :=
  mkState s.(tasks) s.(loading) s.(error) s.(filters) s.(filters_obj) s.(searchTerm)
    s.(page) v s.(taskToDelete).
Definition setTaskToDelete (v : option Task) (s : State) : State :=
  mkState s.(tasks) s.(loading) s.(error) s.(filters) s.(filters_obj) s.(searchTerm)
    s.(page) s.(isDeleteDialogOpen) v.

Definition query_of (s : State) : Query := mkQuery s.(filters) s.(searchTerm) s.(page).

(** ** Requests and the handlers *)

(** A request in flight with what its continuation captured: the
    list request its query, the delete request the task id and the
    [fetchTasks] closure (its query) of the render it was sent from. *)
Inductive Req :=
| ListReq (q : Query) (url : string)
| DeleteReq (id : string) (url : string) (refetch : Query).

#[export] Instance Req_eq_dec : EqDecision Req.
Proof. solve_decision. Defined.

Definition API : string := "http://localhost:8000/api/tasks".

(** Lines 53-58: the query parameters. *)
Definition build_params (q : Query) : URLSearchParams.t :=
  let p0 := URLSearchParams.empty in
  let p1 := if bool_decide (q.(q_filters).(f_status) <> "all")
            then URLSearchParams.append "status" q.(q_filters).(f_status) p0 else p0 in
  let p2 := if bool_decide (q.(q_filters).(f_priority) <> "all")
            then URLSearchParams.append "priority" q.(q_filters).(f_priority) p1 else p1 in
  let p3 := if js_truthy q.(q_search)
            then URLSearchParams.append "search" q.(q_search) p2 else p2 in
  let p4 := URLSearchParams.append "skip" (js_number_string (q.(q_page) * TASKS_PER_PAGE)%Z) p3 in
  URLSearchParams.append "limit" (js_number_string TASKS_PER_PAGE) p4.

(** Line 61: the URL of the list request. *)
Definition tasks_url (q : Query) : string :=
  API +:+ "?" +:+ URLSearchParams.toString (build_params q).

(** [fetchTasks] (lines 50-70) up to its [await]: the synchronous part. *)
Definition fetchTasks (q : Query) : Hook State Req unit :=
  set_state (setLoading true) ;;
  set_state (setError None) ;;
  emit (ListReq q (tasks_url q)).

(** The rest of [fetchTasks], once the response has arrived
    (lines 62-68, [finally] included). *)
Definition fetchTasks_resume (r : Response (option (list Task))) : Hook State Req unit :=
  match r with
  | HttpResponse true (Some data) =>
      set_state (setTasks (default [] data)) ;; set_state (setLoading false)
  | _ =>
      set_state (setError (Some "Could not fetch tasks. Please try again later.")) ;;
      set_state (setLoading false)
  end.

(** [handleDelete] (lines 76-90) up to its [await]. *)
Definition handleDelete : Hook State Req unit :=
  s ← get_state;
  match s.(taskToDelete) with
  | None => mret ()
  | Some t => emit (DeleteReq t.(_id) (API +:+ "/" +:+ t.(_id)) (query_of s))
  end.

(** The rest of [handleDelete]: [fetchTasks()] of the captured render
    on success, the error message otherwise, then [finally]. *)
Definition handleDelete_resume (refetch : Query) (r : Response unit) : Hook State Req unit :=
  match r with
  | HttpResponse true _ => fetchTasks refetch
  | HttpResponse false _ => set_state (setError (Some "Failed to delete task"))
  | NetworkError msg => set_state (setError (Some msg))
  end ;;
  set_state (setIsDeleteDialogOpen false) ;;
  set_state (setTaskToDelete None).

(** [openDeleteDialog] (lines 92-95). *)
Definition openDeleteDialog (t : Task) : Hook State Req unit :=
  set_state (setTaskToDelete (Some t)) ;; set_state (setIsDeleteDialogOpen true).

(** ** User events and the guards the markup puts on them *)

Inductive UserEvent :=
| TypeSearch (v : string)       (** the search [Input]'s [onChange] *)
| SelectStatus (v : string)     (** the status [Select] *)
| SelectPriority (v : string)   (** the priority [Select] *)
| ClickPrevious                 (** line 209 *)
| ClickNext                     (** line 213 *)
| ClickDelete (t : Task)        (** a row's Delete button, line 191 *)
| ClickContinue                 (** [AlertDialogAction], line 229 *)
| DismissDialog.                (** [AlertDialogCancel], Escape: [onOpenChange(false)] *)

(** The handler each event runs.  [AlertDialogAction] runs its
    [onClick] ([handleDelete]) and then closes the dialog. *)
Definition handle (ev : UserEvent) : Hook State Req unit :=
  match ev with
  | TypeSearch v => set_state (setSearchTerm v)
  | SelectStatus v => set_state (setFilters (fun f => mkFilters v f.(f_priority)))
  | SelectPriority v => set_state (setFilters (fun f => mkFilters f.(f_status) v))
  | ClickPrevious => set_state (setPage (fun p => Z.max 0 (p - 1)%Z))
  | ClickNext => set_state (setPage (fun p => p + 1)%Z)
  | ClickDelete t => openDeleteDialog t
  | ClickContinue => handleDelete ;; set_state (setIsDeleteDialogOpen false)
  | DismissDialog => set_state (setIsDeleteDialogOpen false)
  end.

Definition status_items : list string := ["all"; "pending"; "in_progress"; "completed"].
Definition priority_items : list string := ["all"; "low"; "medium"; "high"].

(** [disabled={page === 0}] on Previous. *)
Definition prev_disabled (s : State) : bool := bool_decide (s.(page) = 0%Z).
(** [disabled={tasks.length < TASKS_PER_PAGE}] on Next. *)
Definition next_disabled (s : State) : bool :=
  bool_decide (Z.of_nat (length s.(tasks)) < TASKS_PER_PAGE)%Z.

(** Which events the rendered page can receive.  The open alert dialog
    is modal: only its two buttons respond.  Rows (and their Delete
    buttons) are rendered only when not loading. *)
Definition enabled (s : State) (ev : UserEvent) : bool :=
  if s.(isDeleteDialogOpen) then
    match ev with ClickContinue | DismissDialog => true | _ => false end
  else
    match ev with
    | TypeSearch _ => true
    | SelectStatus v => bool_decide (v ∈ status_items)
    | SelectPriority v => bool_decide (v ∈ priority_items)
    | ClickPrevious => negb (prev_disabled s)
    | ClickNext => negb (next_disabled s)
    | ClickDelete t => negb s.(loading) && bool_decide (t ∈ s.(tasks))
    | ClickContinue | DismissDialog => false
    end.

(** ** The table body (lines 173-198) *)

(** A row: its cells, and the task the Delete button's [onClick]
    captured. *)
Record Row := mkRow {
  row_task : Task;
  row_title : string;
  row_status_variant : string;
  row_status : string;
  row_priority_variant : string;
  row_priority : string;
  row_due : string;
  row_edit : string;          (** [<Link href={`/tasks/edit/${task._id}`}>] *)
}.

Inductive TableBody :=
| Skeletons (n : nat)      (** [loading ? [...Array(5)].map(...)] *)
| Rows (rows : list Row)   (** [tasks.map(...)] *)
| NoTasksFound.            (** "No tasks found." *)

Definition row_of (tz : Z) (t : Task) : Row :=
  mkRow t t.(title) (Display.getStatusBadgeVariant t.(status)) (Display.statusLabel t)
    (Display.getPriorityBadgeVariant t.(priority)) t.(priority) (Display.dueDateText tz t)
    ("/tasks/edit/" +:+ t.(_id)).

Definition table_body (tz : Z) (s : State) : TableBody :=
  if s.(loading) then Skeletons 5
  else if bool_decide (0 < length s.(tasks)) then Rows (map (row_of tz) s.(tasks))
  else NoTasksFound.

(** ** React and the browser around the page *)

Definition Deps : Type := nat * string * Z.
Definition deps_of (s : State) : Deps := (s.(filters_obj), s.(searchTerm), s.(page)).

Record World := mkWorld {
  ui : State;
  deps : option Deps;
  inflight : list (nat * Req);
  next_id : nat;
}.

(** Render and effect phase after a batch of updates: when a
    dependency of [fetchTasks] changed, the effect runs the new
    [fetchTasks]. *)
Definition commit (w : World) (res : State * list Req) : World :=
  let '(s, rs) := res in
  let '(fl, n) := issue rs w.(inflight) w.(next_id) in
  if bool_decide (w.(deps) = Some (deps_of s)) then mkWorld s w.(deps) fl n
  else
    let '(s', rs') := run_hook (fetchTasks (query_of s)) s in
    let '(fl', n') := issue rs' fl n in
    mkWorld s' (Some (deps_of s)) fl' n'.

(** The page after its first render: the mount effect has run. *)
Definition mount : World := commit (mkWorld initial None [] 0) (initial, []).

Definition dispatch (w : World) (ev : UserEvent) : World :=
  commit w (run_hook (handle ev) w.(ui)).

(** The arrival of a response, for the list or the delete endpoint. *)
Inductive NetEvent :=
| ListArrives (r : Response (option (list Task)))
| DeleteArrives (r : Response unit).

Definition resume (rq : Req) (ne : NetEvent) : option (Hook State Req unit) :=
  match rq, ne with
  | ListReq _ _, ListArrives r => Some (fetchTasks_resume r)
  | DeleteReq _ _ q, DeleteArrives r => Some (handleDelete_resume q r)
  | _, _ => None
  end.

(** The response of request [i] arrives: its continuation runs. *)
Definition deliver (w : World) (i : nat) (ne : NetEvent) : option World :=
  rq ← find_req i w.(inflight);
  k ← resume rq.2 ne;
  Some (commit (mkWorld w.(ui) w.(deps) (remove_req i w.(inflight)) w.(next_id))
               (run_hook k w.(ui))).

Inductive step : World -> World -> Prop :=
| step_user w ev : enabled w.(ui) ev = true -> step w (dispatch w ev)
| step_net w i ne w' : deliver w i ne = Some w' -> step w w'.

Definition reachable (w : World) : Prop := star step mount w.

(** The queries of the list requests among [rs]. *)
Definition req_queries (rs : list Req) : list Query :=
  omap (fun r => match r with ListReq q _ => Some q | DeleteReq _ _ _ => None end) rs.

(** A request as [fetchTasks] or [handleDelete] builds it. *)
Definition req_ok (r : Req) : Prop :=
  match r with
  | ListReq q url => url = tasks_url q /\ (0 <= q.(q_page))%Z
  | DeleteReq id url q => url = API +:+ "/" +:+ id /\ (0 <= q.(q_page))%Z
  end.

(** The page state's own invariant. *)
Definition state_ok (s : State) : Prop :=
  (0 <= s.(page))%Z /\ (s.(isDeleteDialogOpen) = true -> is_Some s.(taskToDelete)).

(** The invariant of the page in its world: the effect has run for the
    current dependencies, the state is well formed, request ids are
    fresh and distinct, and every request in flight is well formed. *)
Definition pool_ok (n : nat) (fl : list (nat * Req)) : Prop :=
  fresh_pool n fl /\ Forall (fun p => req_ok p.2) fl.

Definition inv (w : World) : Prop :=
  w.(deps) = Some (deps_of w.(ui)) /\ state_ok w.(ui) /\ pool_ok w.(next_id) w.(inflight).

(** ** Executable traces *)

Inductive Action :=
| User (ev : UserEvent)
| Net (i : nat) (ne : NetEvent).

Definition act (w : World) (a : Action) : option World :=
  match a with
  | User ev => if enabled w.(ui) ev then Some (dispatch w ev) else None
  | Net i ne => deliver w i ne
  end.

Fixpoint run_actions (w : World) (acts : list Action) : option World :=
  match acts with
  | [] => Some w
  | a :: acts' => w' ← act w a; run_actions w' acts'
  end.

(** ** Scenarios *)

Definition task_a : Task := mkTask "t1" "Call Alice" None "pending" "high" None.
Definition task_b : Task := mkTask "t2" "Book flights" (Some "to Berlin") "in_progress" "low" None.
Definition task_c : Task := mkTask "t3" "Buy milk" None "completed" "medium" None.

Definition ok_list (l : list Task) : NetEvent := ListArrives (HttpResponse true (Some (Some l))).

(** The user types [a] then [b] into the search box; the three list
    requests (mount, "a", "ab") are answered in the order 0, 2, 1. *)
Definition race_trace : list Action :=
  [User (TypeSearch "a"); User (TypeSearch "ab");
   Net 0 (ok_list [task_a; task_b; task_c]); Net 2 (ok_list [task_b]); Net 1 (ok_list [task_a])].

(** [race_trace] before its last response: the answers for the mount
    and for "ab" have arrived, the one for "a" is still in flight. *)
Definition race_world : World := default mount (run_actions mount (take 4 race_trace)).

(** Delete [task_a], and before its response arrives open the dialog
    for [task_b]. *)
Definition two_dialogs_trace : list Action :=
  [Net 0 (ok_list [task_a; task_b]); User (ClickDelete task_a); User ClickContinue;
   User (ClickDelete task_b)].

(** The page after the first list arrived and Delete was clicked on
    [task_a], and the page of [two_dialogs_trace]. *)
Definition dialog_world : World :=
  default mount (run_actions mount [Net 0 (ok_list [task_a; task_b]); User (ClickDelete task_a)]).
Definition two_dialogs_world : World := default mount (run_actions mount two_dialogs_trace).
(** [two_dialogs_world] after the delete of [task_a] succeeded, or failed. *)
Definition deleted_world : World :=
  default mount (deliver two_dialogs_world 1 (DeleteArrives (HttpResponse true None))).
Definition failed_delete_world : World :=
  default mount (deliver two_dialogs_world 1 (DeleteArrives (HttpResponse false None))).

(** ** How the handlers compute *)

Lemma run_fetchTasks q s :
  run_hook (fetchTasks q) s = (setError None (setLoading true s), [ListReq q (tasks_url q)]).
Proof. reflexivity. Qed.

Lemma run_fetchTasks_resume r s :
  run_hook (fetchTasks_resume r) s =
  (match r with
   | HttpResponse true (Some data) => setLoading false (setTasks (default [] data) s)
   | _ => setLoading false (setError (Some "Could not fetch tasks. Please try again later.") s)
   end, []).
Proof. by destruct r as [|[] [|]]. Qed.

Lemma run_handleDelete s :
  run_hook handleDelete s =
  (s, match s.(taskToDelete) with
      | None => []
      | Some t => [DeleteReq t.(_id) (API +:+ "/" +:+ t.(_id)) (query_of s)]
      end).
Proof. unfold run_hook, handleDelete, mbind, hook_bind, get_state. by destruct (taskToDelete s). Qed.

Lemma run_handleDelete_resume q r s :
  run_hook (handleDelete_resume q r) s =
  (setTaskToDelete None (setIsDeleteDialogOpen false
     (match r with
      | HttpResponse true _ => setError None (setLoading true s)
      | HttpResponse false _ => setError (Some "Failed to delete task") s
      | NetworkError msg => setError (Some msg) s
      end)),
   match r with HttpResponse true _ => [ListReq q (tasks_url q)] | _ => [] end).
Proof. by destruct r as [|[] ?]. Qed.

(** ** [commit] *)

Lemma commit_spec w s rs :
  let changed := negb (bool_decide (w.(deps) = Some (deps_of s))) in
  (commit w (s, rs)).(ui) = (if changed then setError None (setLoading true s) else s) /\
  (commit w (s, rs)).(deps) = (if changed then Some (deps_of s) else w.(deps)) /\
  map snd (commit w (s, rs)).(inflight) =
    map snd w.(inflight) ++ rs ++
    (if changed then [ListReq (query_of s) (tasks_url (query_of s))] else []).
Proof.
  unfold commit. pose proof (map_snd_issue rs (inflight w) (next_id w)) as H1.
  destruct (issue rs (inflight w) (next_id w)) as [fl n]; cbn in H1.
  case_bool_decide; cbn; [by rewrite H1, app_nil_r|].
  rewrite run_fetchTasks. pose proof (map_snd_issue [ListReq (query_of s) (tasks_url (query_of s))] fl n) as H2.
  destruct (issue _ fl n) as [fl' n']; cbn in H2 |- *. by rewrite H2, H1, app_assoc.
Qed.

Lemma commit_inv w s rs :
  state_ok s -> Forall req_ok rs -> pool_ok w.(next_id) w.(inflight) ->
  inv (commit w (s, rs)).
Proof.
  intros Hs Hrs [Hf Hok]. unfold commit.
  pose proof (issue_fresh rs _ _ Hf) as Hf1. pose proof (issue_Forall _ rs _ (next_id w) Hok Hrs) as Hok1.
  destruct (issue rs (inflight w) (next_id w)) as [fl n]; cbn in Hf1, Hok1.
  case_bool_decide as Hd; [by unfold inv; cbn; split_and!|].
  rewrite run_fetchTasks. set (r := ListReq (query_of s) (tasks_url (query_of s))).
  pose proof (issue_fresh [r] _ _ Hf1) as Hf2.
  pose proof (issue_Forall _ [r] _ n Hok1 ltac:(apply Forall_singleton; split; [done|apply Hs])) as Hok2.
  destruct (issue [r] fl n) as [fl' n']; cbn in Hf2, Hok2. by unfold inv; cbn; split_and!.
Qed.

Lemma handle_ok ev s :
  state_ok s -> state_ok (run_hook (handle ev) s).1 /\ Forall req_ok (run_hook (handle ev) s).2.
Proof.
  intros [Hpg Hdlg]. unfold state_ok.
  destruct ev; unfold handle, openDeleteDialog, handleDelete; hook_unfold; cbn;
    try destruct (taskToDelete s); cbn; split_and!; try done; try lia.
  by apply Forall_singleton.
Qed.

Lemma resume_ok rq ne k s :
  req_ok rq -> resume rq ne = Some k -> state_ok s ->
  state_ok (run_hook k s).1 /\ Forall req_ok (run_hook k s).2.
Proof.
  intros Hrq Hk Hs. destruct rq as [q url|id url q], ne as [r|r]; cbn in Hk; simplify_eq.
  - rewrite run_fetchTasks_resume. by destruct r as [|[] [|]].
  - rewrite run_handleDelete_resume. destruct Hs as [? _], Hrq as [_ ?].
    split; [split; [by destruct r as [|[] ?]|done]|].
    destruct r as [|[] ?]; repeat constructor; done.
Qed.

Lemma inv_mount : inv mount.
Proof. apply commit_inv; [split; [cbn; lia|done]|constructor|repeat split; constructor]. Qed.

Lemma inv_step w w' : inv w -> step w w' -> inv w'.
Proof.
  intros (Hd & Hs & Hp) Hstep. destruct Hstep as [w ev _|w i ne w' Hdel].
  - unfold dispatch. destruct (handle_ok ev _ Hs) as [? ?].
    destruct (run_hook (handle ev) (ui w)) eqn:E. by apply commit_inv.
  - unfold deliver in Hdel.
    destruct (find_req i _) as [[j rq]|] eqn:Hf; cbn in Hdel; [|done].
    destruct (resume rq ne) as [k|] eqn:Hk; cbn in Hdel; simplify_eq.
    apply find_req_some in Hf as [Hin _]. destruct Hp as [Hfr Hok].
    assert (req_ok rq) as Hrq by (rewrite Forall_forall in Hok; apply (Hok (j, rq) Hin)).
    destruct (resume_ok rq ne k _ Hrq Hk Hs) as [? ?].
    destruct (run_hook k (ui w)) eqn:E. apply commit_inv; [done|done|].
    split; [by apply remove_req_fresh|by apply remove_req_Forall].
Qed.

Lemma tasklist_inv_reachable w : reachable w -> inv w.
Proof. intros Hr. eapply star_invariant; [apply inv_step|apply inv_mount|exact Hr]. Qed.

(** C1: every reachable state of the list page satisfies [inv]: the
    effect has run for the current filters, search term and page; the
    page number is never negative; the delete dialog is only open with
    a candidate task; request ids are distinct and below [next_id]; and
    every request in flight is well formed (a list request for
    [tasks_url q] with [q]'s page non-negative, a delete request for
    [API/id]). *)
Theorem reachable_inv w : reachable w -> inv w.
Proof. intros Hr. exact (tasklist_inv_reachable w Hr). Qed.

Lemma req_queries_app rs1 rs2 : req_queries (rs1 ++ rs2) = req_queries rs1 ++ req_queries rs2.
Proof. apply omap_app. Qed.

Lemma handle_no_list ev s : req_queries (run_hook (handle ev) s).2 = [].
Proof.
  destruct ev; unfold handle, openDeleteDialog, handleDelete; hook_unfold; cbn; try done.
  by destruct (taskToDelete s).
Qed.

Lemma reachable_deps w : reachable w -> w.(deps) = Some (deps_of w.(ui)).
Proof. intros Hr. apply (tasklist_inv_reachable w Hr). Qed.

(** Commit after a batch that started from the world's own state. *)
Lemma commit_changed w s rs :
  w.(deps) = Some (deps_of w.(ui)) ->
  let w' := commit w (s, rs) in
  deps_of w'.(ui) = deps_of s /\ query_of w'.(ui) = query_of s /\
  map snd w'.(inflight) = map snd w.(inflight) ++ rs ++
    (if bool_decide (deps_of s = deps_of w.(ui)) then []
     else [ListReq (query_of s) (tasks_url (query_of s))]).
Proof.
  intros Hd. destruct (commit_spec w s rs) as (Hui & _ & Hfl). cbn zeta.
  rewrite Hui, Hfl, Hd.
  destruct (bool_decide (deps_of s = deps_of (ui w))) eqn:E;
    [apply bool_decide_eq_true in E|apply bool_decide_eq_false in E];
    rewrite ?bool_decide_eq_true_2 by congruence;
    rewrite ?bool_decide_eq_false_2 by congruence; done.
Qed.

(** C2: from any reachable state, a user event issues exactly one new
    list request when it changes the filters object, the search term
    or the page, for the new query, and none otherwise. *)
Theorem one_list_request_per_change w ev :
  reachable w ->
  req_queries (map snd (dispatch w ev).(inflight)) =
  req_queries (map snd w.(inflight)) ++
  (if bool_decide (deps_of (dispatch w ev).(ui) = deps_of w.(ui)) then []
   else [query_of (dispatch w ev).(ui)]).
Proof.
  intros Hr. unfold dispatch. pose proof (handle_no_list ev (ui w)) as Hno.
  destruct (run_hook (handle ev) (ui w)) as [s rs] eqn:E; cbn [snd] in Hno.
  destruct (commit_changed w s rs (reachable_deps w Hr)) as (-> & -> & ->).
  rewrite !req_queries_app, Hno. by case_bool_decide.
Qed.

(** C3: the backend reading the list request's query string finds
    [status] and [priority] exactly when the filter is not [all],
    [search] exactly when the term is not empty, [skip = page * 10] and
    [limit = 10]. *)
Theorem list_request_parameters q :
  (0 <= q.(q_page))%Z ->
  let ps := URLSearchParams.parse (URLSearchParams.toString (build_params q)) in
  URLSearchParams.get "status" ps =
    (if bool_decide (q.(q_filters).(f_status) = "all") then None else Some q.(q_filters).(f_status)) /\
  URLSearchParams.get "priority" ps =
    (if bool_decide (q.(q_filters).(f_priority) = "all") then None else Some q.(q_filters).(f_priority)) /\
  URLSearchParams.get "search" ps =
    (if bool_decide (q.(q_search) = "") then None else Some q.(q_search)) /\
  URLSearchParams.get "skip" ps = Some (N_to_string (Z.to_N (q.(q_page) * 10))) /\
  URLSearchParams.get "limit" ps = Some "10".
Proof.
  intros Hpg. cbn zeta. rewrite URLSearchParams.parse_toString.
  unfold build_params, TASKS_PER_PAGE.
  destruct q as [[st pr] se pg]; cbn [q_filters q_search q_page f_status f_priority] in *.
  unfold js_truthy. destruct (String.eqb_spec se "") as [->|Hse].
  all: repeat case_bool_decide; try congruence; cbn.
  all: rewrite js_number_string_nonneg by lia; by split_and!.
Qed.

(** A batch that leaves the dependencies alone is committed as is. *)
Lemma commit_same_deps w s rs :
  w.(deps) = Some (deps_of w.(ui)) -> deps_of s = deps_of w.(ui) ->
  (commit w (s, rs)).(ui) = s /\
  map snd (commit w (s, rs)).(inflight) = map snd w.(inflight) ++ rs.
Proof.
  intros Hd Hs. destruct (commit_spec w s rs) as (Hui & _ & Hfl).
  rewrite Hui, Hfl, Hd, Hs, bool_decide_eq_true_2 by done. by rewrite app_nil_r.
Qed.

Lemma dispatch_same_deps w ev :
  reachable w -> deps_of (run_hook (handle ev) w.(ui)).1 = deps_of w.(ui) ->
  (dispatch w ev).(ui) = (run_hook (handle ev) w.(ui)).1 /\
  map snd (dispatch w ev).(inflight) = map snd w.(inflight) ++ (run_hook (handle ev) w.(ui)).2.
Proof.
  intros Hr. unfold dispatch. destruct (run_hook _ _) as [s rs]; cbn.
  by apply commit_same_deps, reachable_deps.
Qed.

(** C7: clicking a row's Delete button sends no request; it opens the
    dialog holding that task. *)
Theorem request_delete_no_call w t :
  reachable w ->
  let w' := dispatch w (ClickDelete t) in
  map snd w'.(inflight) = map snd w.(inflight) /\
  w'.(ui).(isDeleteDialogOpen) = true /\ w'.(ui).(taskToDelete) = Some t.
Proof.
  intros Hr; cbn zeta. destruct (dispatch_same_deps w (ClickDelete t) Hr) as [-> ->]; [done|].
  cbn. by rewrite app_nil_r.
Qed.

(** C6: clicking Continue with a candidate task sends exactly one
    request, [DELETE API/id] for that task, closes the dialog and keeps
    the candidate until the response arrives. *)
Theorem confirm_delete_one_request w t :
  reachable w -> w.(ui).(taskToDelete) = Some t ->
  let w' := dispatch w ClickContinue in
  map snd w'.(inflight) =
    map snd w.(inflight) ++ [DeleteReq t.(_id) (API +:+ "/" +:+ t.(_id)) (query_of w.(ui))] /\
  w'.(ui).(isDeleteDialogOpen) = false /\ w'.(ui).(taskToDelete) = Some t.
Proof.
  intros Hr Ht; cbn zeta. destruct (dispatch_same_deps w ClickContinue Hr) as [-> ->].
  - unfold handle, handleDelete; hook_unfold; cbn. by rewrite Ht.
  - unfold handle, handleDelete; hook_unfold; cbn. rewrite Ht. cbn. by rewrite Ht.
Qed.

(** C9: dismissing the dialog sends nothing and closes it, but keeps
    the candidate task in [taskToDelete]. *)
Theorem cancel_delete_keeps_candidate w :
  reachable w ->
  let w' := dispatch w DismissDialog in
  map snd w'.(inflight) = map snd w.(inflight) /\
  w'.(ui).(isDeleteDialogOpen) = false /\ w'.(ui).(taskToDelete) = w.(ui).(taskToDelete).
Proof.
  intros Hr; cbn zeta. destruct (dispatch_same_deps w DismissDialog Hr) as [-> ->]; [done|].
  cbn. by rewrite app_nil_r.
Qed.

Lemma deliver_spec w i ne w' :
  deliver w i ne = Some w' ->
  exists rq k, find_req i w.(inflight) = Some (i, rq) /\
    resume rq ne = Some k /\
    w' = commit (mkWorld w.(ui) w.(deps) (remove_req i w.(inflight)) w.(next_id))
                (run_hook k w.(ui)).
Proof.
  unfold deliver. destruct (find_req i _) as [[j rq]|] eqn:Hf; cbn; [|done].
  destruct (resume rq ne) as [k|] eqn:Hk; cbn; [|done]. intros [= <-].
  pose proof (find_req_some _ _ _ Hf) as [_ Hj]; cbn in Hj; subst j. by exists rq, k.
Qed.

(** The effect a commit may run only touches [loading] and [error]. *)
Lemma commit_dialog w s rs :
  (commit w (s, rs)).(ui).(isDeleteDialogOpen) = s.(isDeleteDialogOpen).
Proof. destruct (commit_spec w s rs) as (-> & _). by destruct (negb _). Qed.
Lemma commit_candidate w s rs : (commit w (s, rs)).(ui).(taskToDelete) = s.(taskToDelete).
Proof. destruct (commit_spec w s rs) as (-> & _). by destruct (negb _). Qed.

(** The URL of a list request is [API?qs] where [qs] parses back
    to exactly the parameters [fetchTasks] appended: whatever the search
    term contains ([&], [=], [+], [%], non-ASCII bytes), the backend
    receives it intact and no parameter is added or lost. *)
Theorem tasks_url_roundtrip q :
  exists qs, tasks_url q = API +:+ "?" +:+ qs /\ URLSearchParams.parse qs = build_params q.
Proof. exists (URLSearchParams.toString (build_params q)). split; [done|]. apply URLSearchParams.parse_toString. Qed.

(** C4: whatever the response to a delete request (success, HTTP
    error or network failure), once it arrives the confirmation dialog
    is closed and no candidate task is held. *)
Theorem delete_response_clears_dialog w i r w' :
  deliver w i (DeleteArrives r) = Some w' ->
  w'.(ui).(isDeleteDialogOpen) = false /\ w'.(ui).(taskToDelete) = None.
Proof.
  intros (rq & k & _ & Hk & ->)%deliver_spec.
  destruct rq as [|id url q]; cbn in Hk; simplify_eq.
  by rewrite run_handleDelete_resume, commit_dialog, commit_candidate.
Qed.

(** C5: the arrival of a delete response: on success the list is
    re-queried once with the query captured when Continue was clicked
    (error cleared, loading); on an HTTP error the message is [Failed to
    delete task] and on a network failure the browser's message, with
    the list unchanged and no new list request. *)
Theorem delete_response_outcome w i id url q r w' :
  reachable w -> (i, DeleteReq id url q) ∈ w.(inflight) ->
  deliver w i (DeleteArrives r) = Some w' ->
  let rest := req_queries (map snd (remove_req i w.(inflight))) in
  match r with
  | HttpResponse true _ =>
      req_queries (map snd w'.(inflight)) = rest ++ [q] /\
      w'.(ui).(error) = None /\ w'.(ui).(loading) = true
  | HttpResponse false _ =>
      req_queries (map snd w'.(inflight)) = rest /\
      w'.(ui).(error) = Some "Failed to delete task" /\ w'.(ui).(tasks) = w.(ui).(tasks)
  | NetworkError msg =>
      req_queries (map snd w'.(inflight)) = rest /\
      w'.(ui).(error) = Some msg /\ w'.(ui).(tasks) = w.(ui).(tasks)
  end.
Proof.
  intros Hr Hin (rq & k & Hf & Hk & ->)%deliver_spec. cbn zeta.
  destruct (tasklist_inv_reachable w Hr) as (Hd & _ & [_ Hnd] & _).
  rewrite (find_req_by_id i (DeleteReq id url q) _ Hnd Hin) in Hf. injection Hf as <-.
  cbn in Hk. injection Hk as <-. rewrite run_handleDelete_resume.
  destruct (commit_same_deps (mkWorld (ui w) (deps w) (remove_req i (inflight w)) (next_id w))
    (setTaskToDelete None (setIsDeleteDialogOpen false
      (match r with
       | HttpResponse true _ => setError None (setLoading true (ui w))
       | HttpResponse false _ => setError (Some "Failed to delete task") (ui w)
       | NetworkError msg => setError (Some msg) (ui w)
       end))) (match r with HttpResponse true _ => [ListReq q (tasks_url q)] | _ => [] end))
    as [-> ->]; [done|by destruct r as [|[] ?]|].
  rewrite req_queries_app. destruct r as [|[] ?]; cbn; rewrite ?app_nil_r; done.
Qed.

Lemma run_actions_reachable w acts w' :
  reachable w -> run_actions w acts = Some w' -> reachable w'.
Proof.
  revert w. induction acts as [|a acts IH]; intros w Hr H; cbn in H; [by simplify_eq|].
  destruct (act w a) as [w1|] eqn:Ha; cbn in H; [|done].
  apply (IH w1); [|done]. apply (star_right _ _ w); [done|].
  destruct a as [ev|i ne]; cbn in Ha.
  - destruct (enabled (ui w) ev) eqn:He; simplify_eq. by constructor.
  - by econstructor.
Qed.

(** The spec's scenario (status [completed], priority [all],
    empty search, page 0): the request URL puts [status] first, then
    [skip] and [limit]. *)
Lemma completed_filter_url :
  tasks_url (mkQuery (mkFilters "completed" "all") "" 0) =
  "http://localhost:8000/api/tasks?status=completed&skip=0&limit=10".
Proof. reflexivity. Qed.

(** C8: list responses are not matched to the query they answer.
    Whichever list request [i] is answered, for the current query or
    for an earlier one ([q] need not be [query_of w.(ui)]), its outcome
    is applied: on success its data replaces the list, otherwise the
    error message is set and the list kept; in both cases [loading]
    ends although other list requests may still be in flight, the
    filters, search and page stay, and nothing new is requested. *)
Theorem list_response_outcome w i q url r w' :
  reachable w -> (i, ListReq q url) ∈ w.(inflight) ->
  deliver w i (ListArrives r) = Some w' ->
  map snd w'.(inflight) = map snd (remove_req i w.(inflight)) /\
  w'.(ui).(loading) = false /\ query_of w'.(ui) = query_of w.(ui) /\
  match r with
  | HttpResponse true (Some data) => w'.(ui).(tasks) = default [] data
  | _ => w'.(ui).(tasks) = w.(ui).(tasks) /\
         w'.(ui).(error) = Some "Could not fetch tasks. Please try again later."
  end.
Proof.
  intros Hr Hin (rq & k & Hf & Hk & ->)%deliver_spec.
  destruct (tasklist_inv_reachable w Hr) as (Hd & _ & [_ Hnd] & _).
  rewrite (find_req_by_id i (ListReq q url) _ Hnd Hin) in Hf. injection Hf as <-.
  cbn in Hk. injection Hk as <-. rewrite run_fetchTasks_resume.
  destruct (commit_same_deps (mkWorld (ui w) (deps w) (remove_req i (inflight w)) (next_id w))
    (match r with
     | HttpResponse true (Some data) => setLoading false (setTasks (default [] data) (ui w))
     | _ => setLoading false (setError (Some "Could not fetch tasks. Please try again later.") (ui w))
     end) []) as [-> ->]; [done|by destruct r as [|[] [|]]|].
  rewrite app_nil_r. by destruct r as [|[] [|]].
Qed.

(** A page button's handler only moves the page: the effect then
    requests the new page. *)
Lemma dispatch_setPage w ev f :
  reachable w -> run_hook (handle ev) w.(ui) = (setPage f w.(ui), []) ->
  f w.(ui).(page) <> w.(ui).(page) ->
  req_queries (map snd (dispatch w ev).(inflight)) =
  req_queries (map snd w.(inflight)) ++ [mkQuery w.(ui).(filters) w.(ui).(searchTerm) (f w.(ui).(page))].
Proof.
  intros Hr Hh Hf. unfold dispatch. rewrite Hh.
  destruct (commit_changed w (setPage f (ui w)) [] (reachable_deps w Hr)) as (_ & _ & ->).
  rewrite bool_decide_eq_false_2 by (unfold deps_of; cbn; intros [=]; done).
  by rewrite !req_queries_app.
Qed.

(** C34: pagination as the spec states it.  With the dialog closed,
    Previous responds exactly when the page is not the first and Next
    exactly when the loaded page is full (10 tasks); each click requests
    the adjacent page with the same filters and search. *)
Theorem pagination_guards w :
  reachable w -> w.(ui).(isDeleteDialogOpen) = false ->
  (enabled w.(ui) ClickPrevious = true <-> (0 < w.(ui).(page))%Z) /\
  (enabled w.(ui) ClickNext = true <-> (TASKS_PER_PAGE <= Z.of_nat (length w.(ui).(tasks)))%Z) /\
  req_queries (map snd (dispatch w ClickNext).(inflight)) =
    req_queries (map snd w.(inflight)) ++ [mkQuery w.(ui).(filters) w.(ui).(searchTerm) (w.(ui).(page) + 1)] /\
  ((0 < w.(ui).(page))%Z ->
   req_queries (map snd (dispatch w ClickPrevious).(inflight)) =
     req_queries (map snd w.(inflight)) ++ [mkQuery w.(ui).(filters) w.(ui).(searchTerm) (w.(ui).(page) - 1)]).
Proof.
  intros Hr Hc. destruct (tasklist_inv_reachable w Hr) as (_ & [Hp _] & _).
  unfold enabled, prev_disabled, next_disabled. rewrite Hc. split_and!.
  - rewrite negb_true_iff, bool_decide_eq_false. lia.
  - rewrite negb_true_iff, bool_decide_eq_false. lia.
  - apply (dispatch_setPage w ClickNext (fun p => p + 1)%Z); [done|reflexivity|lia].
  - intros Hpos. rewrite (dispatch_setPage w ClickPrevious (fun p => Z.max 0 (p - 1))%Z); [|done|reflexivity|lia].
    do 3 f_equal. lia.
Qed.

(** The guard on a row's Delete button matches the rendered table:
    with the dialog closed, [ClickDelete t] is possible exactly when the
    table shows rows and one of them is the row of [t]. *)
Theorem delete_button_iff_row tz s t :
  s.(isDeleteDialogOpen) = false ->
  enabled s (ClickDelete t) = true <->
  exists rows, table_body tz s = Rows rows /\ t ∈ map row_task rows.
Proof.
  intros Hc. unfold enabled, table_body. rewrite Hc.
  assert (map row_task (map (row_of tz) s.(tasks)) = s.(tasks)) as Hmap
    by (induction (tasks s) as [|x l IH]; cbn; congruence).
  destruct (loading s); cbn; [split; [done|by intros (? & ? & _)]|].
  rewrite bool_decide_eq_true. case_bool_decide as Hlen.
  - split; [intros Hin; by exists (map (row_of tz) s.(tasks)); rewrite Hmap|].
    intros (rows & [= <-] & Hin). by rewrite Hmap in Hin.
  - destruct (tasks s); cbn in Hlen; [|lia]. split; [intros ?%not_elem_of_nil; done|].
    by intros (? & ? & _).
Qed.

(** ** Witnesses *)

Lemma reachable_dialog_world : reachable dialog_world.
Proof.
  apply (run_actions_reachable mount [Net 0 (ok_list [task_a; task_b]); User (ClickDelete task_a)]);
    [apply star_refl|vm_compute; reflexivity].
Qed.

Lemma reachable_two_dialogs_world : reachable two_dialogs_world.
Proof.
  apply (run_actions_reachable mount two_dialogs_trace); [apply star_refl|vm_compute; reflexivity].
Qed.

Lemma reachable_inv_witness : reachable dialog_world /\ inv dialog_world.
Proof. split; [apply reachable_dialog_world|apply (reachable_inv dialog_world reachable_dialog_world)]. Defined.

Lemma one_list_request_per_change_witness :
  reachable mount /\
  req_queries (map snd (dispatch mount (TypeSearch "a")).(inflight)) =
  req_queries (map snd mount.(inflight)) ++
  (if bool_decide (deps_of (dispatch mount (TypeSearch "a")).(ui) = deps_of mount.(ui)) then []
   else [query_of (dispatch mount (TypeSearch "a")).(ui)]).
Proof. split; [apply star_refl|apply (one_list_request_per_change mount); apply star_refl]. Defined.

Lemma list_request_parameters_witness :
  let q := mkQuery (mkFilters "completed" "all") "a&b=c" 2 in
  (0 <= q.(q_page))%Z /\
  let ps := URLSearchParams.parse (URLSearchParams.toString (build_params q)) in
  URLSearchParams.get "status" ps = Some "completed" /\
  URLSearchParams.get "priority" ps = None /\
  URLSearchParams.get "search" ps = Some "a&b=c" /\
  URLSearchParams.get "skip" ps = Some (N_to_string (Z.to_N (q.(q_page) * 10))) /\
  URLSearchParams.get "limit" ps = Some "10".
Proof.
  cbn zeta. split; [cbn; lia|].
  apply (list_request_parameters (mkQuery (mkFilters "completed" "all") "a&b=c" 2)). cbn; lia.
Defined.

Lemma request_delete_no_call_witness :
  reachable dialog_world /\
  map snd (dispatch dialog_world (ClickDelete task_b)).(inflight) = map snd dialog_world.(inflight) /\
  (dispatch dialog_world (ClickDelete task_b)).(ui).(isDeleteDialogOpen) = true /\
  (dispatch dialog_world (ClickDelete task_b)).(ui).(taskToDelete) = Some task_b.
Proof.
  split; [apply reachable_dialog_world|].
  apply (request_delete_no_call dialog_world task_b reachable_dialog_world).
Defined.

Lemma confirm_delete_one_request_witness :
  dialog_world.(ui).(taskToDelete) = Some task_a /\
  map snd (dispatch dialog_world ClickContinue).(inflight) =
    map snd dialog_world.(inflight) ++
    [DeleteReq task_a.(_id) (API +:+ "/" +:+ task_a.(_id)) (query_of dialog_world.(ui))] /\
  (dispatch dialog_world ClickContinue).(ui).(isDeleteDialogOpen) = false /\
  (dispatch dialog_world ClickContinue).(ui).(taskToDelete) = Some task_a.
Proof.
  split; [vm_compute; reflexivity|].
  apply (confirm_delete_one_request dialog_world task_a reachable_dialog_world).
  vm_compute; reflexivity.
Defined.

Lemma cancel_delete_keeps_candidate_witness :
  map snd (dispatch dialog_world DismissDialog).(inflight) = map snd dialog_world.(inflight) /\
  (dispatch dialog_world DismissDialog).(ui).(isDeleteDialogOpen) = false /\
  (dispatch dialog_world DismissDialog).(ui).(taskToDelete) = Some task_a.
Proof.
  replace (Some task_a) with dialog_world.(ui).(taskToDelete) by (vm_compute; reflexivity).
  apply (cancel_delete_keeps_candidate dialog_world reachable_dialog_world).
Defined.

Lemma delete_response_clears_dialog_witness :
  deliver two_dialogs_world 1 (DeleteArrives (HttpResponse true None)) = Some deleted_world /\
  deleted_world.(ui).(isDeleteDialogOpen) = false /\ deleted_world.(ui).(taskToDelete) = None.
Proof.
  split; [vm_compute; reflexivity|].
  apply (delete_response_clears_dialog two_dialogs_world 1 (HttpResponse true None)).
  vm_compute; reflexivity.
Defined.

Lemma delete_response_outcome_witness :
  (1, DeleteReq "t1" (API +:+ "/t1") (mkQuery (mkFilters "all" "all") "" 0))
    ∈ two_dialogs_world.(inflight) /\
  req_queries (map snd failed_delete_world.(inflight)) =
    req_queries (map snd (remove_req 1 two_dialogs_world.(inflight))) /\
  failed_delete_world.(ui).(error) = Some "Failed to delete task" /\
  failed_delete_world.(ui).(tasks) = two_dialogs_world.(ui).(tasks).
Proof.
  assert ((1, DeleteReq "t1" (API +:+ "/t1") (mkQuery (mkFilters "all" "all") "" 0))
    ∈ two_dialogs_world.(inflight)) as Hin by (apply (bool_decide_unpack _); vm_compute; reflexivity).
  split; [exact Hin|].
  apply (delete_response_outcome two_dialogs_world 1 "t1" (API +:+ "/t1")
           (mkQuery (mkFilters "all" "all") "" 0) (HttpResponse false None) failed_delete_world
           reachable_two_dialogs_world Hin).
  vm_compute; reflexivity.
Defined.

Lemma pagination_guards_witness :
  (mount.(ui).(isDeleteDialogOpen) = false) /\
  (enabled mount.(ui) ClickPrevious = true <-> (0 < mount.(ui).(page))%Z) /\
  (enabled mount.(ui) ClickNext = true <-> (TASKS_PER_PAGE <= Z.of_nat (length mount.(ui).(tasks)))%Z) /\
  req_queries (map snd (dispatch mount ClickNext).(inflight)) =
    req_queries (map snd mount.(inflight)) ++
    [mkQuery mount.(ui).(filters) mount.(ui).(searchTerm) (mount.(ui).(page) + 1)] /\
  ((0 < mount.(ui).(page))%Z ->
   req_queries (map snd (dispatch mount ClickPrevious).(inflight)) =
     req_queries (map snd mount.(inflight)) ++
     [mkQuery mount.(ui).(filters) mount.(ui).(searchTerm) (mount.(ui).(page) - 1)]).
Proof. split; [reflexivity|]. apply (pagination_guards mount (star_refl _ _)). reflexivity. Defined.


Lemma list_response_outcome_witness :
  let q := mkQuery (mkFilters "all" "all") "a" 0 in
  let w' := default mount (deliver race_world 1 (ok_list [task_a])) in
  (1, ListReq q (tasks_url q)) ∈ race_world.(inflight) /\ query_of race_world.(ui) <> q /\
  map snd w'.(inflight) = map snd (remove_req 1 race_world.(inflight)) /\
  w'.(ui).(loading) = false /\ query_of w'.(ui) = query_of race_world.(ui) /\ w'.(ui).(tasks) = [task_a].
Proof.
  cbn zeta.
  assert (reachable race_world) as Hr
    by (apply (run_actions_reachable mount (take 4 race_trace)); [apply star_refl|vm_compute; reflexivity]).
  assert ((1, ListReq (mkQuery (mkFilters "all" "all") "a" 0) (tasks_url (mkQuery (mkFilters "all" "all") "a" 0)))
            ∈ race_world.(inflight)) as Hin by (apply (bool_decide_unpack _); vm_compute; reflexivity).
  assert (deliver race_world 1 (ok_list [task_a]) = Some (default mount (deliver race_world 1 (ok_list [task_a]))))
    as Hd by (vm_compute; reflexivity).
  split; [exact Hin|]. split; [intros Hq; vm_compute in Hq; discriminate Hq|].
  destruct (list_response_outcome race_world 1 _ _ _ _ Hr Hin Hd) as (H1 & H2 & H3 & H4).
  split_and!; [exact H1|exact H2|exact H3|exact H4].
Defined.

End TasksPage.
