(* ===== verification/EditTask.v ===== *)
(** * The edit page ([app/tasks/edit/[id]/page.js], [EditTaskPage])

    [State] has one field per [useState] (lines 23-32).  On mount the
    effect of lines 34-38 calls [fetchTask] for the route's [taskId]; the
    response seeds [task] and the draft [formData].  The form is shown
    only once loaded with a task; its submission is first checked by the
    browser ([required] on the title input, line 142) and then handled
    by [handleSubmit], which sends the whole draft with [PUT] and either
    navigates back to the list or shows an [alert].

    As for the list page, [World] adds the requests in flight and the
    effects the page has had on the browser (alerts, navigations, the
    validation message), and [step] is the transition relation. *)

From S2P Require Import Prelude.
From S2P Require Import Task.

Module EditTaskPage.

Record FormData := mkForm {
  fd_title : string;
  fd_description : option string;
  fd_status : string;
  fd_priority : string;
  fd_due_date : string;
}.

#[export] Instance FormData_eq_dec : EqDecision FormData.
Proof. solve_decision. Defined.

Record State := mkState {
  loading : bool;
  saving : bool;
  task : option Task;
  formData : FormData;
}.

Definition initial : State :=
  mkState true false None (mkForm "" (Some "") "pending" "medium" "").

Definition setLoading (v : bool) (s : State) : State := mkState v s.(saving) s.(task) s.(formData).
Definition setSaving (v : bool) (s : State) : State := mkState s.(loading) v s.(task) s.(formData).
Definition setTask (v : option Task) (s : State) : State :=
  mkState s.(loading) s.(saving) v s.(formData).
Definition setFormData (upd : FormData -> FormData) (s : State) : State :=
  mkState s.(loading) s.(saving) s.(task) (upd s.(formData)).

(** The body of an error response: FastAPI's [detail] is a message, or
    for a validation error a list of objects. *)
Inductive Detail :=
| DetailText (msg : string)
| DetailObjects (n : nat).

(** What the page hands to the browser. *)
Inductive Eff :=
| GetTask (url : string)
| PutTask (url : string) (body : FormData)
| Alert (msg : string)
| Navigate (path : string)
| GoBack
| ConsoleError
| ReportValidity.

Definition task_url (taskId : string) : string := "http://localhost:8000/api/tasks/" +:+ taskId.

(** The mount effect (lines 34-38): [if (taskId) fetchTask()]. *)
Definition mount_effect (taskId : string) : Hook State Eff unit :=
  if js_truthy taskId then emit (GetTask (task_url taskId)) else mret ().

(** The draft seeded from a loaded task (lines 46-52). *)
Definition seed (td : Task) (_ : FormData) : FormData :=
  mkForm td.(title) td.(description) td.(status) td.(priority) (js_or_str td.(due_date) "").

(** [fetchTask] after the response (lines 43-58, [finally] included). *)
Definition fetchTask_resume (r : Response Task) : Hook State Eff unit :=
  match r with
  | HttpResponse true (Some td) => set_state (setTask (Some td)) ;; set_state (setFormData (seed td))
  | HttpResponse true None => emit ConsoleError
  | HttpResponse false _ => mret ()
  | NetworkError _ => emit ConsoleError
  end ;;
  set_state (setLoading false).

(** [handleSubmit] up to its [await] (lines 61-72). *)
Definition handleSubmit (taskId : string) : Hook State Eff unit :=
  set_state (setSaving true) ;;
  s ← get_state;
  emit (PutTask (task_url taskId) s.(formData)).

(** The text [alert] shows for [error.detail || 'Failed to update task']:
    a list of objects is truthy and prints as [[object Object],...]. *)
Definition detail_text (d : option Detail) : string :=
  match d with
  | Some (DetailText msg) => js_or_str (Some msg) "Failed to update task"
  | Some (DetailObjects n) => String.concat "," (repeat "[object Object]" n)
  | None => "Failed to update task"
  end.

(** [handleSubmit] after the response (lines 74-84).  [None] as the
    body of a failed response is a body that is not JSON: the [catch]. *)
Definition handleSubmit_resume (r : Response (option Detail)) : Hook State Eff unit :=
  match r with
  | HttpResponse true _ => emit (Navigate "/tasks")
  | HttpResponse false (Some d) => emit (Alert (detail_text d))
  | HttpResponse false None => emit (Alert "Failed to update task")
  | NetworkError _ => emit (Alert "Failed to update task")
  end ;;
  set_state (setSaving false).

Inductive Field := FTitle | FDescription | FStatus | FPriority | FDueDate.

(** [{ ...prev, [field]: value }]: the draft with one field replaced. *)
Definition update_field (f : Field) (v : string) (d : FormData) : FormData :=
  match f with
  | FTitle => mkForm v d.(fd_description) d.(fd_status) d.(fd_priority) d.(fd_due_date)
  | FDescription => mkForm d.(fd_title) (Some v) d.(fd_status) d.(fd_priority) d.(fd_due_date)
  | FStatus => mkForm d.(fd_title) d.(fd_description) v d.(fd_priority) d.(fd_due_date)
  | FPriority => mkForm d.(fd_title) d.(fd_description) d.(fd_status) v d.(fd_due_date)
  | FDueDate => mkForm d.(fd_title) d.(fd_description) d.(fd_status) d.(fd_priority) v
  end.

(** [handleChange(field, value)] (lines 87-89). *)
Definition handleChange (f : Field) (v : string) : Hook State Eff unit :=
  set_state (setFormData (update_field f v)).

(** The form's submission: the browser's constraint validation of the
    [required] title comes first and blocks an empty title. *)
Definition submit (taskId : string) : Hook State Eff unit :=
  s ← get_state;
  if String.eqb s.(formData).(fd_title) "" then emit ReportValidity else handleSubmit taskId.

(** What is rendered (lines 91-126). *)
Inductive View := VLoading | VNotFound | VForm.

Definition view (s : State) : View :=
  if s.(loading) then VLoading else match s.(task) with None => VNotFound | Some _ => VForm end.

Inductive UserEvent :=
| Change (f : Field) (v : string)   (** an input's [onChange] / a select's [onValueChange] *)
| Submit                            (** the Update button or Enter in a field *)
| ClickCancel                       (** [router.back()], line 207 *)
| ClickBackToTasks.                 (** "Back to Tasks", line 121 *)

Definition handle (taskId : string) (ev : UserEvent) : Hook State Eff unit :=
  match ev with
  | Change f v => handleChange f v
  | Submit => submit taskId
  | ClickCancel => emit GoBack
  | ClickBackToTasks => emit (Navigate "/tasks")
  end.

(** The values of the status and priority [SelectItem]s (lines 169-171
    and 186-188): a [Select]'s [onValueChange] only ever passes one of
    them. *)
Definition status_items : list string := ["pending"; "in_progress"; "completed"].
Definition priority_items : list string := ["low"; "medium"; "high"].

(** The form's controls exist only in the form view; the submit button
    is [disabled={saving}], which also blocks implicit submission. *)
Definition enabled (s : State) (ev : UserEvent) : bool :=
  match view s, ev with
  | VForm, Change FStatus v => bool_decide (v ∈ status_items)
  | VForm, Change FPriority v => bool_decide (v ∈ priority_items)
  | VForm, Change _ _ => true
  | VForm, Submit => negb s.(saving)
  | VForm, ClickCancel => true
  | VNotFound, ClickBackToTasks => true
  | _, _ => false
  end.

(** ** The page in the browser *)

Inductive Req := GetReq | PutReq.

#[export] Instance Req_eq_dec : EqDecision Req.
Proof. solve_decision. Defined.

(** [log] is everything the page handed to the browser, in order;
    [left_page] records a navigation away (the page is unmounted and
    receives no more user events). *)
Record World := mkWorld {
  ui : State;
  inflight : list (nat * Req);
  next_id : nat;
  log : list Eff;
  left_page : bool;
}.

Definition req_of (e : Eff) : option Req :=
  match e with GetTask _ => Some GetReq | PutTask _ _ => Some PutReq | _ => None end.

Definition leaves (e : Eff) : bool :=
  match e with Navigate _ | GoBack => true | _ => false end.

Definition apply_effects (w : World) (res : State * list Eff) : World :=
  let '(s, es) := res in
  let '(fl, n) := issue (omap req_of es) w.(inflight) w.(next_id) in
  mkWorld s fl n (w.(log) ++ es) (w.(left_page) || existsb leaves es).

Definition mount (taskId : string) : World :=
  apply_effects (mkWorld initial [] 0 [] false) (run_hook (mount_effect taskId) initial).

Definition dispatch (taskId : string) (w : World) (ev : UserEvent) : World :=
  apply_effects w (run_hook (handle taskId ev) w.(ui)).

Inductive NetEvent :=
| GetArrives (r : Response Task)
| PutArrives (r : Response (option Detail)).

Definition resume (rq : Req) (ne : NetEvent) : option (Hook State Eff unit) :=
  match rq, ne with
  | GetReq, GetArrives r => Some (fetchTask_resume r)
  | PutReq, PutArrives r => Some (handleSubmit_resume r)
  | _, _ => None
  end.

Definition deliver (w : World) (i : nat) (ne : NetEvent) : option World :=
  p ← find_req i w.(inflight);
  k ← resume p.2 ne;
  Some (apply_effects (mkWorld w.(ui) (remove_req i w.(inflight)) w.(next_id) w.(log) w.(left_page))
                      (run_hook k w.(ui))).

Inductive step (taskId : string) : World -> World -> Prop :=
| step_user w ev :
    negb w.(left_page) && enabled w.(ui) ev = true -> step taskId w (dispatch taskId w ev)
| step_net w i ne w' : deliver w i ne = Some w' -> step taskId w w'.

Definition reachable (taskId : string) (w : World) : Prop := star (step taskId) (mount taskId) w.

Definition is_put (r : Req) : bool := match r with PutReq => true | GetReq => false end.
Definition is_get (r : Req) : bool := match r with GetReq => true | PutReq => false end.

Definition count_req (p : Req -> bool) (fl : list (nat * Req)) : nat :=
  length (List.filter p (map snd fl)).

(** Single flight: a [PUT] is in flight exactly while [saving], the
    one [GET] only while loading with no task yet. *)
Definition inv (w : World) : Prop :=
  fresh_pool w.(next_id) w.(inflight) /\
  count_req is_put w.(inflight) = (if w.(ui).(saving) then 1 else 0) /\
  count_req is_get w.(inflight) <= 1 /\
  (count_req is_get w.(inflight) = 1 -> w.(ui).(loading) = true /\ w.(ui).(task) = None).

(** The task schema of the spec (status and priority enumerations) for
    a draft: each of the two fields is an item of its [Select], or the
    value of the loaded task it was seeded from. *)
Definition body_ok (t : Task) (d : FormData) : Prop :=
  (d.(fd_status) ∈ status_items \/ d.(fd_status) = t.(status)) /\
  (d.(fd_priority) ∈ priority_items \/ d.(fd_priority) = t.(priority)).

Definition put_ok (t : Task) (e : Eff) : Prop :=
  match e with PutTask _ d => d.(fd_title) <> "" /\ body_ok t d | _ => True end.

Definition is_put_eff (e : Eff) : bool := match e with PutTask _ _ => true | _ => false end.

(** No [PUT] before a task is loaded; afterwards the draft and every
    [PUT] body fit the loaded task. *)
Definition typed (w : World) : Prop :=
  match w.(ui).(task) with
  | None => Forall (fun e => is_put_eff e = false) w.(log)
  | Some t => body_ok t w.(ui).(formData) /\ Forall (put_ok t) w.(log)
  end.

(** The page navigates only to the list: [router.push('/tasks')]
    (lines 75 and 121). *)
Definition nav_ok (e : Eff) : Prop :=
  match e with Navigate p => p = "/tasks" | _ => True end.

(** ** Scenarios *)

Definition task_edit : Task :=
  mkTask "t1" "Call Alice" None "pending" "high" (Some "2025-01-31T10:00").

(** The page for task [t1] once its [GET] succeeded, then after Submit. *)
Definition loaded_world : World :=
  default (mount "t1") (deliver (mount "t1") 0 (GetArrives (HttpResponse true (Some task_edit)))).
Definition saving_world : World := dispatch "t1" loaded_world Submit.

(** The [GET] answered 404. *)
Definition notfound_world : World :=
  default (mount "t1") (deliver (mount "t1") 0 (GetArrives (HttpResponse false None))).

(** The [PUT] rejected with a validation error whose [detail] is a list
    of one object, as FastAPI sends for status 422. *)
Definition rejected_world : World :=
  default (mount "t1")
    (deliver saving_world 1 (PutArrives (HttpResponse false (Some (Some (DetailObjects 1)))))).

Lemma run_fetchTask_resume r s :
  run_hook (fetchTask_resume r) s =
  (match r with
   | HttpResponse true (Some td) => setLoading false (setFormData (seed td) (setTask (Some td) s))
   | _ => setLoading false s
   end,
   match r with
   | HttpResponse true (Some _) | HttpResponse false _ => []
   | _ => [ConsoleError]
   end).
Proof. by destruct r as [|[] [|]]. Qed.

Lemma run_handleSubmit_resume r s :
  run_hook (handleSubmit_resume r) s =
  (setSaving false s,
   [match r with
    | HttpResponse true _ => Navigate "/tasks"
    | HttpResponse false (Some d) => Alert (detail_text d)
    | _ => Alert "Failed to update task"
    end]).
Proof. by destruct r as [|[] [|]]. Qed.

Lemma run_submit taskId s :
  run_hook (submit taskId) s =
  if String.eqb s.(formData).(fd_title) "" then (s, [ReportValidity])
  else (setSaving true s, [PutTask (task_url taskId) s.(formData)]).
Proof. unfold submit, handleSubmit; hook_unfold; cbn. by destruct (String.eqb _ _). Qed.

Lemma apply_effects_spec w s es :
  let w' := apply_effects w (s, es) in
  w'.(ui) = s /\ map snd w'.(inflight) = map snd w.(inflight) ++ omap req_of es /\
  w'.(log) = w.(log) ++ es /\ w'.(left_page) = w.(left_page) || existsb leaves es /\
  (fresh_pool w.(next_id) w.(inflight) -> fresh_pool w'.(next_id) w'.(inflight)).
Proof.
  unfold apply_effects. pose proof (map_snd_issue (omap req_of es) w.(inflight) w.(next_id)) as H1.
  pose proof (issue_fresh (omap req_of es) w.(inflight) w.(next_id)) as H2.
  destruct (issue _ _ _) as [fl n]; cbn in *. by split_and!.
Qed.

Lemma ui_apply_effects w res : (apply_effects w res).(ui) = res.1.
Proof. destruct res as [s es]. by destruct (apply_effects_spec w s es) as (-> & _). Qed.

Lemma count_req_app p fl rs :
  length (List.filter p (map snd fl ++ rs)) = count_req p fl + length (List.filter p rs).
Proof. unfold count_req. by rewrite List.filter_app, length_app. Qed.

Lemma count_req_remove p i r fl :
  NoDup (map fst fl) -> (i, r) ∈ fl ->
  count_req p fl = (if p r then 1 else 0) + count_req p (remove_req i fl).
Proof.
  intros Hnd Hin. unfold count_req. rewrite (filter_length_perm p _ _ (remove_req_perm i r fl Hnd Hin)).
  cbn. by destruct (p r).
Qed.

Lemma count_apply p w s es :
  count_req p (apply_effects w (s, es)).(inflight) =
  count_req p w.(inflight) + length (List.filter p (omap req_of es)).
Proof.
  destruct (apply_effects_spec w s es) as (_ & Hfl & _). unfold count_req at 1.
  by rewrite Hfl, count_req_app.
Qed.

Lemma inv_apply w s es :
  fresh_pool w.(next_id) w.(inflight) ->
  count_req is_put w.(inflight) + length (List.filter is_put (omap req_of es)) =
    (if s.(saving) then 1 else 0) ->
  count_req is_get w.(inflight) + length (List.filter is_get (omap req_of es)) <= 1 ->
  (count_req is_get w.(inflight) + length (List.filter is_get (omap req_of es)) = 1 ->
     s.(loading) = true /\ s.(task) = None) ->
  inv (apply_effects w (s, es)).
Proof.
  intros Hf Hp Hg Hgl. destruct (apply_effects_spec w s es) as (Hui & _ & _ & _ & Hf').
  unfold inv. rewrite !count_apply, Hui. split_and!; auto.
Qed.

Lemma mount_single_flight taskId : inv (mount taskId).
Proof.
  unfold mount. destruct (run_hook (mount_effect taskId) initial) as [s es] eqn:E.
  unfold mount_effect in E. hook_unfold.
  destruct (js_truthy taskId); cbn in E; simplify_eq;
    (apply inv_apply; [repeat split; constructor|cbn; lia|cbn; lia|cbn; done]).
Qed.

Lemma user_single_flight taskId w ev :
  inv w -> enabled w.(ui) ev = true -> inv (dispatch taskId w ev).
Proof.
  intros (Hf & Hp & Hg & Hgl) Hen. unfold dispatch.
  destruct ev as [f v| | |]; cbn [handle].
  - unfold handleChange; hook_unfold. apply inv_apply; cbn; rewrite ?Nat.add_0_r; done.
  - unfold enabled, view in Hen.
    destruct (loading (ui w)) eqn:Hl; [done|]. destruct (task (ui w)) eqn:Ht; [|done].
    destruct (saving (ui w)) eqn:Hs; [done|].
    assert (count_req is_get (inflight w) = 0) as Hg0.
    { destruct (count_req is_get (inflight w)) as [|[|]] eqn:E; [done| |lia].
      by destruct (Hgl eq_refl) as [? _]. }
    rewrite run_submit. destruct (String.eqb _ _); apply inv_apply; try done;
      cbn; rewrite ?Hs, ?Hp, ?Hg0; lia.
  - hook_unfold. apply inv_apply; cbn; rewrite ?Nat.add_0_r; done.
  - hook_unfold. apply inv_apply; cbn; rewrite ?Nat.add_0_r; done.
Qed.

Lemma net_single_flight w i ne w' : inv w -> deliver w i ne = Some w' -> inv w'.
Proof.
  intros (Hf & Hp & Hg & Hgl) Hdel. unfold deliver in Hdel.
  destruct (find_req i _) as [[j rq]|] eqn:Hfind; cbn in Hdel; [|done].
  destruct (resume rq ne) as [k|] eqn:Hk; cbn in Hdel; simplify_eq.
  apply find_req_some in Hfind as [Hin Hj]; cbn in Hj; subst j.
  pose proof (count_req_remove is_put i rq _ (proj2 Hf) Hin) as Hp'.
  pose proof (count_req_remove is_get i rq _ (proj2 Hf) Hin) as Hg'.
  destruct rq, ne as [r|r]; cbn in Hk; simplify_eq; cbn in Hp', Hg'.
  - rewrite run_fetchTask_resume.
    apply inv_apply; [by apply remove_req_fresh| | |];
      destruct r as [|[] [|]]; cbn -[count_req]; rewrite ?Nat.add_0_r; try lia; intros; lia.
  - rewrite run_handleSubmit_resume.
    destruct r as [|[] [|]]; (apply inv_apply; [by apply remove_req_fresh| | |]);
      cbn -[count_req]; rewrite ?Nat.add_0_r; try (destruct (saving (ui w)); lia);
      try lia; intros H; apply Hgl; lia.
Qed.

Lemma edit_inv_reachable taskId w : reachable taskId w -> inv w.
Proof.
  intros Hr. eapply star_invariant; [|apply mount_single_flight|exact Hr].
  intros x y Hx Hs. revert Hx. destruct Hs as [x' ev Hen|x' i ne y' Hdel]; intros Hx.
  - apply andb_prop in Hen as [_ Hen]. by apply user_single_flight.
  - by apply (net_single_flight x' i ne).
Qed.

(** C11: single flight.  In every reachable state of the edit page a
    [PUT] is in flight exactly while [saving] (so never two), at most one
    [GET] is in flight, and only while loading with no task; request ids
    are distinct. *)
Theorem reachable_single_flight taskId w : reachable taskId w -> inv w.
Proof. intros Hr. exact (edit_inv_reachable taskId w Hr). Qed.

Lemma deliver_edit_spec w i ne w' :
  deliver w i ne = Some w' ->
  exists rq k, (i, rq) ∈ w.(inflight) /\ resume rq ne = Some k /\
    w' = apply_effects (mkWorld w.(ui) (remove_req i w.(inflight)) w.(next_id) w.(log) w.(left_page))
                       (run_hook k w.(ui)).
Proof.
  unfold deliver. destruct (find_req i _) as [[j rq]|] eqn:Hf; cbn; [|done].
  destruct (resume rq ne) as [k|] eqn:Hk; cbn; [|done]. intros [= <-].
  apply find_req_some in Hf as [Hin Hj]; cbn in Hj; subst j. by exists rq, k.
Qed.

(** C12: with an empty title, submitting the form sends nothing: the
    browser reports the [required] field, the state is unchanged and no
    request is added. *)
Theorem empty_title_blocks_submit taskId w :
  w.(ui).(formData).(fd_title) = "" ->
  let w' := dispatch taskId w Submit in
  w'.(inflight) = w.(inflight) /\ w'.(ui) = w.(ui) /\ w'.(log) = w.(log) ++ [ReportValidity].
Proof.
  intros Ht. cbn zeta. unfold dispatch. cbn [handle]. rewrite run_submit, Ht. cbn. by split_and!.
Qed.

(** with a non-empty title, Submit sends exactly one [PUT] to
    [/api/tasks/{id}] whose body is the whole draft (all five fields, a
    full replace), sets [saving] and leaves the draft as it was. *)
Lemma submit_sends_full_draft taskId w :
  w.(ui).(formData).(fd_title) <> "" ->
  let w' := dispatch taskId w Submit in
  map snd w'.(inflight) = map snd w.(inflight) ++ [PutReq] /\
  w'.(log) = w.(log) ++ [PutTask (task_url taskId) w.(ui).(formData)] /\
  w'.(ui).(saving) = true /\ w'.(ui).(formData) = w.(ui).(formData).
Proof.
  intros Ht. cbn zeta. unfold dispatch. cbn [handle]. rewrite run_submit.
  destruct (String.eqb_spec (fd_title (formData (ui w))) ""); [done|].
  destruct (apply_effects_spec w (setSaving true (ui w)) [PutTask (task_url taskId) (formData (ui w))])
    as (-> & -> & -> & _). by split_and!.
Qed.

(** C14: whatever makes loading the task fail (a 404, any other HTTP
    error, a body that is not JSON, a network failure), the page ends in
    the "Task not found" view. *)
Theorem fetch_failure_not_found taskId w i r w' :
  reachable taskId w -> deliver w i (GetArrives r) = Some w' ->
  (forall td, r <> HttpResponse true (Some td)) ->
  view w'.(ui) = VNotFound.
Proof.
  intros Hr (rq & k & Hin & Hk & ->)%deliver_edit_spec Hok.
  destruct (edit_inv_reachable taskId w Hr) as ([_ Hnd] & _ & Hg & Hgl).
  destruct rq; cbn [resume] in Hk; simplify_eq.
  pose proof (count_req_remove is_get i GetReq _ Hnd Hin) as Hg'; cbn in Hg'.
  destruct (Hgl ltac:(lia)) as [_ Ht].
  rewrite ui_apply_effects, run_fetchTask_resume.
  destruct r as [msg|[] [td|]]; try (by specialize (Hok td)); unfold view; cbn; by rewrite Ht.
Qed.

(** A successful load shows the form with the draft seeded from
    the task: title, status and priority as received, the description
    as received (absent stays absent, not [""]), and [due_date || '']. *)
Theorem fetch_success_seeds_draft w i td w' :
  deliver w i (GetArrives (HttpResponse true (Some td))) = Some w' ->
  view w'.(ui) = VForm /\
  w'.(ui).(formData) =
    mkForm td.(title) td.(description) td.(status) td.(priority) (js_or_str td.(due_date) "").
Proof.
  intros (rq & k & _ & Hk & ->)%deliver_edit_spec. destruct rq; cbn [resume] in Hk; simplify_eq.
  by rewrite ui_apply_effects, run_fetchTask_resume.
Qed.

(** C16: when the [PUT] response arrives the draft is kept and [saving]
    is cleared; on success the page navigates to [/tasks], on an HTTP
    error it alerts [detail || 'Failed to update task'], and on a body
    that is not JSON or a network failure it alerts the generic text. *)
Theorem submit_response_outcome w i r w' :
  deliver w i (PutArrives r) = Some w' ->
  w'.(ui).(formData) = w.(ui).(formData) /\ w'.(ui).(saving) = false /\
  w'.(log) = w.(log) ++
    [match r with
     | HttpResponse true _ => Navigate "/tasks"
     | HttpResponse false (Some d) => Alert (detail_text d)
     | _ => Alert "Failed to update task"
     end].
Proof.
  intros (rq & k & _ & Hk & ->)%deliver_edit_spec. destruct rq; cbn [resume] in Hk; simplify_eq.
  rewrite run_handleSubmit_resume.
  match goal with |- context [apply_effects ?w0 (?s0, ?es0)] =>
    by destruct (apply_effects_spec w0 s0 es0) as (-> & _ & -> & _) end.
Qed.

Lemma reachable_loaded_world : reachable "t1" loaded_world.
Proof.
  eapply star_step; [apply (step_net _ _ 0 (GetArrives (HttpResponse true (Some task_edit))));
    vm_compute; reflexivity|apply star_refl].
Qed.

Lemma reachable_saving_world : reachable "t1" saving_world.
Proof.
  eapply star_right; [apply reachable_loaded_world|]. apply step_user. vm_compute. reflexivity.
Qed.

(** the alert does not show the collaborator's message when its
    [detail] is not a string: for a validation error whose [detail] is a
    list of objects the user reads [[object Object]]. *)
Lemma validation_error_alert :
  reachable "t1" saving_world /\
  deliver saving_world 1 (PutArrives (HttpResponse false (Some (Some (DetailObjects 1))))) =
    Some rejected_world /\
  last rejected_world.(log) = Some (Alert "[object Object]").
Proof. split; [apply reachable_saving_world|split; vm_compute; reflexivity]. Qed.

(** The page of a non-empty id after its mount effect: the [GET] of
    that task in flight. *)
Lemma mount_truthy id :
  js_truthy id = true ->
  mount id = mkWorld initial [(0, GetReq)] 1 [GetTask (task_url id)] false.
Proof. intros Ht. unfold mount, mount_effect. by rewrite Ht. Qed.

(** A run of field edits, in order, on the page. *)
Lemma dispatch_changes taskId w edits :
  let w1 := fold_left (fun w fv => dispatch taskId w (Change fv.1 fv.2)) edits w in
  w1.(ui) = setFormData (fun d => fold_left (fun d fv => update_field fv.1 fv.2 d) edits d) w.(ui) /\
  w1.(inflight) = w.(inflight) /\ w1.(next_id) = w.(next_id) /\ w1.(log) = w.(log) /\
  w1.(left_page) = w.(left_page).
Proof.
  cbn zeta. revert w. induction edits as [|[f v] edits IH]; intros w; cbn [fold_left fst snd].
  - destruct w as [[] ? ? ? ?]; done.
  - destruct (IH (dispatch taskId w (Change f v))) as (-> & -> & -> & -> & ->).
    unfold dispatch, apply_effects, handle, handleChange. hook_unfold. cbn.
    by rewrite app_nil_r, orb_false_r.
Qed.

(** The draft is distinct from the loaded record.  Field edits on
    the form change only the draft, by replacing each edited field in
    order; they leave the loaded task, the requests and the browser
    alone; a Submit afterwards with a non-empty title sends the edited
    draft as the [PUT] body. *)
Theorem edits_then_submit taskId w edits :
  view w.(ui) = VForm ->
  let w1 := fold_left (fun w fv => dispatch taskId w (Change fv.1 fv.2)) edits w in
  let draft := fold_left (fun d fv => update_field fv.1 fv.2 d) edits w.(ui).(formData) in
  w1.(ui).(task) = w.(ui).(task) /\ w1.(ui).(formData) = draft /\ view w1.(ui) = VForm /\
  w1.(inflight) = w.(inflight) /\ w1.(log) = w.(log) /\
  (draft.(fd_title) <> "" -> (dispatch taskId w1 Submit).(log) = w.(log) ++ [PutTask (task_url taskId) draft]).
Proof.
  intros Hv. cbn zeta. destruct (dispatch_changes taskId w edits) as (Hui & Hfl & _ & Hlog & _).
  cbn zeta in Hui, Hfl, Hlog. set (w1 := fold_left _ edits w) in *.
  rewrite Hui, Hfl, Hlog. split_and!; try done.
  intros Ht. unfold dispatch. cbn [handle]. rewrite run_submit, Hui. cbn [setFormData formData].
  rewrite (proj2 (String.eqb_neq _ _) Ht). cbn. by rewrite Hlog.
Qed.

Lemma typed_apply w s es :
  match s.(task) with
  | None => Forall (fun e => is_put_eff e = false) (w.(log) ++ es)
  | Some t => body_ok t s.(formData) /\ Forall (put_ok t) (w.(log) ++ es)
  end -> typed (apply_effects w (s, es)).
Proof. unfold typed. by destruct (apply_effects_spec w s es) as (-> & _ & -> & _). Qed.

Lemma Forall_snoc {X} (P : X -> Prop) l x : Forall P l -> P x -> Forall P (l ++ [x]).
Proof. intros. apply Forall_app. by split; [|constructor]. Qed.

Lemma typed_user taskId w ev : typed w -> enabled w.(ui) ev = true -> typed (dispatch taskId w ev).
Proof.
  unfold typed, enabled, view. intros Hty Hen. unfold dispatch.
  destruct (loading (ui w)); [done|]. destruct (task (ui w)) as [t|] eqn:Ht; [|].
  - destruct Hty as [[Hs Hp] Hlog].
    destruct ev as [f v| | |]; cbn [handle].
    + apply typed_apply. unfold handleChange. hook_unfold. cbn. rewrite Ht, app_nil_r.
      split; [|done].
      destruct f; cbn; try (by split); apply bool_decide_eq_true in Hen; unfold body_ok; cbn; auto.
    + rewrite run_submit. destruct (String.eqb_spec (fd_title (formData (ui w))) "") as [He|He];
        apply typed_apply; cbn; rewrite Ht; (split; [by split|]); apply Forall_snoc; try done.
    + apply typed_apply. hook_unfold. cbn. rewrite Ht. split; [by split|]. by apply Forall_snoc.
    + done.
  - destruct ev as [f v| | |]; try done. apply typed_apply. hook_unfold. cbn. rewrite Ht.
    by apply Forall_snoc.
Qed.

Lemma typed_net w i ne w' : inv w -> typed w -> deliver w i ne = Some w' -> typed w'.
Proof.
  intros (Hf & _ & Hg & Hgl) Hty (rq & k & Hin & Hk & ->)%deliver_edit_spec.
  destruct rq, ne as [r|r]; cbn in Hk; simplify_eq.
  - rewrite run_fetchTask_resume. apply typed_apply. unfold typed in Hty.
    assert (task (ui w) = None) as Ht.
    { apply Hgl. rewrite (count_req_remove is_get i GetReq _ (proj2 Hf) Hin) in Hg |- *. cbn in *. lia. }
    rewrite Ht in Hty.
    destruct r as [|[] [td|]]; cbn; rewrite ?Ht, ?app_nil_r; try done;
      first [by apply Forall_snoc
            |split; [unfold body_ok; cbn; by split; right|];
             eapply Forall_impl; [exact Hty|]; intros [] ?; done].
  - rewrite run_handleSubmit_resume. apply typed_apply. unfold typed in Hty. cbn.
    destruct (task (ui w)) as [t|]; [destruct Hty as [? ?]; split; [done|]|];
      apply Forall_snoc; try done; by destruct r as [|[] [|]].
Qed.

Lemma typed_mount taskId : typed (mount taskId).
Proof. unfold mount, mount_effect, typed. destruct (js_truthy taskId); cbn; by repeat constructor. Qed.

Lemma typed_reachable taskId w : reachable taskId w -> inv w /\ typed w.
Proof.
  intros Hr. apply (star_invariant (step taskId) (fun w => inv w /\ typed w) (mount taskId));
    [|split; [apply mount_single_flight|apply typed_mount]|exact Hr].
  intros x y [Hi Ht] Hs. revert Hi Ht. destruct Hs as [x' ev Hen|x' i ne y' Hdel]; intros Hi Ht.
  - apply andb_prop in Hen as [_ Hen].
    split; [by apply user_single_flight|by apply typed_user].
  - split; [by apply (net_single_flight x' i ne)|by apply (typed_net x' i ne)].
Qed.

(** C13: every [PUT] the page sends fits the task schema: its title is
    not empty, and when the loaded task's status and priority are in
    the enumerations, so are the body's. *)
Theorem put_bodies_well_typed taskId w t :
  reachable taskId w -> w.(ui).(task) = Some t ->
  t.(status) ∈ status_items -> t.(priority) ∈ priority_items ->
  Forall (fun e => match e with
                   | PutTask _ d => d.(fd_title) <> "" /\ d.(fd_status) ∈ status_items /\
                                    d.(fd_priority) ∈ priority_items
                   | _ => True end) w.(log).
Proof.
  intros Hr Ht Hs Hp. destruct (typed_reachable taskId w Hr) as [_ Hty].
  unfold typed in Hty. rewrite Ht in Hty. destruct Hty as [_ Hlog].
  eapply Forall_impl; [exact Hlog|]. intros [] ?; try done. unfold put_ok, body_ok in *.
  destruct H as (? & [?| ->] & [?| ->]); by split_and!.
Qed.

Lemma nav_ok_handle taskId ev s : Forall nav_ok (run_hook (handle taskId ev) s).2.
Proof.
  destruct ev; cbn [handle]; [| rewrite run_submit; destruct (String.eqb _ _)|..];
    unfold handleChange; hook_unfold; cbn; repeat constructor.
Qed.

Lemma nav_ok_resume rq ne k s : resume rq ne = Some k -> Forall nav_ok (run_hook k s).2.
Proof.
  destruct rq, ne as [r|r]; cbn; intros; simplify_eq;
    [rewrite run_fetchTask_resume|rewrite run_handleSubmit_resume]; cbn;
    repeat case_match; repeat constructor.
Qed.

Lemma nav_ok_reachable taskId w : reachable taskId w -> Forall nav_ok w.(log).
Proof.
  intros Hr. apply (star_invariant (step taskId) (fun w => Forall nav_ok w.(log)) (mount taskId));
    [|unfold mount, mount_effect; destruct (js_truthy taskId); cbn; repeat constructor|exact Hr].
  intros x y Hx Hs. revert Hx.
  destruct Hs as [x' ev _|x' i ne y' (rq & k & _ & Hk & ->)%deliver_edit_spec]; intros Hx.
  - unfold dispatch. destruct (run_hook _ _) as [s' es] eqn:E.
    destruct (apply_effects_spec x' s' es) as (_ & _ & -> & _). apply Forall_app; split; [done|].
    pose proof (nav_ok_handle taskId ev x'.(ui)) as H. by rewrite E in H.
  - destruct (run_hook k _) as [s' es] eqn:E.
    destruct (apply_effects_spec (mkWorld x'.(ui) (remove_req i x'.(inflight)) x'.(next_id) x'.(log) x'.(left_page)) s' es)
      as (_ & _ & -> & _).
    apply Forall_app; split; [done|]. pose proof (nav_ok_resume rq ne k x'.(ui) Hk) as H. by rewrite E in H.
Qed.

(** ** Witnesses *)

Lemma reachable_single_flight_witness : reachable "t1" saving_world /\ inv saving_world.
Proof.
  split; [apply reachable_saving_world|].
  apply (reachable_single_flight "t1" saving_world reachable_saving_world).
Defined.

Lemma empty_title_blocks_submit_witness :
  (mount "t1").(ui).(formData).(fd_title) = "" /\
  (dispatch "t1" (mount "t1") Submit).(inflight) = (mount "t1").(inflight) /\
  (dispatch "t1" (mount "t1") Submit).(ui) = (mount "t1").(ui) /\
  (dispatch "t1" (mount "t1") Submit).(log) = (mount "t1").(log) ++ [ReportValidity].
Proof.
  split; [reflexivity|]. apply (empty_title_blocks_submit "t1" (mount "t1")). reflexivity.
Defined.

Lemma fetch_failure_not_found_witness :
  deliver (mount "t1") 0 (GetArrives (HttpResponse false None)) = Some notfound_world /\
  view notfound_world.(ui) = VNotFound.
Proof.
  assert (deliver (mount "t1") 0 (GetArrives (HttpResponse false None)) = Some notfound_world)
    as H by (vm_compute; reflexivity).
  split; [exact H|]. apply (fetch_failure_not_found "t1" (mount "t1") 0 _ _ (star_refl _ _) H).
  intros td. discriminate.
Defined.

Lemma fetch_success_seeds_draft_witness :
  deliver (mount "t1") 0 (GetArrives (HttpResponse true (Some task_edit))) = Some loaded_world /\
  view loaded_world.(ui) = VForm /\
  loaded_world.(ui).(formData) =
    mkForm task_edit.(title) task_edit.(description) task_edit.(status) task_edit.(priority)
      (js_or_str task_edit.(due_date) "").
Proof.
  assert (deliver (mount "t1") 0 (GetArrives (HttpResponse true (Some task_edit))) = Some loaded_world)
    as H by (vm_compute; reflexivity).
  split; [exact H|]. apply (fetch_success_seeds_draft (mount "t1") 0 task_edit _ H).
Defined.

Lemma submit_response_outcome_witness :
  deliver saving_world 1 (PutArrives (HttpResponse false (Some (Some (DetailObjects 1))))) =
    Some rejected_world /\
  rejected_world.(ui).(formData) = saving_world.(ui).(formData) /\
  rejected_world.(ui).(saving) = false /\
  rejected_world.(log) = saving_world.(log) ++ [Alert (detail_text (Some (DetailObjects 1)))].
Proof.
  assert (deliver saving_world 1 (PutArrives (HttpResponse false (Some (Some (DetailObjects 1))))) =
    Some rejected_world) as H by (vm_compute; reflexivity).
  split; [exact H|]. apply (submit_response_outcome saving_world 1 _ _ H).
Defined.

Lemma edits_then_submit_witness :
  view loaded_world.(ui) = VForm /\
  (fold_left (fun w fv => dispatch "t1" w (Change fv.1 fv.2)) [(FTitle, "Ship it"); (FStatus, "completed")]
     loaded_world).(ui).(formData).(fd_title) = "Ship it" /\
  (dispatch "t1" (fold_left (fun w fv => dispatch "t1" w (Change fv.1 fv.2))
                    [(FTitle, "Ship it"); (FStatus, "completed")] loaded_world) Submit).(log) =
    loaded_world.(log) ++
    [PutTask (task_url "t1") (fold_left (fun d fv => update_field fv.1 fv.2 d)
                                [(FTitle, "Ship it"); (FStatus, "completed")] loaded_world.(ui).(formData))].
Proof.
  assert (view loaded_world.(ui) = VForm) as Hv by (vm_compute; reflexivity).
  destruct (edits_then_submit "t1" loaded_world [(FTitle, "Ship it"); (FStatus, "completed")] Hv)
    as (_ & Hd & _ & _ & _ & Hs).
  split_and!; [exact Hv|rewrite Hd; reflexivity|apply Hs; vm_compute; discriminate].
Defined.

Lemma put_bodies_well_typed_witness :
  reachable "t1" saving_world /\ saving_world.(ui).(task) = Some task_edit /\
  Forall (fun e => match e with
                   | PutTask _ d => d.(fd_title) <> "" /\ d.(fd_status) ∈ status_items /\
                                    d.(fd_priority) ∈ priority_items
                   | _ => True end) saving_world.(log).
Proof.
  assert (saving_world.(ui).(task) = Some task_edit) as Ht by (vm_compute; reflexivity).
  split_and!; [apply reachable_saving_world|exact Ht|].
  apply (put_bodies_well_typed "t1" saving_world task_edit reachable_saving_world Ht);
    unfold status_items, priority_items, task_edit; cbn; by repeat constructor.
Defined.

End EditTaskPage.
