(* ===== verification/Dashboard.v ===== *)
(** * The dashboard ([app/page.js], [Dashboard])

    [State] has one field per [useState] (lines 12-20).  On mount
    ([useEffect] with no dependencies, lines 22-24) and on Retry the page
    runs [fetchDashboardData] (lines 26-45): it fetches the aggregate
    counts, and only once they have arrived the five most recent tasks;
    the state is updated only when both succeeded, and any failure
    becomes the message of the thrown [Error].  [calculateProgress]
    (lines 63-66) turns a count into the percentage drawn by a
    [Progress] bar.

    [fetchDashboardData] has two [await fetch] points: it is split into
    [fetchDashboardData] (up to the first), [stats_resume] (between
    them) and [recent_resume] (after the second).  The message of the
    [SyntaxError] that [response.json()] throws on a body that is not
    JSON is chosen by the browser: it is the parameter [json_error].

    The counts are the integer literals of the JSON body ([Z]); the
    page computes with them as JavaScript numbers, doubles
    ([JsNumber.of_Z]), so that [calculateProgress] divides and multiplies
    with IEEE rounding, and [value / 0] would be NaN or an infinity:
    [progress_percentage] shows what the guard [total === 0] and the
    rounding leave of the percentage.

    [content] is what the page renders once loaded: the four stats
    cards, the recent tasks ("No tasks yet" when there are none) and the
    status distribution.  [net_answers] is the network as an omni-step:
    it answers one pending request, whatever the answer; the liveness
    theorem [dashboard_settles] is stated with [eventually] over it. *)

From S2P Require Import Prelude.
From S2P Require Import JsNumber.
From S2P Require Import Task.

Module Dashboard.

Record Stats := mkStats {
  total_tasks : Z;
  pending_tasks : Z;
  in_progress_tasks : Z;
  completed_tasks : Z;
}.

Record State := mkState {
  stats : Stats;
  recentTasks : list Task;
  loading : bool;
  error : string;
}.

Definition initial : State := mkState (mkStats 0 0 0 0) [] true "".

Definition setStats (v : Stats) (s : State) : State := mkState v s.(recentTasks) s.(loading) s.(error).
Definition setRecentTasks (v : list Task) (s : State) : State :=
  mkState s.(stats) v s.(loading) s.(error).
Definition setLoading (v : bool) (s : State) : State := mkState s.(stats) s.(recentTasks) v s.(error).
Definition setError (v : string) (s : State) : State := mkState s.(stats) s.(recentTasks) s.(loading) v.

(** The two requests, the second with the counts its continuation
    holds in [statsData]. *)
Inductive Req :=
| StatsReq
| RecentReq (statsData : Stats).

Definition STATS_URL : string := "http://localhost:8000/api/dashboard/stats".
Definition RECENT_URL : string := "http://localhost:8000/api/tasks?limit=5".

Section WithJsonError.
Variable json_error : string.

(** Lines 26-30: up to the first [await]. *)
Definition fetchDashboardData : Hook State Req unit :=
  set_state (setLoading true) ;; set_state (setError "") ;; emit StatsReq.

(** The [catch] and [finally] of lines 40-44. *)
Definition fail (msg : string) : Hook State Req unit :=
  set_state (setError msg) ;; set_state (setLoading false).

(** Lines 31-34: the counts arrived; on success the recent tasks are
    requested. *)
Definition stats_resume (r : Response Stats) : Hook State Req unit :=
  match r with
  | NetworkError msg => fail msg
  | HttpResponse false _ => fail "Failed to fetch stats"
  | HttpResponse true None => fail json_error
  | HttpResponse true (Some statsData) => emit (RecentReq statsData)
  end.

(** Lines 35-39 and the [finally]: the recent tasks arrived. *)
Definition recent_resume (statsData : Stats) (r : Response (option (list Task))) :
    Hook State Req unit :=
  match r with
  | NetworkError msg => fail msg
  | HttpResponse false _ => fail "Failed to fetch recent tasks"
  | HttpResponse true None => fail json_error
  | HttpResponse true (Some tasksData) =>
      set_state (setStats statsData) ;; set_state (setRecentTasks (default [] tasksData)) ;;
      set_state (setLoading false)
  end.

End WithJsonError.

(** [calculateProgress] (lines 63-66), on JavaScript numbers. *)
Definition calculateProgress (value total : JsNumber.number) : JsNumber.number :=
  if JsNumber.strict_eq total (JsNumber.of_Z 0) then JsNumber.of_Z 0
  else JsNumber.mul (JsNumber.div value total) (JsNumber.of_Z 100).

(** The percentages the page draws (lines 123, 132, 141). *)
Definition pending_progress (st : Stats) : JsNumber.number :=
  calculateProgress (JsNumber.of_Z st.(pending_tasks)) (JsNumber.of_Z st.(total_tasks)).
Definition in_progress_progress (st : Stats) : JsNumber.number :=
  calculateProgress (JsNumber.of_Z st.(in_progress_tasks)) (JsNumber.of_Z st.(total_tasks)).
Definition completed_progress (st : Stats) : JsNumber.number :=
  calculateProgress (JsNumber.of_Z st.(completed_tasks)) (JsNumber.of_Z st.(total_tasks)).

(** What is rendered (lines 68-91): [if (loading)], [if (error)]. *)
Inductive View := VLoading | VError (msg : string) | VContent.

Definition view (s : State) : View :=
  if s.(loading) then VLoading else if js_truthy s.(error) then VError s.(error) else VContent.

(** ** The content (lines 91-218) *)

(** A stats card (lines 107-144): its title, the count, and the bar
    under the three status counts. *)
Record StatCard := mkStatCard { sc_title : string; sc_count : Z; sc_bar : option JsNumber.number }.

(** A recent task (lines 156-173). *)
Record TaskCard := mkTaskCard {
  tc_title : string;
  tc_description : string;
  tc_status_color : string;
  tc_status : string;
  tc_priority_color : string;
  tc_priority : string;
}.

Inductive RecentView :=
| NoTasksYet                    (** [recentTasks.length === 0] *)
| TaskCards (cards : list TaskCard).

Record Content := mkContent {
  stat_cards : list StatCard;
  recent : RecentView;
  distribution : list (string * Z * JsNumber.number);   (** "Status Distribution", lines 192-209 *)
}.

Definition task_card (t : Task) : TaskCard :=
  mkTaskCard t.(title) (Display.descriptionText t) (Display.getStatusColor t.(status))
    (Display.statusLabel t) (Display.getPriorityColor t.(priority)) t.(priority).

Definition recent_view (ts : list Task) : RecentView :=
  match ts with [] => NoTasksYet | _ => TaskCards (map task_card ts) end.

Definition content (s : State) : Content :=
  let st := s.(stats) in
  mkContent
    [mkStatCard "Total Tasks" st.(total_tasks) None;
     mkStatCard "Pending" st.(pending_tasks) (Some (pending_progress st));
     mkStatCard "In Progress" st.(in_progress_tasks) (Some (in_progress_progress st));
     mkStatCard "Completed" st.(completed_tasks) (Some (completed_progress st))]
    (recent_view s.(recentTasks))
    [("Completed", st.(completed_tasks), completed_progress st);
     ("In Progress", st.(in_progress_tasks), in_progress_progress st);
     ("Pending", st.(pending_tasks), pending_progress st)].

(** ** The page in the browser *)

Record World := mkWorld {
  ui : State;
  inflight : list (nat * Req);
  next_id : nat;
}.

Definition apply_hook (w : World) (res : State * list Req) : World :=
  let '(s, rs) := res in
  let '(fl, n) := issue rs w.(inflight) w.(next_id) in
  mkWorld s fl n.

(** The mount effect runs [fetchDashboardData] once. *)
Definition mount : World := apply_hook (mkWorld initial [] 0) (run_hook fetchDashboardData initial).

(** The Retry button exists only in the error view. *)
Definition retry (w : World) : option World :=
  match view w.(ui) with
  | VError _ => Some (apply_hook w (run_hook fetchDashboardData w.(ui)))
  | _ => None
  end.

Inductive NetEvent :=
| StatsArrives (r : Response Stats)
| RecentArrives (r : Response (option (list Task))).

Definition resume (json_error : string) (rq : Req) (ne : NetEvent) : option (Hook State Req unit) :=
  match rq, ne with
  | StatsReq, StatsArrives r => Some (stats_resume json_error r)
  | RecentReq sd, RecentArrives r => Some (recent_resume json_error sd r)
  | _, _ => None
  end.

Definition deliver (json_error : string) (w : World) (i : nat) (ne : NetEvent) : option World :=
  p ← find_req i w.(inflight);
  k ← resume json_error p.2 ne;
  Some (apply_hook (mkWorld w.(ui) (remove_req i w.(inflight)) w.(next_id)) (run_hook k w.(ui))).

Inductive step (json_error : string) : World -> World -> Prop :=
| step_retry w w' : retry w = Some w' -> step json_error w w'
| step_net w i ne w' : deliver json_error w i ne = Some w' -> step json_error w w'.

Definition reachable (json_error : string) (w : World) : Prop := star (step json_error) mount w.

(** The network answers a pending request, whatever the answer: [mid]
    holds of every state an answer leads to, and some answer is
    possible. *)
Definition net_answers (json_error : string) (w : World) (mid : World -> Prop) : Prop :=
  exists i rq, (i, rq) ∈ w.(inflight) /\ (exists ne, is_Some (deliver json_error w i ne)) /\
    forall ne w', deliver json_error w i ne = Some w' -> mid w'.

(** Nothing pending and the page no longer loading. *)
Definition quiet (w : World) : Prop := w.(ui).(loading) = false /\ w.(inflight) = [].

(** The page's invariant: at most one request in flight, tagged
    freshly; [loading] exactly while one is; no message while loading. *)
Definition dash_inv (w : World) : Prop :=
  fresh_pool w.(next_id) w.(inflight) /\ length w.(inflight) <= 1 /\
  (w.(ui).(loading) = true <-> w.(inflight) <> []) /\
  (w.(ui).(loading) = true -> w.(ui).(error) = "").

(** Concrete runs: the counts of the spec's scenario and one recent
    task arrive; or the counts request fails and the user retries. *)
Definition stats_example : Stats := mkStats 10 3 2 5.
Definition recent_example : Task := mkTask "t9" "Ship release" None "completed" "high" None.

Definition stats_world : World :=
  default mount (deliver "" mount 0 (StatsArrives (HttpResponse true (Some stats_example)))).
Definition loaded_world : World :=
  default stats_world
    (deliver "" stats_world 1 (RecentArrives (HttpResponse true (Some (Some [recent_example]))))).
Definition stats_failed_world : World :=
  default mount (deliver "" mount 0 (StatsArrives (HttpResponse false None))).
Definition retried_world : World := default stats_failed_world (retry stats_failed_world).


(** A bar is [+0] for an empty status, and otherwise positive and at
    most 100. *)
Definition bar_ok (n : Z) (bar : JsNumber.number) : Prop :=
  (n = 0%Z -> bar = JsNumber.zero) /\
  (0 < n -> JsNumber.lt JsNumber.zero bar = true /\ JsNumber.le bar (JsNumber.of_Z 100) = true)%Z.

Lemma run_fetchDashboardData s :
  run_hook fetchDashboardData s = (setError "" (setLoading true s), [StatsReq]).
Proof. reflexivity. Qed.

Lemma run_stats_resume je r s :
  run_hook (stats_resume je r) s =
  match r with
  | HttpResponse true (Some sd) => (s, [RecentReq sd])
  | NetworkError msg => (setLoading false (setError msg s), [])
  | HttpResponse false _ => (setLoading false (setError "Failed to fetch stats" s), [])
  | HttpResponse true None => (setLoading false (setError je s), [])
  end.
Proof. by destruct r as [|[] [|]]. Qed.

Lemma run_recent_resume je sd r s :
  run_hook (recent_resume je sd r) s =
  (match r with
   | HttpResponse true (Some data) => setLoading false (setRecentTasks (default [] data) (setStats sd s))
   | NetworkError msg => setLoading false (setError msg s)
   | HttpResponse false _ => setLoading false (setError "Failed to fetch recent tasks" s)
   | HttpResponse true None => setLoading false (setError je s)
   end, []).
Proof. by destruct r as [|[] [|]]. Qed.

Lemma apply_hook_spec w s rs :
  let w' := apply_hook w (s, rs) in
  w'.(ui) = s /\ map snd w'.(inflight) = map snd w.(inflight) ++ rs /\
  (fresh_pool w.(next_id) w.(inflight) -> fresh_pool w'.(next_id) w'.(inflight)).
Proof.
  unfold apply_hook. pose proof (map_snd_issue rs w.(inflight) w.(next_id)) as H1.
  pose proof (issue_fresh rs w.(inflight) w.(next_id)) as H2.
  destruct (issue _ _ _) as [fl n]; cbn in *. by split_and!.
Qed.

Lemma ui_apply_hook w res : (apply_hook w res).(ui) = res.1.
Proof. destruct res as [s rs]. by destruct (apply_hook_spec w s rs) as (-> & _). Qed.

(** One request at a time: [loading] exactly while it is in flight, and
    no error message while loading. *)
Lemma dash_inv_apply w s rs :
  fresh_pool w.(next_id) w.(inflight) ->
  length w.(inflight) + length rs <= 1 ->
  (s.(loading) = true <-> w.(inflight) ++ map (fun r => (0, r)) rs <> []) ->
  (s.(loading) = true -> s.(error) = "") ->
  dash_inv (apply_hook w (s, rs)).
Proof.
  intros Hf Hlen Hl He. destruct (apply_hook_spec w s rs) as (Hui & Hfl & Hf').
  assert (length (apply_hook w (s, rs)).(inflight) = length w.(inflight) + length rs) as Hlen'.
  { rewrite <- length_map with (f := snd), Hfl, length_app, !length_map. done. }
  unfold dash_inv. rewrite Hui. split_and!; [by apply Hf'|lia| |done].
  rewrite Hl. split; intros H1 H2; apply H1; apply (f_equal length) in H2; rewrite ?length_app, ?length_map in *;
    cbn in *; destruct (inflight w), rs; cbn in *; try done; lia.
Qed.

Lemma single_request (fl : list (nat * Req)) p : length fl <= 1 -> p ∈ fl -> fl = [p].
Proof.
  destruct fl as [|q [|]]; cbn; intros Hl Hin; [by apply not_elem_of_nil in Hin| |lia].
  by apply list_elem_of_singleton in Hin as ->.
Qed.

Lemma mount_dash_inv : dash_inv mount.
Proof. apply dash_inv_apply; cbn; [repeat split; constructor|lia|done|done]. Qed.

Lemma retry_dash_inv w w' : dash_inv w -> retry w = Some w' -> dash_inv w'.
Proof.
  intros (Hf & Hlen & Hl & He) Hr. unfold retry, view in Hr.
  destruct (loading (ui w)) eqn:Hload; [done|].
  destruct (js_truthy (error (ui w))); [|done]. apply (inj Some) in Hr. subst w'.
  assert (inflight w = []) as Hnil.
  { destruct (inflight w); [done|]. exfalso. assert (false = true) by (apply Hl; done). done. }
  rewrite run_fetchDashboardData. apply dash_inv_apply; [done| | |done]; rewrite Hnil; cbn; [lia|].
  split; [intros _; discriminate|done].
Qed.

Lemma deliver_dash_inv je w i ne w' : dash_inv w -> deliver je w i ne = Some w' -> dash_inv w'.
Proof.
  intros (Hf & Hlen & Hl & He) Hdel. unfold deliver in Hdel.
  destruct (find_req i _) as [[j rq]|] eqn:Hfind; cbn in Hdel; [|done].
  destruct (resume je rq ne) as [k|] eqn:Hk; cbn in Hdel; simplify_eq.
  apply find_req_some in Hfind as [Hin Hj]; cbn in Hj; subst j.
  pose proof (single_request _ _ Hlen Hin) as Hone.
  assert (remove_req i (inflight w) = []) as Hrm by (rewrite Hone; unfold remove_req; cbn; by rewrite Nat.eqb_refl).
  assert (loading (ui w) = true) as Hload by (apply Hl; by rewrite Hone).
  rewrite Hrm. destruct rq, ne as [r|r]; cbn [resume] in Hk; simplify_eq.
  all: [> rewrite run_stats_resume; destruct r as [msg|[] [sd|]]
       | rewrite run_recent_resume; destruct r as [msg|[] [data|]]].
  all: apply dash_inv_apply; cbn; rewrite ?Hload;
    first [ split; constructor | lia | by split; intros H; [|destruct H]
          | by split; intros _ | intros _; by apply He | discriminate ].
Qed.

Lemma dash_inv_reachable je w : reachable je w -> dash_inv w.
Proof.
  intros Hr. eapply star_invariant; [|apply mount_dash_inv|exact Hr].
  intros x y Hx Hs. revert Hx. destruct Hs as [x' y' Hr'|x' i ne y' Hdel]; intros Hx.
  - by apply (retry_dash_inv x').
  - by apply (deliver_dash_inv je x' i ne).
Qed.

(** C19: in every reachable state of the page at most one request is
    in flight, [loading] holds exactly while one is, and no error
    message is shown while loading. *)
Theorem reachable_dash_inv je w : reachable je w -> dash_inv w.
Proof. intros Hr. exact (dash_inv_reachable je w Hr). Qed.

Lemma deliver_dash_spec je w i ne w' :
  deliver je w i ne = Some w' ->
  exists rq k, (i, rq) ∈ w.(inflight) /\ resume je rq ne = Some k /\
    w' = apply_hook (mkWorld w.(ui) (remove_req i w.(inflight)) w.(next_id)) (run_hook k w.(ui)).
Proof.
  unfold deliver. destruct (find_req i _) as [[j rq]|] eqn:Hf; cbn; [|done].
  destruct (resume je rq ne) as [k|] eqn:Hk; cbn; [|done]. intros [= <-].
  apply find_req_some in Hf as [Hin Hj]; cbn in Hj; subst j. by exists rq, k.
Qed.

(** C20: when the counts arrive, the recent tasks are requested only if
    the response was ok and parsed, and the state is untouched; any
    failure ends loading with its message, requests nothing more, and
    keeps the previous counts and tasks. *)
Theorem stats_response_outcome je w i r w' :
  deliver je w i (StatsArrives r) = Some w' ->
  let rest := map snd (remove_req i w.(inflight)) in
  match r with
  | HttpResponse true (Some sd) => map snd w'.(inflight) = rest ++ [RecentReq sd] /\ w'.(ui) = w.(ui)
  | _ =>
      map snd w'.(inflight) = rest /\ w'.(ui).(loading) = false /\
      w'.(ui).(error) = match r with
                        | NetworkError msg => msg
                        | HttpResponse false _ => "Failed to fetch stats"
                        | HttpResponse true _ => je
                        end /\
      w'.(ui).(stats) = w.(ui).(stats) /\ w'.(ui).(recentTasks) = w.(ui).(recentTasks)
  end.
Proof.
  intros (rq & k & _ & Hk & ->)%deliver_dash_spec. cbn zeta.
  destruct rq; cbn [resume] in Hk; simplify_eq. rewrite run_stats_resume.
  destruct r as [msg|[] [sd|]];
    match goal with |- context [apply_hook ?w0 (?s0, ?rs0)] =>
      destruct (apply_hook_spec w0 s0 rs0) as (-> & -> & _) end; cbn; by rewrite ?app_nil_r.
Qed.

(** When the recent tasks arrive in a reachable state, no request
    remains and loading ends; on success the counts captured by the
    continuation and the tasks (or [[]]) are stored and the content is
    shown; on failure the data is unchanged and the message is set. *)
Theorem recent_response_outcome je w i sd r w' :
  reachable je w -> (i, RecentReq sd) ∈ w.(inflight) ->
  deliver je w i (RecentArrives r) = Some w' ->
  w'.(inflight) = [] /\ w'.(ui).(loading) = false /\
  match r with
  | HttpResponse true (Some data) =>
      w'.(ui).(stats) = sd /\ w'.(ui).(recentTasks) = default [] data /\ view w'.(ui) = VContent
  | _ =>
      w'.(ui).(stats) = w.(ui).(stats) /\ w'.(ui).(recentTasks) = w.(ui).(recentTasks) /\
      w'.(ui).(error) = match r with
                        | NetworkError msg => msg
                        | HttpResponse false _ => "Failed to fetch recent tasks"
                        | HttpResponse true _ => je
                        end
  end.
Proof.
  intros Hr Hin (rq & k & Hin' & Hk & ->)%deliver_dash_spec.
  destruct (dash_inv_reachable je w Hr) as ([_ Hnd] & Hlen & Hl & He).
  pose proof (single_request _ _ Hlen Hin) as Hone. rewrite Hone in Hin'.
  apply list_elem_of_singleton in Hin' as [= ->].
  cbn [resume] in Hk. injection Hk as <-.
  assert (loading (ui w) = true) as Hload by (apply Hl; by rewrite Hone).
  assert (remove_req i (inflight w) = []) as Hrm by (rewrite Hone; unfold remove_req; cbn; by rewrite Nat.eqb_refl).
  rewrite run_recent_resume, Hrm.
  destruct r as [msg|[] [data|]];
    match goal with |- context [apply_hook ?w0 (?s0, ?rs0)] =>
      destruct (apply_hook_spec w0 s0 rs0) as (Hui & Hfl & _) end;
    rewrite Hui; (split; [done|]); cbn; try done.
  unfold view; cbn. by rewrite He.
Qed.

(** Retry is available only in the error view; it clears the
    error, sets loading and issues the counts request alone, keeping the
    old counts until new ones arrive. *)
Theorem retry_reissues_stats je w w' :
  reachable je w -> retry w = Some w' ->
  (exists msg, view w.(ui) = VError msg) /\
  map snd w'.(inflight) = [StatsReq] /\ w'.(ui).(loading) = true /\ w'.(ui).(error) = "" /\
  w'.(ui).(stats) = w.(ui).(stats).
Proof.
  intros Hr Hretry. destruct (dash_inv_reachable je w Hr) as (_ & _ & Hl & _).
  unfold retry in Hretry. destruct (view (ui w)) as [|msg|] eqn:Hv; try done.
  apply (inj Some) in Hretry. subst w'.
  assert (inflight w = []) as Hnil.
  { unfold view in Hv. destruct (loading (ui w)); [done|].
    destruct (inflight w); [done|]. exfalso. assert (false = true) by (apply Hl; done). done. }
  rewrite run_fetchDashboardData.
  destruct (apply_hook_spec w (setError "" (setLoading true (ui w))) [StatsReq]) as (-> & -> & _).
  rewrite Hnil. split; [by exists msg|done].
Qed.

Lemma dash_inv_quiet w : dash_inv w -> w.(inflight) = [] -> quiet w.
Proof.
  intros (_ & _ & Hl & _) Hnil. split; [|done].
  destruct (loading (ui w)) eqn:E; [|done]. exfalso. by apply (proj1 Hl).
Qed.

(** Delivering to the one pending request [i]. *)
Lemma deliver_single je w i rq ne w' :
  w.(inflight) = [(i, rq)] -> deliver je w i ne = Some w' ->
  exists k, resume je rq ne = Some k /\ map snd w'.(inflight) = (run_hook k w.(ui)).2.
Proof.
  intros Hfl (rq' & k & Hin & Hk & ->)%deliver_dash_spec.
  rewrite Hfl in Hin. apply list_elem_of_singleton in Hin as [= <-]. exists k. split; [done|].
  assert (remove_req i (inflight w) = []) as Hrm by (rewrite Hfl; unfold remove_req; cbn; by rewrite Nat.eqb_refl).
  rewrite Hrm. destruct (run_hook k (ui w)) as [s rs].
  by destruct (apply_hook_spec (mkWorld (ui w) [] (next_id w)) s rs) as (_ & -> & _).
Qed.

Lemma deliverable je w i rq :
  w.(inflight) = [(i, rq)] ->
  exists ne, is_Some (deliver je w i ne).
Proof.
  intros Hfl. exists (match rq with StatsReq => StatsArrives (NetworkError "") | RecentReq _ => RecentArrives (NetworkError "") end).
  unfold deliver. rewrite Hfl. unfold find_req. cbn. rewrite Nat.eqb_refl. cbn. by destruct rq.
Qed.

Lemma map_snd_single {B C} (l : list (B * C)) c : map snd l = [c] -> exists j, l = [(j, c)].
Proof. destruct l as [|[j c'] [|]]; cbn; intros; simplify_eq; by eauto. Qed.

Lemma settles_recent je w i sd :
  dash_inv w -> w.(inflight) = [(i, RecentReq sd)] -> eventually (net_answers je) quiet w.
Proof.
  intros Hinv Hfl. apply eventually_step with (mid := fun w' => dash_inv w' /\ w'.(inflight) = []).
  - exists i, (RecentReq sd). split_and!; [rewrite Hfl; by left|by apply (deliverable je w i (RecentReq sd))|].
    intros ne w' Hdel. split; [by apply (deliver_dash_inv je w i ne)|].
    destruct (deliver_single je w i _ ne w' Hfl Hdel) as (k & Hk & Hsnd).
    destruct ne as [|r]; cbn in Hk; simplify_eq. rewrite run_recent_resume in Hsnd.
    by apply map_eq_nil in Hsnd.
  - intros w' [Hinv' Hnil]. by apply eventually_done, dash_inv_quiet.
Qed.

Lemma settles_stats je w i :
  dash_inv w -> w.(inflight) = [(i, StatsReq)] -> eventually (net_answers je) quiet w.
Proof.
  intros Hinv Hfl.
  apply eventually_step with (mid := fun w' => dash_inv w' /\
           (w'.(inflight) = [] \/ exists j sd, w'.(inflight) = [(j, RecentReq sd)])).
  - exists i, StatsReq. split_and!; [rewrite Hfl; by left|by apply (deliverable je w i StatsReq)|].
    intros ne w' Hdel. split; [by apply (deliver_dash_inv je w i ne)|].
    destruct (deliver_single je w i _ ne w' Hfl Hdel) as (k & Hk & Hsnd).
    destruct ne as [r|]; cbn in Hk; simplify_eq. rewrite run_stats_resume in Hsnd.
    destruct r as [|[] [sd|]]; cbn in Hsnd;
      first [left; by apply map_eq_nil in Hsnd
            |right; destruct (map_snd_single _ _ Hsnd) as [j ->]; by eauto].
  - intros w' [Hinv' [Hnil|(j & sd & Hfl')]].
    + by apply eventually_done, dash_inv_quiet.
    + by apply (settles_recent je w' j sd).
Qed.

(** C30: liveness.  From every reachable state of the dashboard, whatever
    the network answers to the pending requests, the page ends with
    nothing pending and no longer loading (the error or the content is
    shown): at most two answers are needed. *)
Theorem dashboard_settles je w : reachable je w -> eventually (net_answers je) quiet w.
Proof.
  intros Hr. pose proof (dash_inv_reachable je w Hr) as Hinv. pose proof Hinv as (_ & Hlen & _).
  destruct (inflight w) as [|[i rq] [|]] eqn:Hfl; cbn in Hlen; [|destruct rq|lia].
  - by apply eventually_done, dash_inv_quiet.
  - by apply (settles_stats je w i).
  - by apply (settles_recent je w i statsData).
Qed.

Lemma strict_eq_of_Z_pos (n : Z) : (0 < n < 2 ^ 53)%Z -> JsNumber.strict_eq (JsNumber.of_Z n) (JsNumber.of_Z 0) = false.
Proof. intros Hn. by destruct (JsNumber.of_Z_finite n Hn) as (m & e & ->). Qed.

(** The percentage of safe-integer counts [0 <= v <= t]: [+0] when [v]
    is 0 (for [t = 0] by the guard), positive and at most 100 otherwise,
    and exactly 100 when [v = t]. *)
Lemma calculateProgress_spec (v t : Z) :
  (0 <= v <= t -> t < 2 ^ 53 ->
   let p := calculateProgress (JsNumber.of_Z v) (JsNumber.of_Z t) in
   (v = 0 -> p = JsNumber.zero) /\
   (0 < v -> JsNumber.lt JsNumber.zero p = true /\ JsNumber.le p (JsNumber.of_Z 100) = true) /\
   (0 < t -> v = t -> p = JsNumber.of_Z 100))%Z.
Proof.
  intros Hv Ht p. unfold p, calculateProgress. destruct (Z.eq_dec t 0) as [->|Ht0].
  - assert (v = 0%Z) as -> by lia. split_and!; [done|lia|lia].
  - rewrite strict_eq_of_Z_pos by lia. split_and!.
    + intros ->. by rewrite JsNumber.of_Z_zero, JsNumber.div_zero_of_Z, JsNumber.of_Z_hundred by lia.
    + intros Hv0. destruct (JsNumber.percent_bounds v t) as (m & e & He & Hle); [lia|lia|].
      rewrite JsNumber.of_Z_hundred, He. by split.
    + intros _ ->. by rewrite JsNumber.div_of_Z_self, JsNumber.of_Z_hundred by lia.
Qed.

Lemma distribution_bars_ok s :
  let st := s.(stats) in
  (0 <= st.(pending_tasks) /\ 0 <= st.(in_progress_tasks) /\ 0 <= st.(completed_tasks) /\
   st.(pending_tasks) + st.(in_progress_tasks) + st.(completed_tasks) = st.(total_tasks) ->
   st.(total_tasks) < 2 ^ 53 ->
   Forall (fun x => bar_ok x.1.2 x.2) (content s).(distribution))%Z.
Proof.
  destruct s as [[t p i c] r l e]. cbn. intros (Hp & Hi & Hc & Hsum) Ht.
  unfold completed_progress, in_progress_progress, pending_progress; cbn.
  repeat constructor; cbn; unfold bar_ok;
    match goal with |- context [calculateProgress (JsNumber.of_Z ?v) (JsNumber.of_Z t)] =>
      destruct (calculateProgress_spec v t) as (H0 & H1 & _); [lia|lia|] end; tauto.
Qed.

Lemma reachable_stats_world : reachable "" stats_world.
Proof.
  apply (star_right _ _ mount); [apply star_refl|].
  apply (step_net _ _ 0 (StatsArrives (HttpResponse true (Some stats_example)))). vm_compute. reflexivity.
Qed.

Lemma reachable_dash_loaded_world : reachable "" loaded_world.
Proof.
  apply (star_right _ _ stats_world); [apply reachable_stats_world|].
  apply (step_net _ _ 1 (RecentArrives (HttpResponse true (Some (Some [recent_example]))))).
  vm_compute. reflexivity.
Qed.

Lemma reachable_stats_failed_world : reachable "" stats_failed_world.
Proof.
  apply (star_right _ _ mount); [apply star_refl|].
  apply (step_net _ _ 0 (StatsArrives (HttpResponse false None))). vm_compute. reflexivity.
Qed.

Lemma reachable_dash_inv_witness : reachable "" loaded_world /\ dash_inv loaded_world.
Proof. split; [apply reachable_dash_loaded_world|apply (reachable_dash_inv "" loaded_world reachable_dash_loaded_world)]. Defined.

Lemma stats_response_outcome_witness :
  deliver "" mount 0 (StatsArrives (HttpResponse true (Some stats_example))) = Some stats_world /\
  map snd stats_world.(inflight) = [RecentReq stats_example] /\ stats_world.(ui) = mount.(ui).
Proof.
  assert (deliver "" mount 0 (StatsArrives (HttpResponse true (Some stats_example))) = Some stats_world)
    as H by (vm_compute; reflexivity).
  split; [exact H|]. apply (stats_response_outcome "" mount 0 _ _ H).
Defined.

Lemma recent_response_outcome_witness :
  loaded_world.(inflight) = [] /\ loaded_world.(ui).(loading) = false /\
  loaded_world.(ui).(stats) = stats_example /\ loaded_world.(ui).(recentTasks) = [recent_example] /\
  view loaded_world.(ui) = VContent.
Proof.
  apply (recent_response_outcome "" stats_world 1 stats_example
           (HttpResponse true (Some (Some [recent_example]))) loaded_world reachable_stats_world);
    vm_compute; [left; reflexivity|reflexivity].
Defined.

Lemma retry_reissues_stats_witness :
  view stats_failed_world.(ui) = VError "Failed to fetch stats" /\
  map snd retried_world.(inflight) = [StatsReq] /\ retried_world.(ui).(loading) = true /\
  retried_world.(ui).(error) = "" /\ retried_world.(ui).(stats) = stats_failed_world.(ui).(stats).
Proof.
  split; [vm_compute; reflexivity|].
  apply (retry_reissues_stats "" stats_failed_world retried_world reachable_stats_failed_world).
  vm_compute. reflexivity.
Defined.

Lemma dashboard_settles_witness :
  reachable "" stats_world /\ eventually (net_answers "") quiet stats_world.
Proof. split; [apply reachable_stats_world|apply (dashboard_settles "" stats_world reachable_stats_world)]. Defined.

(** C18: [calculateProgress] on counts that are safe integers
    [0 <= value <= total < 2^53], computed in doubles: a count of 0
    gives +0, also for a total of 0, where the guard [total === 0]
    avoids [0 / 0 = NaN]; a positive count gives a positive percentage
    at most 100; and the whole total gives exactly 100. *)
Theorem progress_percentage (v t : Z) :
  (0 <= v <= t -> t < 2 ^ 53 ->
   let p := calculateProgress (JsNumber.of_Z v) (JsNumber.of_Z t) in
   (v = 0 -> p = JsNumber.zero) /\
   (0 < v -> JsNumber.lt JsNumber.zero p = true /\ JsNumber.le p (JsNumber.of_Z 100) = true) /\
   (0 < t -> v = t -> p = JsNumber.of_Z 100))%Z.
Proof. apply calculateProgress_spec. Qed.

Lemma progress_percentage_witness :
  calculateProgress (JsNumber.of_Z 0) (JsNumber.of_Z 0) = JsNumber.zero /\
  calculateProgress (JsNumber.of_Z 3) (JsNumber.of_Z 10) = JsNumber.of_Z 30 /\
  JsNumber.le (calculateProgress (JsNumber.of_Z 3) (JsNumber.of_Z 10)) (JsNumber.of_Z 100) = true.
Proof.
  split; [apply (progress_percentage 0 0); [lia|lia|reflexivity]|].
  split; [vm_compute; reflexivity|].
  apply (progress_percentage 3 10); [lia|lia|lia].
Defined.

End Dashboard.
