(* ===== verification/Collection.v ===== *)
(** * The remote task collection

    The backend is not part of the repository; section 6 of the spec
    gives its endpoints, and the pages use six of them: [GET
    /tasks?...] (the list page), [DELETE /tasks/{id}] (the list page),
    [GET /tasks/{id}] and [PUT /tasks/{id}] (the edit page), [GET
    /tasks?limit=5] and [GET /dashboard/stats] (the dashboard).  [TaskCollection] is that
    contract as a class, and [TaskCollectionLaws] what the pages may
    rely on: a listed task is what get-by-id answers for its id, a [PUT]
    to an existing id stores its body as the task, the recent list has
    at most five tasks, and the counts are non-negative
    and partition the total (every task has one of the three statuses).
    [mem_collection] is an in-memory instance, filtered and paged as the
    parameters say, which keeps the laws when its ids are distinct and
    its statuses enumerated.

    The [serve_*] functions are the collection's responses as the pages
    receive them.  [dashboard_loaded] answers the dashboard's two
    requests from a collection in the order the page issues them; the
    page then shows the collection's counts, its recent tasks, and a
    status distribution whose bars are +0 for the empty statuses and
    otherwise between 0 and 100.  [edit_roundtrip] runs the
    edit page against a collection: load, edit, submit, and the
    collection's answer to the [PUT]. *)

From S2P Require Import Prelude.
From S2P Require Import Task.
From S2P Require Import TaskList.
From S2P Require Import EditTask.
From S2P Require Import Dashboard.

Module Collection.
Import TasksPage.

(** The collaborator's endpoints, as the pages use them. *)
Class TaskCollection (C : Type) := {
  list_tasks : C -> Query -> list Task;
  delete_task : C -> string -> option C;
  get_task : C -> string -> option Task;
  update_task : C -> string -> EditTaskPage.FormData -> option C;
  recent_tasks : C -> list Task;
  get_stats : C -> Dashboard.Stats;
}.

(** The task a [PUT] body describes: the fields as sent. *)
Definition task_of_form (id : string) (f : EditTaskPage.FormData) : Task :=
  mkTask id f.(EditTaskPage.fd_title) f.(EditTaskPage.fd_description) f.(EditTaskPage.fd_status)
    f.(EditTaskPage.fd_priority) (Some f.(EditTaskPage.fd_due_date)).

(** What a client may rely on, on a well-formed collection. *)
Class TaskCollectionLaws (C : Type) `{TaskCollection C} := {
  coll_wf : C -> Prop;
  get_listed c q t : coll_wf c -> t ∈ list_tasks c q -> get_task c t.(_id) = Some t;
  put_get c id t f : coll_wf c -> get_task c id = Some t ->
    exists c', update_task c id f = Some c' /\ get_task c' id = Some (task_of_form id f);
  recent_bounded c : coll_wf c -> length (recent_tasks c) <= 5;
  stats_partition c : coll_wf c ->
    let st := get_stats c in
    (0 <= st.(Dashboard.pending_tasks) /\ 0 <= st.(Dashboard.in_progress_tasks) /\
     0 <= st.(Dashboard.completed_tasks) /\
     st.(Dashboard.pending_tasks) + st.(Dashboard.in_progress_tasks) + st.(Dashboard.completed_tasks) =
       st.(Dashboard.total_tasks))%Z;
}.

Section WithCollection.
Context `{TaskCollection C}.

(** [GET /tasks/{id}]: the task, or a failed response (404). *)
Definition serve_get (c : C) (id : string) : Response Task :=
  match get_task c id with
  | Some t => HttpResponse true (Some t)
  | None => HttpResponse false None
  end.

(** [PUT /tasks/{id}]: the collection after it and the response; a
    missing id is FastAPI's 404 with its [detail]. *)
Definition serve_put (c : C) (id : string) (f : EditTaskPage.FormData) :
    C * Response (option EditTaskPage.Detail) :=
  match update_task c id f with
  | Some c' => (c', HttpResponse true (Some None))
  | None => (c, HttpResponse false (Some (Some (EditTaskPage.DetailText "Task not found"))))
  end.

(** [GET /dashboard/stats] and [GET /tasks?limit=5]. *)
Definition serve_stats (c : C) : Response Dashboard.Stats := HttpResponse true (Some (get_stats c)).
Definition serve_recent (c : C) : Response (option (list Task)) :=
  HttpResponse true (Some (Some (recent_tasks c))).

(** The dashboard after the collection answered its counts request and
    then its recent-tasks request. *)
Definition dashboard_loaded (je : string) (c : C) : option Dashboard.World :=
  w1 ← Dashboard.deliver je Dashboard.mount 0 (Dashboard.StatsArrives (serve_stats c));
  Dashboard.deliver je w1 1 (Dashboard.RecentArrives (serve_recent c)).

End WithCollection.

(** ** An in-memory collection *)

Definition matches (q : Query) (t : Task) : bool :=
  (bool_decide (q.(q_filters).(f_status) = "all") || bool_decide (t.(status) = q.(q_filters).(f_status))) &&
  (bool_decide (q.(q_filters).(f_priority) = "all") || bool_decide (t.(priority) = q.(q_filters).(f_priority))) &&
  (bool_decide (q.(q_search) = "") ||
   match String.index 0 q.(q_search) t.(title) with Some _ => true | None => false end).

Definition mem_list (c : list Task) (q : Query) : list Task :=
  take (Z.to_nat TASKS_PER_PAGE) (drop (Z.to_nat (q.(q_page) * TASKS_PER_PAGE)) (List.filter (matches q) c)).

Definition mem_delete (c : list Task) (id : string) : option (list Task) :=
  if bool_decide (id ∈ map _id c) then Some (List.filter (fun t => bool_decide (t.(_id) <> id)) c)
  else None.

Definition mem_get (c : list Task) (id : string) : option Task :=
  List.find (fun t => bool_decide (t.(_id) = id)) c.

Definition mem_update (c : list Task) (id : string) (f : EditTaskPage.FormData) : option (list Task) :=
  if bool_decide (id ∈ map _id c)
  then Some (map (fun t => if bool_decide (t.(_id) = id) then task_of_form id f else t) c)
  else None.

Definition mem_recent (c : list Task) : list Task := take 5 c.

Definition count_status (st : string) (c : list Task) : Z :=
  Z.of_nat (length (List.filter (fun t => bool_decide (t.(status) = st)) c)).

Definition mem_stats (c : list Task) : Dashboard.Stats :=
  Dashboard.mkStats (Z.of_nat (length c)) (count_status "pending" c)
    (count_status "in_progress" c) (count_status "completed" c).

#[export] Instance mem_collection : TaskCollection (list Task) := {
  list_tasks := mem_list;
  delete_task := mem_delete;
  get_task := mem_get;
  update_task := mem_update;
  recent_tasks := mem_recent;
  get_stats := mem_stats;
}.

(** The statuses of the spec's data model. *)
Definition status_enum : list string := ["pending"; "in_progress"; "completed"].

Definition mem_wf (c : list Task) : Prop :=
  NoDup (map _id c) /\ Forall (fun t => t.(status) ∈ status_enum) c.

(** Three tasks, one per status. *)
Definition example_collection : list Task := [task_a; task_b; task_c].

(** ** The in-memory collection keeps the laws *)

Lemma mem_list_subseteq c q : mem_list c q ⊆ c.
Proof.
  intros t Ht. apply subseteq_take, subseteq_drop in Ht.
  by apply list_elem_of_In, List.filter_In, proj1, list_elem_of_In in Ht.
Qed.

Lemma mem_get_elem c t : NoDup (map _id c) -> t ∈ c -> mem_get c t.(_id) = Some t.
Proof.
  unfold mem_get. induction c as [|x c IH]; intros Hnd Ht; [by apply not_elem_of_nil in Ht|].
  cbn in Hnd |- *. apply NoDup_cons in Hnd as [Hx Hnd].
  case_bool_decide as Heq.
  - apply elem_of_cons in Ht as [->|Ht]; [done|].
    destruct Hx. rewrite Heq. by apply list_elem_of_In, in_map, list_elem_of_In.
  - apply elem_of_cons in Ht as [->|Ht]; [done|]. by apply IH.
Qed.

Lemma mem_get_listed c q t : mem_wf c -> t ∈ mem_list c q -> mem_get c t.(_id) = Some t.
Proof. intros [Hnd _] Ht. apply mem_get_elem; [done|]. by apply (mem_list_subseteq c q). Qed.

Lemma mem_get_update c id f :
  mem_get (map (fun t => if bool_decide (t.(_id) = id) then task_of_form id f else t) c) id =
  if bool_decide (id ∈ map _id c) then Some (task_of_form id f) else None.
Proof.
  unfold mem_get. induction c as [|x c IH]; [done|]. cbn [map List.find].
  destruct (decide (x.(_id) = id)) as [Hx|Hx].
  - rewrite (bool_decide_eq_true_2 (x.(_id) = id)) by done. cbn [task_of_form _id].
    rewrite (bool_decide_eq_true_2 (id = id)) by done.
    rewrite bool_decide_eq_true_2; [done|]. rewrite Hx, elem_of_cons. by left.
  - rewrite !(bool_decide_eq_false_2 (x.(_id) = id)) by done. rewrite IH.
    replace (bool_decide (id ∈ _id x :: map _id c)) with (bool_decide (id ∈ map _id c)); [done|].
    apply bool_decide_ext. rewrite elem_of_cons. split; [by right|intros [Heq|?]; [congruence|done]].
Qed.

Lemma mem_put_get c id t f :
  mem_wf c -> mem_get c id = Some t ->
  exists c', mem_update c id f = Some c' /\ mem_get c' id = Some (task_of_form id f).
Proof.
  intros _ Hg. unfold mem_get in Hg. apply find_some in Hg as [Hin Hid].
  apply bool_decide_eq_true in Hid. subst id.
  assert (t.(_id) ∈ map _id c) as Hmem by (apply list_elem_of_In, in_map, Hin).
  unfold mem_update. rewrite bool_decide_eq_true_2 by done. eexists. split; [done|].
  by rewrite mem_get_update, bool_decide_eq_true_2.
Qed.

Lemma mem_recent_bounded c : mem_wf c -> length (mem_recent c) <= 5.
Proof. intros _. unfold mem_recent. rewrite length_take. lia. Qed.

Lemma mem_stats_partition c : mem_wf c ->
  let st := mem_stats c in
  (0 <= st.(Dashboard.pending_tasks) /\ 0 <= st.(Dashboard.in_progress_tasks) /\
   0 <= st.(Dashboard.completed_tasks) /\
   st.(Dashboard.pending_tasks) + st.(Dashboard.in_progress_tasks) + st.(Dashboard.completed_tasks) =
     st.(Dashboard.total_tasks))%Z.
Proof.
  intros [_ Hst]. cbn. unfold count_status. split_and!; [lia..|].
  induction Hst as [|t c Ht _ IH]; [done|]. cbn [List.filter length].
  apply elem_of_cons in Ht as [Ht|[Ht|[Ht|Ht]%elem_of_cons]%elem_of_cons];
    [| | |by apply not_elem_of_nil in Ht];
    rewrite Ht; repeat (case_bool_decide; try done); cbn [length]; lia.
Qed.

#[export] Instance mem_laws : TaskCollectionLaws (list Task) := {
  coll_wf := mem_wf;
  get_listed := mem_get_listed;
  put_get := mem_put_get;
  recent_bounded := mem_recent_bounded;
  stats_partition := mem_stats_partition;
}.

(** ** The dashboard against the collection *)

Section Dashboard.
Context `{TaskCollectionLaws C}.

Lemma dashboard_loaded_world je (c : C) :
  dashboard_loaded je c =
  Some (Dashboard.mkWorld (Dashboard.mkState (get_stats c) (recent_tasks c) false "") [] 2).
Proof. reflexivity. Qed.

(** C15: when the collection answers the dashboard's two requests, the
    page settles (nothing pending, not loading) on its content: the
    stats cards carry the collection's counts, the recent tasks are the
    collection's, and each bar of the status distribution, computed in
    doubles, is +0 for a status without tasks and otherwise positive and
    at most 100 (for fewer than [2^53] tasks). *)
Theorem dashboard_shows_collection je (c : C) :
  coll_wf c -> ((get_stats c).(Dashboard.total_tasks) < 2 ^ 53)%Z ->
  let st := get_stats c in
  exists w, dashboard_loaded je c = Some w /\ Dashboard.quiet w /\
    Dashboard.view w.(Dashboard.ui) = Dashboard.VContent /\
    map Dashboard.sc_count (Dashboard.content w.(Dashboard.ui)).(Dashboard.stat_cards) =
      [st.(Dashboard.total_tasks); st.(Dashboard.pending_tasks); st.(Dashboard.in_progress_tasks);
       st.(Dashboard.completed_tasks)] /\
    (Dashboard.content w.(Dashboard.ui)).(Dashboard.recent) = Dashboard.recent_view (recent_tasks c) /\
    Forall (fun x => Dashboard.bar_ok x.1.2 x.2) (Dashboard.content w.(Dashboard.ui)).(Dashboard.distribution).
Proof.
  intros Hwf Ht st. rewrite dashboard_loaded_world.
  eexists. split_and!; [done..|].
  apply (Dashboard.distribution_bars_ok (Dashboard.mkState st (recent_tasks c) false "")); [|done].
  apply (stats_partition c Hwf).
Qed.

End Dashboard.

(** ** The edit page against the collection *)

Section EditPage.
Context `{TaskCollectionLaws C}.
Import EditTaskPage.

(** The edit page of a task the collection holds, after its [GET] was
    answered. *)
Lemma edit_loaded (c : C) id t :
  js_truthy id = true -> get_task c id = Some t ->
  deliver (mount id) 0 (GetArrives (serve_get c id)) =
  Some (mkWorld (setLoading false (setFormData (seed t) (setTask (Some t) initial))) [] 1
          [GetTask (task_url id)] false).
Proof. intros Ht Hg. rewrite mount_truthy by done. unfold serve_get. by rewrite Hg. Qed.

(** C35: the edit page against the collection.  Open the edit page of
    a task the collection holds, let the collection answer its [GET],
    edit fields, and submit with a non-empty title: the form shows the
    loaded task with the edits applied in order, the page has sent the
    [GET] and then one [PUT] carrying that whole draft, and once the
    collection answers the [PUT] the page navigates to [/tasks] and the
    collection holds the draft as the task. *)
Theorem edit_roundtrip (c : C) id t edits :
  coll_wf c -> js_truthy id = true -> get_task c id = Some t ->
  let w1 := default (mount id) (deliver (mount id) 0 (GetArrives (serve_get c id))) in
  let w2 := fold_left (fun w fv => dispatch id w (Change fv.1 fv.2)) edits w1 in
  let draft := fold_left (fun d fv => update_field fv.1 fv.2 d) edits (seed t initial.(formData)) in
  draft.(fd_title) <> "" ->
  let w3 := dispatch id w2 Submit in
  let res := serve_put c id draft in
  view w2.(ui) = VForm /\ w2.(ui).(formData) = draft /\
  w3.(log) = [GetTask (task_url id); PutTask (task_url id) draft] /\
  exists w4, deliver w3 1 (PutArrives res.2) = Some w4 /\
    last w4.(log) = Some (Navigate "/tasks") /\ w4.(left_page) = true /\
    get_task res.1 id = Some (task_of_form id draft).
Proof.
  intros Hwf Hid Hg w1 w2 draft Htitle w3 res.
  assert (w1 = mkWorld (setLoading false (setFormData (seed t) (setTask (Some t) initial))) [] 1
                 [GetTask (task_url id)] false) as Hw1 by (subst w1; by rewrite (edit_loaded c id t)).
  destruct (dispatch_changes id w1 edits) as (Hui & Hfl & Hn & Hlog & Hleft). fold w2 in Hui, Hfl, Hn, Hlog, Hleft.
  rewrite Hw1 in Hui, Hfl, Hn, Hlog, Hleft. cbn in Hfl, Hn, Hlog, Hleft.
  assert (w2.(ui).(formData) = draft) as Hdraft by (rewrite Hui; reflexivity).
  assert (view w2.(ui) = VForm) as Hview by (rewrite Hui; reflexivity).
  destruct (submit_sends_full_draft id w2) as (Hfl3 & Hlog3 & _); [by rewrite Hdraft|].
  fold w3 in Hfl3, Hlog3. rewrite Hdraft, Hlog in Hlog3. rewrite Hfl in Hfl3.
  split_and!; [done|done|done|].
  destruct (put_get c id t draft Hwf Hg) as (c' & Hup & Hget').
  assert (res = (c', HttpResponse true (Some None))) as Hres by (subst res; unfold serve_put; by rewrite Hup).
  rewrite Hres. cbn [fst snd].
  assert (w3.(inflight) = [(1, PutReq)]) as Hin3.
  { subst w3. unfold dispatch. cbn [handle]. rewrite run_submit, Hdraft.
    rewrite (proj2 (String.eqb_neq _ _) Htitle). unfold apply_effects. by rewrite Hfl, Hn. }
  unfold deliver. rewrite Hin3.
  assert (find_req 1 [(1, PutReq)] = Some (1, PutReq)) as -> by reflexivity.
  cbn [mbind option_bind resume snd]. eexists. split; [reflexivity|].
  rewrite run_handleSubmit_resume.
  destruct (apply_effects_spec (mkWorld (ui w3) (remove_req 1 [(1, PutReq)]) (next_id w3) (log w3) (left_page w3))
              (setSaving false (ui w3)) [Navigate "/tasks"]) as (_ & _ & -> & -> & _).
  cbn [log left_page]. rewrite Hlog3. split_and!; [done|by rewrite orb_true_r|done].
Qed.

End EditPage.

Lemma example_collection_wf : coll_wf example_collection.
Proof.
  split; [change (NoDup ["t1"; "t2"; "t3"])|];
    repeat constructor; rewrite ?not_elem_of_cons; repeat split; try done; apply not_elem_of_nil.
Qed.

Lemma dashboard_shows_collection_witness :
  exists w, dashboard_loaded "" example_collection = Some w /\ Dashboard.quiet w /\
    Forall (fun x => Dashboard.bar_ok x.1.2 x.2) (Dashboard.content w.(Dashboard.ui)).(Dashboard.distribution).
Proof.
  destruct (dashboard_shows_collection "" example_collection) as (w & Hl & Hq & _ & _ & _ & Hb).
  - apply example_collection_wf.
  - vm_compute. reflexivity.
  - exists w. by split_and!.
Defined.

Lemma edit_roundtrip_witness :
  get_task (serve_put example_collection "t1"
              (EditTaskPage.mkForm "Call Alice today" None "pending" "high" "")).1 "t1" =
  Some (task_of_form "t1" (EditTaskPage.mkForm "Call Alice today" None "pending" "high" "")).
Proof.
  destruct (edit_roundtrip example_collection "t1" task_a [(EditTaskPage.FTitle, "Call Alice today")])
    as (_ & _ & _ & w4 & _ & _ & _ & Hget).
  - apply example_collection_wf.
  - reflexivity.
  - reflexivity.
  - vm_compute. discriminate.
  - exact Hget.
Defined.

End Collection.
