(* ===== verification/TaskListRefine.v ===== *)
(** * The list page against the task collection

    The backend's contract is the class [Collection.TaskCollection]:
    [GET /tasks?...] answers a list of tasks for the query, [DELETE
    /tasks/{id}] succeeds or fails.  The theorems hold for every
    instance; the concrete runs use the in-memory one.

    [serve] answers a request of [TasksPage] from a collection; [drain]
    answers the requests in flight oldest first (a FIFO server), running
    each continuation by [TasksPage.deliver], until none is left.  Its
    fuel is [weight]: a list request weighs 1 and a delete 2, since a
    delete's continuation may issue one list request and nothing else
    issues any.

    The abstract view of the page is "the table shows the collection's
    answer to the current query" ([settled]).  Sequential use, where
    each user event is followed by answering everything it started,
    refines it ([sequential_refinement]).  Interleaving breaks it even
    with a FIFO server, because the delete's continuation refetches the
    query captured when Continue was clicked
    ([interleaved_delete_refetches_old_query]). *)

From S2P Require Import Prelude.
From S2P Require Import Task.
From S2P Require Import TaskList.
From S2P Require Import Collection.

Module TaskListRefine.
Import TasksPage.
Import Collection.

Section WithCollection.
Context `{TaskCollection C}.

(** The answer to a request: the list for its query, or the outcome of
    the delete and the collection after it. *)
Definition serve (c : C) (rq : Req) : C * NetEvent :=
  match rq with
  | ListReq q _ => (c, ListArrives (HttpResponse true (Some (Some (list_tasks c q)))))
  | DeleteReq id _ _ =>
      match delete_task c id with
      | Some c' => (c', DeleteArrives (HttpResponse true None))
      | None => (c, DeleteArrives (HttpResponse false None))
      end
  end.

(** Answer the oldest request in flight. *)
Definition drain_one (c : C) (w : World) : option (C * World) :=
  match w.(inflight) with
  | [] => None
  | (i, rq) :: _ => let '(c', ne) := serve c rq in w' ← deliver w i ne; Some (c', w')
  end.

Fixpoint drain (fuel : nat) (c : C) (w : World) : C * World :=
  match fuel with
  | 0 => (c, w)
  | S f => match drain_one c w with None => (c, w) | Some (c', w') => drain f c' w' end
  end.

Definition req_weight (r : Req) : nat :=
  match r with ListReq _ _ => 1 | DeleteReq _ _ _ => 2 end.

Definition weight (fl : list (nat * Req)) : nat := sum_list_with req_weight (map snd fl).

(** A user event, then everything it started answered. *)
Definition use (c : C) (w : World) (ev : UserEvent) : C * World :=
  let w1 := dispatch w ev in drain (weight w1.(inflight)) c w1.

(** The abstract view: nothing pending, and the table is the
    collection's answer to the current query. *)
Definition settled (c : C) (w : World) : Prop :=
  w.(inflight) = [] /\ w.(deps) = Some (deps_of w.(ui)) /\
  w.(ui).(tasks) = list_tasks c (query_of w.(ui)) /\ w.(ui).(loading) = false.

Definition req_query (r : Req) : Query :=
  match r with ListReq q _ | DeleteReq _ _ q => q end.

Definition has_list (rs : list Req) : Prop :=
  Exists (fun r => match r with ListReq _ _ => True | _ => False end) rs.

(** While draining: every pending request is for the current query, and
    the table is up to date unless a list request is still pending. *)
Definition drain_inv (c : C) (w : World) : Prop :=
  fresh_pool w.(next_id) w.(inflight) /\ w.(deps) = Some (deps_of w.(ui)) /\
  Forall (fun r => req_query r = query_of w.(ui)) (map snd w.(inflight)) /\
  (w.(ui).(tasks) = list_tasks c (query_of w.(ui)) \/ has_list (map snd w.(inflight))) /\
  (w.(ui).(loading) = true -> has_list (map snd w.(inflight))).

End WithCollection.

(** ** A concrete run *)

Definition collection0 : list Task := [task_a; task_b; task_c].

(** The page after its mount request has been answered. *)
Definition settled0 : list Task * World := drain (weight mount.(inflight)) collection0 mount.

(** Delete [task_a], then type "Buy" before the delete is answered. *)
Definition before_drain : World :=
  default settled0.2
    (run_actions settled0.2 [User (ClickDelete task_a); User ClickContinue; User (TypeSearch "Buy")]).


Section Proofs.
Context `{TaskCollection C}.

Lemma commit_synced w s rs :
  w.(deps) = Some (deps_of s) ->
  commit w (s, rs) = mkWorld s w.(deps) (issue rs w.(inflight) w.(next_id)).1 (issue rs w.(inflight) w.(next_id)).2.
Proof.
  intros Hd. unfold commit. destruct (issue _ _ _) as [fl n]. by rewrite bool_decide_eq_true_2.
Qed.

Lemma remove_req_head i (rq : Req) rest :
  NoDup (map fst ((i, rq) :: rest)) -> remove_req i ((i, rq) :: rest) = rest.
Proof.
  cbn [map fst]. intros [Hi _]%NoDup_cons. rewrite remove_req_cons, Nat.eqb_refl. by apply remove_req_notin.
Qed.

(** What answering the oldest request does, case by case. *)
Lemma drain_one_head c w i rq rest :
  w.(inflight) = (i, rq) :: rest -> NoDup (map fst w.(inflight)) ->
  w.(deps) = Some (deps_of w.(ui)) ->
  drain_one c w = Some
    match rq with
    | ListReq q _ => (c, mkWorld (setLoading false (setTasks (list_tasks c q) w.(ui))) w.(deps) rest w.(next_id))
    | DeleteReq id _ q =>
        match delete_task c id with
        | Some c' => (c', mkWorld (setTaskToDelete None (setIsDeleteDialogOpen false
                                    (setError None (setLoading true w.(ui)))))
                        w.(deps) (rest ++ [(w.(next_id), ListReq q (tasks_url q))]) (S w.(next_id)))
        | None => (c, mkWorld (setTaskToDelete None (setIsDeleteDialogOpen false
                                (setError (Some "Failed to delete task") w.(ui))))
                      w.(deps) rest w.(next_id))
        end
    end.
Proof.
  intros Hfl Hnd Hd. rewrite Hfl in Hnd. unfold drain_one, deliver. rewrite Hfl.
  assert (find_req i ((i, rq) :: rest) = Some (i, rq)) as ->
    by (unfold find_req; cbn; by rewrite Nat.eqb_refl).
  rewrite (remove_req_head i rq rest Hnd).
  rewrite Hd. destruct rq as [q u|id u q]; cbn [serve];
    [|destruct (delete_task c id) as [c'|]];
    cbn; unfold commit, fetchTasks; hook_unfold; cbn; by rewrite bool_decide_eq_true_2.
Qed.

Lemma commit_fresh_synced w s rs :
  fresh_pool w.(next_id) w.(inflight) ->
  let w' := commit w (s, rs) in
  fresh_pool w'.(next_id) w'.(inflight) /\ w'.(deps) = Some (deps_of w'.(ui)).
Proof.
  intros Hf. unfold commit. pose proof (issue_fresh rs _ _ Hf) as Hf1.
  destruct (issue rs _ _) as [fl n]; cbn in Hf1. case_bool_decide as Hd; [done|].
  cbn. split; [|done]. by apply (issue_fresh [_] fl n).
Qed.

Lemma fresh_pool_tail n (p : nat * Req) fl : fresh_pool n (p :: fl) -> fresh_pool n fl.
Proof. intros [[_ ?]%Forall_cons [_ ?]%NoDup_cons]. by split. Qed.

Lemma weight_cons i rq fl : weight ((i, rq) :: fl) = req_weight rq + weight fl.
Proof. reflexivity. Qed.

Lemma weight_app fl fl' : weight (fl ++ fl') = weight fl + weight fl'.
Proof. unfold weight. by rewrite map_app, sum_list_with_app. Qed.

Lemma weight_nil fl : weight fl = 0 -> fl = [].
Proof. destruct fl as [|[i []] fl]; cbn; [done|lia|lia]. Qed.

(** Answering the oldest request keeps the pool fresh and the effect
    in step, is a step of the page, strictly lowers the weight, and
    leaves the query as it was. *)
Lemma drain_one_is_step c w c' w' : drain_one c w = Some (c', w') -> step w w'.
Proof.
  unfold drain_one. destruct (inflight w) as [|[i rq] rest]; [done|]. destruct (serve c rq) as [c1 ne].
  destruct (deliver w i ne) as [w1|] eqn:Hdel; [|done]. cbn. intros [= <- <-].
  by apply (step_net w i ne).
Qed.

Lemma drain_star f c w : star step w (drain f c w).2.
Proof.
  revert c w. induction f as [|f IH]; intros c w; cbn; [apply star_refl|].
  destruct (drain_one c w) as [[c1 w1]|] eqn:Hdr; [|apply star_refl].
  apply (star_step _ _ w1); [by apply (drain_one_is_step c w c1)|apply IH].
Qed.

Lemma drain_one_step c w c' w' :
  fresh_pool w.(next_id) w.(inflight) -> w.(deps) = Some (deps_of w.(ui)) ->
  drain_one c w = Some (c', w') ->
  fresh_pool w'.(next_id) w'.(inflight) /\ w'.(deps) = Some (deps_of w'.(ui)) /\
  step w w' /\ weight w'.(inflight) < weight w.(inflight) /\ query_of w'.(ui) = query_of w.(ui).
Proof.
  intros Hf Hd Hdr. destruct (inflight w) as [|[i rq] rest] eqn:Hfl.
  { unfold drain_one in Hdr. by rewrite Hfl in Hdr. }
  pose proof (drain_one_is_step c w c' w' Hdr) as Hstep.
  assert (NoDup (map fst (inflight w))) as Hnd by (rewrite Hfl; apply Hf).
  rewrite (drain_one_head c w i rq rest Hfl Hnd Hd) in Hdr. apply fresh_pool_tail in Hf as Hf'. rewrite weight_cons.
  destruct rq as [q u|id u q]; [|destruct (delete_task c id) as [c1|]];
    injection Hdr as <- <-; cbn [inflight ui deps next_id req_weight]; rewrite Hd in Hstep |- *;
    split_and!; first [done | lia | exact (issue_fresh [ListReq q (tasks_url q)] rest (next_id w) Hf')
                      | rewrite weight_app; cbn; lia].
Qed.

Lemma pool_synced_step c w c' w' :
  fresh_pool w.(next_id) w.(inflight) /\ w.(deps) = Some (deps_of w.(ui)) ->
  drain_one c w = Some (c', w') ->
  fresh_pool w'.(next_id) w'.(inflight) /\ w'.(deps) = Some (deps_of w'.(ui)).
Proof. intros [Hf Hd] Hdr. by destruct (drain_one_step c w c' w' Hf Hd Hdr) as (? & ? & _). Qed.

Section DrainInd.
Variable P : C -> World -> Prop.
Hypothesis P_step : forall c w c' w', P c w -> drain_one c w = Some (c', w') -> P c' w'.
Hypothesis P_ok : forall c w, P c w -> fresh_pool w.(next_id) w.(inflight) /\ w.(deps) = Some (deps_of w.(ui)).

(** Draining with fuel at least the weight answers everything, by steps
    of the page, and keeps any invariant of [drain_one]. *)
Lemma drain_ind f c w :
  P c w -> weight w.(inflight) <= f ->
  let r := drain f c w in
  P r.1 r.2 /\ r.2.(inflight) = [] /\ star step w r.2 /\ query_of r.2.(ui) = query_of w.(ui).
Proof.
  revert c w. induction f as [|f IH]; intros c w HP Hw; cbn.
  - split_and!; [done|by apply weight_nil; lia|apply star_refl|done].
  - destruct (drain_one c w) as [[c1 w1]|] eqn:Hdr.
    + destruct (P_ok c w HP) as [Hf Hd].
      destruct (drain_one_step c w c1 w1 Hf Hd Hdr) as (_ & _ & Hs & Hlt & Hq).
      destruct (IH c1 w1 (P_step _ _ _ _ HP Hdr)) as (HP' & Hnil & Hstar & Hq'); [lia|].
      split_and!; [done|done|by apply (star_step _ _ w1)|congruence].
    + split_and!; [done| |apply star_refl|done].
      destruct (inflight w) as [|[i rq] rest] eqn:Hfl; [done|].
      destruct (P_ok c w HP) as [[_ Hnd] Hd].
      by rewrite (drain_one_head c w i rq rest Hfl Hnd Hd) in Hdr.
Qed.
End DrainInd.

Lemma has_list_tail rq rs :
  match rq with ListReq _ _ => False | _ => True end -> has_list (rq :: rs) -> has_list rs.
Proof. intros Hrq Hl. inversion Hl as [? ? Hx|]; subst; [by destruct rq|done]. Qed.

Lemma has_list_snoc rs q u : has_list (rs ++ [ListReq q u]).
Proof. apply Exists_app. right. by constructor. Qed.

Lemma drain_inv_step c w c' w' : drain_inv c w -> drain_one c w = Some (c', w') -> drain_inv c' w'.
Proof.
  intros (Hf & Hd & Hq & Htab & Hload) Hdr.
  destruct (drain_one_step c w c' w' Hf Hd Hdr) as (Hf' & Hd' & _ & _ & Hq').
  destruct (inflight w) as [|[i rq] rest] eqn:Hfl; [by unfold drain_one in Hdr; rewrite Hfl in Hdr|].
  assert (NoDup (map fst (inflight w))) as Hnd by (rewrite Hfl; apply Hf).
  rewrite (drain_one_head c w i rq rest Hfl Hnd Hd) in Hdr.
  cbn [map snd] in Hq, Htab, Hload. apply Forall_cons in Hq as [Hq0 Hq].
  destruct rq as [q u|id u q]; [|destruct (delete_task c id) as [c1|]];
    injection Hdr as <- <-; unfold drain_inv; cbn [inflight ui next_id deps] in *;
    rewrite Hq'; split_and!; try done; cbn [map snd tasks loading setLoading setTasks setError
      setIsDeleteDialogOpen setTaskToDelete] in *.
  - left. cbn in Hq0. by rewrite Hq0.
  - rewrite map_app. apply Forall_app. split; [done|]. cbn in Hq0 |- *. by repeat constructor.
  - right. rewrite map_app. apply has_list_snoc.
  - intros _. rewrite map_app. apply has_list_snoc.
  - destruct Htab as [Htab|Htab]; [by left|right]. by apply (has_list_tail (DeleteReq id u q) _ I Htab).
  - intros Hl. by apply (has_list_tail (DeleteReq id u q) _ I), Hload.
Qed.

Lemma drain_inv_ok c w :
  drain_inv c w -> fresh_pool w.(next_id) w.(inflight) /\ w.(deps) = Some (deps_of w.(ui)).
Proof. by intros (? & ? & _). Qed.

(** A user event's handler keeps the table and the loading flag, starts
    no list request, and changes the query only together with a
    dependency of the effect; what it starts leaves those alone. *)
Lemma handle_frame ev s :
  let '(s', rs) := run_hook (handle ev) s in
  s'.(tasks) = s.(tasks) /\ s'.(loading) = s.(loading) /\
  (deps_of s' = deps_of s -> query_of s' = query_of s) /\
  (rs <> [] -> deps_of s' = deps_of s) /\
  Forall (fun r => req_query r = query_of s') rs /\ ~ has_list rs.
Proof.
  destruct ev; unfold handle, openDeleteDialog, handleDelete; hook_unfold; cbn;
    try destruct (taskToDelete s); cbn; split_and!; try done.
  all: first [ by inversion 1 as [? ? Hx|? ? Hx]; [|inversion Hx]
             | by repeat constructor
             | unfold deps_of, query_of; cbn; intros Heq; inversion Heq; first [congruence|lia] ].
Qed.

Lemma dispatch_drain_inv c w ev : settled c w -> drain_inv c (dispatch w ev).
Proof.
  intros (Hnil & Hd & Htab & Hload). unfold dispatch.
  pose proof (handle_frame ev (ui w)) as Hfr.
  destruct (run_hook (handle ev) (ui w)) as [s' rs].
  destruct Hfr as (Ht & Hl & Hq & Hrs & Hfq & Hnl).
  assert (fresh_pool (next_id w) (inflight w)) as Hf by (rewrite Hnil; split; constructor).
  destruct (commit_fresh_synced w s' rs Hf) as [Hf' Hd'].
  destruct (commit_spec w s' rs) as (Hui & _ & Hfl). cbn zeta in Hui, Hfl.
  rewrite Hui in Hd'. unfold drain_inv. rewrite Hfl, Hnil, Hui. cbn [map app].
  destruct (bool_decide (deps w = Some (deps_of s'))) eqn:Hsame; cbn [negb] in *.
  - apply bool_decide_eq_true in Hsame.
    assert (deps_of s' = deps_of (ui w)) as Hdep by (rewrite Hd in Hsame; congruence).
    rewrite app_nil_r. split_and!; [done|done|done| |].
    + left. by rewrite Ht, Htab, (Hq Hdep).
    + by rewrite Hl, Hload.
  - apply bool_decide_eq_false in Hsame.
    assert (rs = []) as ->.
    { destruct rs as [|r rs]; [done|]. exfalso. apply Hsame. rewrite Hd, Hrs; done. }
    cbn. split_and!; first [done | by repeat constructor | intros; right; by constructor].
Qed.

(** Answer the oldest request of a concrete pool of fresh ids. *)
Local Ltac drain_head :=
  match goal with |- context [drain_one ?c0 ?w0] =>
    rewrite (drain_one_head c0 w0 _ _ _ eq_refl);
    [|cbn; repeat constructor; first [intros ?%list_elem_of_singleton; lia | apply not_elem_of_nil]|reflexivity] end.

Lemma three_events (w : World) t st :
  w.(inflight) = [] -> w.(deps) = Some (deps_of w.(ui)) -> st <> w.(ui).(searchTerm) ->
  let u1 := setIsDeleteDialogOpen true (setTaskToDelete (Some t) w.(ui)) in
  let u2 := setIsDeleteDialogOpen false u1 in
  let q1 := mkQuery w.(ui).(filters) st w.(ui).(page) in
  dispatch w (ClickDelete t) = mkWorld u1 w.(deps) [] w.(next_id) /\
  dispatch (dispatch w (ClickDelete t)) ClickContinue =
    mkWorld u2 w.(deps) [(w.(next_id), DeleteReq t.(_id) (API +:+ "/" +:+ t.(_id)) (query_of w.(ui)))]
      (S w.(next_id)) /\
  dispatch (dispatch (dispatch w (ClickDelete t)) ClickContinue) (TypeSearch st) =
  mkWorld (setError None (setLoading true (setSearchTerm st u2)))
    (Some (deps_of (setSearchTerm st u2)))
    [(w.(next_id), DeleteReq t.(_id) (API +:+ "/" +:+ t.(_id)) (query_of w.(ui)));
     (S w.(next_id), ListReq q1 (tasks_url q1))] (S (S w.(next_id))).
Proof.
  intros Hnil Hd Hst u1 u2 q1.
  assert (dispatch w (ClickDelete t) = mkWorld u1 w.(deps) [] w.(next_id)) as E1.
  { unfold dispatch. replace (run_hook (handle (ClickDelete t)) (ui w)) with (u1, @nil Req) by reflexivity.
    rewrite commit_synced by (rewrite Hd; reflexivity). by rewrite Hnil. }
  assert (dispatch (mkWorld u1 w.(deps) [] w.(next_id)) ClickContinue =
    mkWorld u2 w.(deps) [(w.(next_id), DeleteReq t.(_id) (API +:+ "/" +:+ t.(_id)) (query_of w.(ui)))]
      (S w.(next_id))) as E2.
  { unfold dispatch. cbn [ui].
    replace (run_hook (handle ClickContinue) u1)
      with (u2, [DeleteReq t.(_id) (API +:+ "/" +:+ t.(_id)) (query_of w.(ui))]) by reflexivity.
    rewrite commit_synced by (cbn; rewrite Hd; reflexivity). reflexivity. }
  rewrite E1, E2. split_and!; [done|done|].
  unfold dispatch, commit. cbn [ui deps inflight next_id].
  replace (run_hook (handle (TypeSearch st)) u2) with (setSearchTerm st u2, @nil Req) by reflexivity.
  cbn [issue]. rewrite bool_decide_eq_false_2 by (rewrite Hd; unfold deps_of; cbn; intros [=]; done).
  rewrite run_fetchTasks. reflexivity.
Qed.

(** C33: interleaving breaks the refinement even when the server answers
    in order.  From a settled page, delete a listed task and, before
    the delete is answered, type a new search; answering everything
    oldest first, the delete's continuation refetches the query captured
    at Continue, whose answer arrives last: the page ends with nothing
    pending and the new search in its box, but shows the collection's
    answer to the old query, so it is settled only when the two queries
    happen to have the same answer. *)
Theorem interleaved_delete_refetches_old_query c w t st c' :
  settled c w -> w.(ui).(isDeleteDialogOpen) = false -> t ∈ w.(ui).(tasks) ->
  st <> w.(ui).(searchTerm) -> delete_task c t.(_id) = Some c' ->
  let w3 := dispatch (dispatch (dispatch w (ClickDelete t)) ClickContinue) (TypeSearch st) in
  let r := drain (weight w3.(inflight)) c w3 in
  star step w r.2 /\ r.1 = c' /\ r.2.(inflight) = [] /\
  query_of r.2.(ui) = mkQuery w.(ui).(filters) st w.(ui).(page) /\
  r.2.(ui).(tasks) = list_tasks c' (query_of w.(ui)) /\
  (settled c' r.2 <-> list_tasks c' (query_of w.(ui)) = list_tasks c' (query_of r.2.(ui))).
Proof.
  intros (Hnil & Hd & Htab & Hload) Hdlg Ht Hst Hdel. cbn zeta.
  destruct (three_events w t st Hnil Hd Hst) as (E1 & E2 & E3).
  assert (star step w (dispatch (dispatch (dispatch w (ClickDelete t)) ClickContinue) (TypeSearch st))) as Hw3.
  { apply (star_step _ _ (dispatch w (ClickDelete t))).
    { constructor. unfold enabled. rewrite Hdlg, Hload. cbn. by rewrite bool_decide_eq_true_2. }
    apply (star_step _ _ (dispatch (dispatch w (ClickDelete t)) ClickContinue)).
    { constructor. by rewrite E1. }
    eapply star_step; [|apply star_refl]. constructor. by rewrite E2. }
  rewrite E3 in Hw3 |- *. replace (weight _) with 3 by reflexivity.
  split; [apply (star_trans _ _ _ _ Hw3), drain_star|].
  cbn [drain].
  drain_head.
  rewrite Hdel. cbn [drain].
  drain_head.
  cbn [drain].
  drain_head.
  cbn. split_and!; [done|done|done|done|].
  unfold settled; cbn. split; [intros (_ & _ & ? & _); done|intros ?; by split_and!].
Qed.
End Proofs.

Lemma reachable_before_drain : reachable before_drain.
Proof.
  apply (run_actions_reachable settled0.2
           [User (ClickDelete task_a); User ClickContinue; User (TypeSearch "Buy")]);
    [apply drain_star|vm_compute; reflexivity].
Qed.

(** C31: from any reachable state of the list page, answering the
    requests in flight oldest first, with fuel their weight, leaves none
    pending; every answer is a step of the page, so the result is
    reachable. *)
Theorem drain_terminates c w :
  reachable w ->
  let r := drain (weight w.(inflight)) c w in r.2.(inflight) = [] /\ reachable r.2.
Proof.
  intros Hr. destruct (tasklist_inv_reachable w Hr) as (Hd & _ & Hp). destruct Hp as [Hf _].
  destruct (drain_ind _ pool_synced_step (fun _ _ H => H) (weight w.(inflight)) c w (conj Hf Hd) (le_n _))
    as (_ & Hnil & Hs & _).
  split; [exact Hnil|]. by apply (star_trans _ _ w).
Qed.

(** C32: sequential use refines the abstract page.  From a settled page
    (nothing pending, the table is the collection's answer to the
    current query), a user event followed by answering everything it
    started, oldest first, settles the page again on the collection as
    the deletes left it, with the query the event set, by steps of the
    page. *)
Theorem sequential_refinement c w ev :
  settled c w ->
  let r := use c w ev in
  settled r.1 r.2 /\ query_of r.2.(ui) = query_of (dispatch w ev).(ui) /\ star step (dispatch w ev) r.2.
Proof.
  intros Hs. unfold use.
  destruct (drain_ind drain_inv drain_inv_step drain_inv_ok (weight (dispatch w ev).(inflight)) c
              (dispatch w ev) (dispatch_drain_inv c w ev Hs) (le_n _))
    as ((_ & Hd & _ & Htab & Hload) & Hnil & Hstar & Hq).
  rewrite Hnil in Htab, Hload. unfold has_list in Htab, Hload. cbn [map] in Htab, Hload.
  assert (Exists (fun r => match r with ListReq _ _ => True | _ => False end) [] -> False) as Hno
    by inversion 1.
  unfold settled. split_and!; try done.
  - by destruct Htab as [?|?%Hno].
  - destruct (loading _); [|done]. by destruct (Hno (Hload eq_refl)).
Qed.

Lemma drain_terminates_witness :
  reachable before_drain /\
  (drain (weight before_drain.(inflight)) collection0 before_drain).2.(inflight) = [] /\
  reachable (drain (weight before_drain.(inflight)) collection0 before_drain).2.
Proof.
  split; [apply reachable_before_drain|].
  apply (drain_terminates collection0 before_drain reachable_before_drain).
Defined.

Lemma sequential_refinement_witness :
  settled settled0.1 settled0.2 /\
  settled (use settled0.1 settled0.2 (TypeSearch "Buy")).1 (use settled0.1 settled0.2 (TypeSearch "Buy")).2.
Proof.
  assert (settled settled0.1 settled0.2) as Hs by (vm_compute; auto).
  split; [exact Hs|]. apply (sequential_refinement settled0.1 settled0.2 (TypeSearch "Buy") Hs).
Defined.

Lemma interleaved_delete_refetches_old_query_witness :
  settled collection0 settled0.2 /\ settled0.2.(ui).(isDeleteDialogOpen) = false /\
  task_a ∈ settled0.2.(ui).(tasks) /\ "Buy" <> settled0.2.(ui).(searchTerm) /\
  delete_task collection0 task_a.(_id) = Some [task_b; task_c] /\
  let w3 := dispatch (dispatch (dispatch settled0.2 (ClickDelete task_a)) ClickContinue) (TypeSearch "Buy") in
  let r := drain (weight w3.(inflight)) collection0 w3 in
  r.2.(ui).(tasks) = [task_b; task_c] /\ ~ settled [task_b; task_c] r.2.
Proof.
  assert (settled collection0 settled0.2) as Hs by (vm_compute; auto).
  assert (task_a ∈ settled0.2.(ui).(tasks)) as Ht by (apply (bool_decide_unpack _); vm_compute; reflexivity).
  assert ("Buy" <> settled0.2.(ui).(searchTerm)) as Hst by (vm_compute; discriminate).
  assert (delete_task collection0 task_a.(_id) = Some [task_b; task_c]) as Hdel by (vm_compute; reflexivity).
  split_and!; [exact Hs|vm_compute; reflexivity|exact Ht|exact Hst|exact Hdel|]. cbn zeta.
  destruct (interleaved_delete_refetches_old_query collection0 settled0.2 task_a "Buy" [task_b; task_c]
              Hs ltac:(vm_compute; reflexivity) Ht Hst Hdel) as (_ & _ & _ & Hq & Htab & Hset).
  split; [rewrite Htab; vm_compute; reflexivity|].
  rewrite Hset, Hq. vm_compute. discriminate.
Defined.

End TaskListRefine.
