(* ===== verification/Theme.v ===== *)
(** * The theme preference ([components/theme-provider.js],
      [components/header.js])

    [ThemeProvider] keeps the theme in a [useState] (initially
    ['light'], line 13); its mount effect (lines 16-21) reads
    [localStorage] and the [prefers-color-scheme] media query and calls
    [setTheme] (lines 23-31), which persists the value, updates the state
    and adds or removes the [dark] class of the document root.  The
    header's [ThemeToggleButton] (lines 10-31 of [header.js]) renders a
    placeholder until its own mount effect has run, then a button that
    calls [setTheme] with the other theme.

    The browser is a [Browser] record: [localStorage] as a [gmap], the
    class list of [document.documentElement] as a list without
    duplicates (a [DOMTokenList]), and the media query ([None] when
    [window.matchMedia] is missing).  [setTheme] is a [Hook] on the theme
    that emits the three browser calls in program order.

    The React context is the class [ThemeContext]: the value a consumer
    reads ([theme], [setTheme]).  The provider is one instance; the
    default value of [createContext] (lines 5-8) is another.  The toggle
    is written against the class, and its theorems are proved from the
    law [ctx_set_get] that the provider satisfies and the default value
    does not. *)

From stdpp Require Import gmap.
From S2P Require Import Prelude.

Module Theme.

(** ** The browser *)

Record Browser := mkBrowser {
  storage : gmap string string;
  classes : list string;
  matchMedia : option bool;
}.

(** [classList.add] and [classList.remove] on a [DOMTokenList]. *)
Definition class_add (c : string) (l : list string) : list string :=
  if bool_decide (c ∈ l) then l else l ++ [c].
Definition class_remove (c : string) (l : list string) : list string :=
  List.filter (fun x => bool_decide (x <> c)) l.

(** The browser calls [setTheme] makes. *)
Inductive Eff :=
| SetItem (key value : string)
| ClassAdd (c : string)
| ClassRemove (c : string).

#[export] Instance Eff_eq_dec : EqDecision Eff.
Proof. solve_decision. Defined.

Definition apply_eff (b : Browser) (e : Eff) : Browser :=
  match e with
  | SetItem k v => mkBrowser (<[k := v]> b.(storage)) b.(classes) b.(matchMedia)
  | ClassAdd c => mkBrowser b.(storage) (class_add c b.(classes)) b.(matchMedia)
  | ClassRemove c => mkBrowser b.(storage) (class_remove c b.(classes)) b.(matchMedia)
  end.

Definition apply_effs (b : Browser) (es : list Eff) : Browser := foldl apply_eff b es.

(** ** [ThemeProvider] *)

(** [setTheme] (lines 23-31), on the provider's [theme] state. *)
Definition setTheme (newTheme : string) : Hook string Eff unit :=
  emit (SetItem "theme" newTheme) ;;
  set_state (fun _ => newTheme) ;;
  if bool_decide (newTheme = "dark") then emit (ClassAdd "dark") else emit (ClassRemove "dark").

(** [savedTheme || (prefersDark ? 'dark' : 'light')] (lines 17-19);
    [prefersDark] is [undefined], hence falsy, without [matchMedia]. *)
Definition initialTheme (b : Browser) : string :=
  js_or_str (b.(storage) !! "theme") (if default false b.(matchMedia) then "dark" else "light").

(** The mount effect (lines 16-21). *)
Definition mount_effect (b : Browser) : Hook string Eff unit := setTheme (initialTheme b).

(** ** The context a consumer reads *)

Class ThemeContext (S : Type) := {
  ctx_theme : S -> string;
  ctx_setTheme : string -> Hook S Eff unit;
}.

(** What the provider promises its consumers: [setTheme v] makes [v]
    the theme they read. *)
Class ThemeContextLaws (S : Type) `{ThemeContext S} :=
  ctx_set_get : forall v s, ctx_theme (run_hook (ctx_setTheme v) s).1 = v.

(** [<ThemeContext.Provider value={{ theme, setTheme }}>] (line 34). *)
#[export] Instance provider_ctx : ThemeContext string := {
  ctx_theme := fun t => t;
  ctx_setTheme := setTheme;
}.

(** The default value of [createContext] (lines 5-8), read by a
    consumer with no provider above it. *)
#[export] Instance default_ctx : ThemeContext unit := {
  ctx_theme := fun _ => "system";
  ctx_setTheme := fun _ => mret tt;
}.

(** ** [ThemeToggleButton] *)

(** The [onClick] of line 25 of [header.js]. *)
Definition toggle_click {S} `{ThemeContext S} : Hook S Eff unit :=
  s ← get_state;
  ctx_setTheme (if bool_decide (ctx_theme s = "dark") then "light" else "dark").

Inductive Icon := Moon | Sun.

Inductive ToggleView := Placeholder | ToggleButton (icon : Icon).

(** Lines 16-30 of [header.js]. *)
Definition toggle_view {S} `{ThemeContext S} (mounted : bool) (s : S) : ToggleView :=
  if mounted then ToggleButton (if bool_decide (ctx_theme s = "light") then Moon else Sun)
  else Placeholder.

(** ** The page: provider, toggle and browser *)

Record World := mkWorld {
  theme : string;
  mounted : bool;
  browser : Browser;
}.

(** The first render, before any effect: [useState('light')] and
    [useState(false)]. *)
Definition first_render (b : Browser) : World := mkWorld "light" false b.

(** The effects after the first commit, the child's first: the toggle's
    [setMounted(true)] (line 14 of [header.js]), then the provider's
    mount effect. *)
Definition mount (b : Browser) : World :=
  let '(t, es) := run_hook (mount_effect b) "light" in
  mkWorld t true (apply_effs b es).

(** A click on the toggle, possible once it is mounted. *)
Definition click (w : World) : option World :=
  if w.(mounted) then
    let '(t, es) := run_hook toggle_click w.(theme) in
    Some (mkWorld t w.(mounted) (apply_effs w.(browser) es))
  else None.

Inductive step : World -> World -> Prop :=
| step_click w w' : click w = Some w' -> step w w'.

Definition reachable (b : Browser) (w : World) : Prop := star step (mount b) w.

(** Loading the page again: [localStorage] survives, the document
    starts from its served classes [b.(classes)], and the media query may
    have changed to [m]. *)
Definition reload (b : Browser) (w : World) (m : option bool) : World :=
  mount (mkBrowser w.(browser).(storage) b.(classes) m).

(** What the page leaves of the browser [b] it started from: every
    other key and class as they were, no duplicate class, the same media
    query. *)
Definition frame (b bw : Browser) : Prop :=
  (forall k, k <> "theme" -> bw.(storage) !! k = b.(storage) !! k) /\
  (forall c, c <> "dark" -> c ∈ bw.(classes) <-> c ∈ b.(classes)) /\
  NoDup bw.(classes) /\ bw.(matchMedia) = b.(matchMedia).

(** The theme, the stored value and the [dark] class agree. *)
Definition synced (b : Browser) (w : World) : Prop :=
  frame b w.(browser) /\
  w.(browser).(storage) !! "theme" = Some w.(theme) /\
  ("dark" ∈ w.(browser).(classes) <-> w.(theme) = "dark") /\
  w.(mounted) = true.

(** Browsers for the concrete runs: nothing stored and a dark OS
    preference; a stored value that is not a theme. *)
Definition browser_dark_pref : Browser := mkBrowser ∅ ["antialiased"] (Some true).
Definition browser_blue : Browser := mkBrowser {[ "theme" := "blue" ]} [] None.
Definition toggled_world : World :=
  default (mount browser_dark_pref) (click (mount browser_dark_pref)).

Lemma run_setTheme v s :
  run_hook (setTheme v) s =
  (v, [SetItem "theme" v; if bool_decide (v = "dark") then ClassAdd "dark" else ClassRemove "dark"]).
Proof. unfold setTheme. hook_unfold. cbn. by case_bool_decide. Qed.

Lemma run_toggle_click {S} `{ThemeContext S} s :
  run_hook toggle_click s =
  run_hook (ctx_setTheme (if bool_decide (ctx_theme s = "dark") then "light" else "dark")) s.
Proof.
  unfold toggle_click. rewrite run_hook_bind. cbn.
  by destruct (run_hook _ s).
Qed.

#[export] Instance provider_laws : ThemeContextLaws string.
Proof. intros v s. cbn. by rewrite run_setTheme. Qed.

Lemma class_add_spec c l :
  NoDup l -> NoDup (class_add c l) /\ (forall x, x ∈ class_add c l <-> x = c \/ x ∈ l).
Proof.
  intros Hl. unfold class_add. case_bool_decide as Hc.
  - split; [done|]. intros x. split; [by right|]. by intros [->|].
  - split.
    + apply NoDup_app. split_and!; [done| |by apply NoDup_singleton].
      intros x Hx ->%list_elem_of_singleton. done.
    + intros x. rewrite elem_of_app, list_elem_of_singleton. tauto.
Qed.

Lemma class_remove_spec c l :
  NoDup l -> NoDup (class_remove c l) /\ (forall x, x ∈ class_remove c l <-> x <> c /\ x ∈ l).
Proof.
  intros Hl. unfold class_remove. split; [apply NoDup_ListNoDup, List.NoDup_filter, NoDup_ListNoDup, Hl|].
  intros x. rewrite !list_elem_of_In, filter_In, bool_decide_eq_true. tauto.
Qed.

Lemma frame_setTheme b bw v s :
  frame b bw ->
  let bw' := apply_effs bw (run_hook (setTheme v) s).2 in
  frame b bw' /\ bw'.(storage) !! "theme" = Some v /\ ("dark" ∈ bw'.(classes) <-> v = "dark").
Proof.
  intros (Hk & Hc & Hnd & Hm). rewrite run_setTheme. cbn.
  assert (forall k, k <> "theme" -> <[ "theme" := v ]> (storage bw) !! k = storage b !! k) as Hk'
    by (intros k ?; rewrite lookup_insert_ne by congruence; by apply Hk).
  case_bool_decide as Hv; cbn;
    [destruct (class_add_spec "dark" (classes bw) Hnd) as [Hnd' Hin]
    |destruct (class_remove_spec "dark" (classes bw) Hnd) as [Hnd' Hin]];
    (unfold frame; split_and!; try done; [intros c ?; rewrite Hin, <- Hc by done; tauto
                           |by rewrite lookup_insert_eq|rewrite Hin; intuition congruence]).
Qed.

Lemma frame_refl b : NoDup b.(classes) -> frame b b.
Proof. intros Hnd. by split_and!. Qed.

Lemma mount_synced b : NoDup b.(classes) -> synced b (mount b).
Proof.
  intros Hnd. unfold mount, mount_effect.
  pose proof (frame_setTheme b b (initialTheme b) "light" (frame_refl b Hnd)) as Hs.
  rewrite run_setTheme in Hs |- *. cbn zeta in Hs. by split_and!; try apply Hs.
Qed.

Lemma click_synced b w w' : synced b w -> click w = Some w' -> synced b w'.
Proof.
  intros (Hf & _ & _ & Hm) Hc. unfold click in Hc. rewrite Hm in Hc.
  rewrite run_toggle_click in Hc. cbn [ctx_setTheme ctx_theme provider_ctx] in Hc.
  set (v := if bool_decide _ then _ else _) in Hc.
  pose proof (frame_setTheme b (browser w) v (theme w) Hf) as Hs.
  rewrite run_setTheme in Hs, Hc. cbn zeta in Hs. injection Hc as <-. by split_and!; try apply Hs.
Qed.

Lemma synced_reachable b w : NoDup b.(classes) -> reachable b w -> synced b w.
Proof.
  intros Hnd Hr. eapply star_invariant; [|apply mount_synced, Hnd|exact Hr].
  intros x y Hx Hs. revert Hx. destruct Hs as [x' y' Hc]. intros Hx. by apply (click_synced b x').
Qed.

(** C23: in every state reachable from loading the page in a browser
    [b] (whose class list has no duplicate), the stored ["theme"], the
    provider's [theme] and the [dark] class of the document root agree,
    and no other key, class or media query has been touched. *)
Theorem reachable_synced b w : NoDup b.(classes) -> reachable b w -> synced b w.
Proof. intros Hnd Hr. exact (synced_reachable b w Hnd Hr). Qed.

Section Toggle.
Context {S : Type} `{ThemeContextLaws S}.

(** C24: for any context satisfying the provider's law, a click on the
    toggle sets the theme to ['light'] when it was ['dark'] and to
    ['dark'] otherwise, so it is ['dark'] afterwards exactly when it was
    not before. *)
Theorem toggle_flips s :
  let s' := (run_hook toggle_click s).1 in
  ctx_theme s' = (if bool_decide (ctx_theme s = "dark") then "light" else "dark") /\
  (ctx_theme s' = "dark" <-> ctx_theme s <> "dark").
Proof.
  cbn zeta. rewrite run_toggle_click, ctx_set_get.
  case_bool_decide; split; try done; intros; congruence.
Qed.

End Toggle.

Lemma default_toggle_noop : run_hook (toggle_click (S := unit)) tt = (tt, []).
Proof. reflexivity. Qed.

(** The default value of [createContext], which a toggle outside
    the provider reads, breaks the provider's law: its [setTheme] does
    nothing and its theme stays ['system']. *)
Lemma default_ctx_not_lawful : ~ ThemeContextLaws unit.
Proof. intros Hl. specialize (Hl "dark" tt). cbn in Hl. discriminate. Qed.

Lemma filter_eq_NoDup (x : string) l :
  NoDup l -> x ∈ l -> List.filter (fun c => bool_decide (c = x)) l = [x].
Proof.
  induction 1 as [|y l Hy Hnd IH]; [by intros ?%not_elem_of_nil|].
  intros [->|Hin]%elem_of_cons; cbn; case_bool_decide; try done.
  - f_equal. clear IH. induction l as [|z l IHl]; [done|]. cbn.
    apply not_elem_of_cons in Hy as [? ?]. case_bool_decide; [congruence|].
    apply NoDup_cons in Hnd as [_ ?]. by apply IHl.
  - subst. done.
  - by apply IH.
Qed.

Lemma mount_theme b : (mount b).(theme) = initialTheme b.
Proof. unfold mount, mount_effect. by rewrite run_setTheme. Qed.

Lemma initialTheme_nonempty b : initialTheme b <> "".
Proof. apply js_or_str_nonempty. by destruct (default false _). Qed.

Lemma reachable_theme b w (P : string -> Prop) :
  P (initialTheme b) -> P "light" -> P "dark" -> reachable b w -> P w.(theme).
Proof.
  intros Hi Hl Hd Hr. eapply (star_invariant _ (fun w => P w.(theme))); [|by rewrite mount_theme|exact Hr].
  intros x y _ Hs. destruct Hs as [x' y' Hc]. unfold click in Hc.
  destruct (mounted x'); [|done]. rewrite run_toggle_click in Hc. cbn in Hc.
  rewrite run_setTheme in Hc. injection Hc as <-. cbn. by case_bool_decide.
Qed.

(** After the mount effect the theme is the stored value when it is
    a non-empty string, otherwise ['dark'] exactly when [matchMedia]
    exists and reports a dark preference; and that theme is written to
    [localStorage]. *)
Theorem mount_initial_theme b :
  let fallback := if bool_decide (b.(matchMedia) = Some true) then "dark" else "light" in
  (mount b).(theme) = match b.(storage) !! "theme" with
                      | Some t => if bool_decide (t = "") then fallback else t
                      | None => fallback
                      end /\
  (mount b).(browser).(storage) = <[ "theme" := (mount b).(theme) ]> b.(storage).
Proof.
  cbn zeta. unfold mount, mount_effect. rewrite run_setTheme. cbn. split.
  - unfold initialTheme. assert ((if default false (matchMedia b) then "dark" else "light") =
      if bool_decide (matchMedia b = Some true) then "dark" else "light") as ->
      by (destruct (matchMedia b) as [[]|]; done).
    destruct (_ !! _) as [t|]; [|done]. cbn. destruct (String.eqb_spec t "") as [He|He];
      [rewrite (bool_decide_eq_true_2 _ He) | rewrite (bool_decide_eq_false_2 _ He)]; done.
  - by case_bool_decide.
Qed.

(** The spec's scenario: with nothing stored and a dark OS
    preference, the page starts dark, the mount effect adds the [dark]
    class exactly once, the class list holds it once, and ['dark'] is
    persisted. *)
Theorem dark_preference_scenario b :
  b.(storage) !! "theme" = None -> b.(matchMedia) = Some true -> NoDup b.(classes) ->
  let es := (run_hook (mount_effect b) "light").2 in
  (mount b).(theme) = "dark" /\
  List.filter (fun e => bool_decide (e = ClassAdd "dark")) es = [ClassAdd "dark"] /\
  List.filter (fun c => bool_decide (c = "dark")) (mount b).(browser).(classes) = ["dark"] /\
  (mount b).(browser).(storage) !! "theme" = Some "dark".
Proof.
  intros Hs Hm Hnd. cbn zeta.
  assert (initialTheme b = "dark") as Hi by (unfold initialTheme; by rewrite Hs, Hm).
  destruct (mount_synced b Hnd) as ((_ & _ & Hnd' & _) & Hst & Hdark & _).
  rewrite mount_theme, Hi in *. unfold mount_effect. rewrite Hi, run_setTheme.
  split_and!; try done. by apply filter_eq_NoDup, Hdark.
Qed.

(** C27: the mount effect persists the theme it derived, so a reload
    from any reachable state restores that theme whatever the OS
    preference has become, with the [dark] class to match. *)
Theorem reload_restores_theme b w m :
  NoDup b.(classes) -> reachable b w ->
  (reload b w m).(theme) = w.(theme) /\
  ("dark" ∈ (reload b w m).(browser).(classes) <-> w.(theme) = "dark").
Proof.
  intros Hnd Hr. destruct (synced_reachable b w Hnd Hr) as (_ & Hst & _).
  assert (w.(theme) <> "") as Hne
    by (apply (reachable_theme b w (fun t => t <> "")); [apply initialTheme_nonempty|done|done|done]).
  assert ((reload b w m).(theme) = w.(theme)) as Ht.
  { unfold reload. rewrite mount_theme. unfold initialTheme. cbn. rewrite Hst. by apply js_or_str_truthy. }
  split; [done|]. rewrite <- Ht.
  by destruct (mount_synced (mkBrowser (storage (browser w)) (classes b) m) Hnd) as (_ & _ & ? & _).
Qed.

(** When the stored value is absent, empty, ['light'] or
    ['dark'], the theme is ['light'] or ['dark'] in every reachable
    state. *)
Theorem reachable_theme_valid b w :
  (forall t, b.(storage) !! "theme" = Some t -> t = "" \/ t = "light" \/ t = "dark") ->
  reachable b w -> w.(theme) = "light" \/ w.(theme) = "dark".
Proof.
  intros Hv. apply (reachable_theme b w (fun t => t = "light" \/ t = "dark")); [|by left|by right].
  unfold initialTheme. destruct (b.(storage) !! "theme") as [t|] eqn:Ht;
    [destruct (Hv t eq_refl) as [->|[->| ->]]|]; cbn; by destruct (default false b.(matchMedia)); auto.
Qed.

(** C29: any other stored string becomes the theme as it is: the root
    gets no [dark] class, the toggle shows the Sun icon of the dark
    theme, and a click switches to ['dark']. *)
Theorem stored_value_unchecked b t :
  b.(storage) !! "theme" = Some t -> t <> "" -> t <> "light" -> t <> "dark" ->
  (mount b).(theme) = t /\ ("dark" ∉ (mount b).(browser).(classes)) /\
  toggle_view (mount b).(mounted) (mount b).(theme) = ToggleButton Sun /\
  option_map theme (click (mount b)) = Some "dark".
Proof.
  intros Hs He Hl Hd.
  assert ((mount b).(theme) = t) as Ht by (rewrite mount_theme; unfold initialTheme; rewrite Hs; by apply js_or_str_truthy).
  unfold mount, mount_effect in *. rewrite run_setTheme in Ht |- *. cbn in Ht |- *. subst t.
  rewrite (bool_decide_eq_false_2 _ Hd). cbn.
  split_and!; [done| |by rewrite (bool_decide_eq_false_2 _ Hl)|].
  - unfold class_remove. rewrite list_elem_of_In, filter_In, bool_decide_eq_true. tauto.
  - unfold click. cbn. rewrite run_toggle_click. cbn. rewrite (bool_decide_eq_false_2 _ Hd).
    by rewrite run_setTheme.
Qed.

Lemma reachable_toggled_world : reachable browser_dark_pref toggled_world.
Proof. apply (star_right _ _ (mount browser_dark_pref)); [apply star_refl|]. constructor. reflexivity. Qed.

Lemma reachable_synced_witness :
  reachable browser_dark_pref toggled_world /\ synced browser_dark_pref toggled_world.
Proof.
  split; [apply reachable_toggled_world|].
  apply (reachable_synced browser_dark_pref toggled_world); [apply NoDup_singleton|apply reachable_toggled_world].
Defined.

Lemma toggle_flips_witness :
  ctx_theme (run_hook toggle_click "dark").1 = "light" /\ (ctx_theme (run_hook toggle_click "dark").1 = "dark" <-> "dark" <> "dark").
Proof.
  destruct (toggle_flips (S := string) "dark") as [H1 H2]. cbn zeta in H1, H2.
  rewrite bool_decide_eq_true_2 in H1 by reflexivity. split; [exact H1|exact H2].
Defined.

Lemma dark_preference_scenario_witness :
  (mount browser_dark_pref).(theme) = "dark" /\
  List.filter (fun e => bool_decide (e = ClassAdd "dark")) (run_hook (mount_effect browser_dark_pref) "light").2 =
    [ClassAdd "dark"] /\
  List.filter (fun c => bool_decide (c = "dark")) (mount browser_dark_pref).(browser).(classes) = ["dark"] /\
  (mount browser_dark_pref).(browser).(storage) !! "theme" = Some "dark".
Proof. apply (dark_preference_scenario browser_dark_pref); [reflexivity|reflexivity|apply NoDup_singleton]. Defined.

Lemma reload_restores_theme_witness :
  (reload browser_dark_pref toggled_world (Some true)).(theme) = "light" /\
  ("dark" ∈ (reload browser_dark_pref toggled_world (Some true)).(browser).(classes) <-> "light" = "dark").
Proof.
  apply (reload_restores_theme browser_dark_pref toggled_world (Some true));
    [apply NoDup_singleton|apply reachable_toggled_world].
Defined.

Lemma reachable_theme_valid_witness :
  toggled_world.(theme) = "light" \/ toggled_world.(theme) = "dark".
Proof.
  apply (reachable_theme_valid browser_dark_pref toggled_world); [|apply reachable_toggled_world].
  intros t Ht. discriminate.
Defined.

Lemma stored_value_unchecked_witness :
  (mount browser_blue).(theme) = "blue" /\ ("dark" ∉ (mount browser_blue).(browser).(classes)) /\
  toggle_view (mount browser_blue).(mounted) (mount browser_blue).(theme) = ToggleButton Sun /\
  option_map theme (click (mount browser_blue)) = Some "dark".
Proof. apply (stored_value_unchecked browser_blue "blue"); [reflexivity|discriminate..]. Defined.

End Theme.
