(* ===== verification/App.v ===== *)
(** * The app: routes, links and the header

    Next.js's App Router serves each [page.js] under [src/app] at the
    path its folders spell: [app/page.js] ([Dashboard]) at [/],
    [app/tasks/page.js] ([TasksPage]) at [/tasks] and
    [app/tasks/edit/[id]/page.js] ([EditTaskPage]) at [/tasks/edit/<id>],
    the dynamic segment [[id]] reaching the page as [useParams().id]
    (lines 20-21 of the edit page).  [resolve] is that routing on the
    paths the pages link to, without query or fragment; a path with no
    page under [src/app] resolves to [None].

    The pages reach one another through the header's home link
    ([Header], [components/header.js]), the dashboard's anchors, the
    list page's [Link]s (Add Task and one Edit link per row) and the
    edit page's [router.push('/tasks')].  [edit_link_loads_listed_task]
    composes the list page, the router, the edit page and the task
    collection: the Edit link of a row of a settled list opens the edit
    page whose first request is the GET of that row's task, and the
    collection's answer seeds the form with it.  The id reaches the page
    as it is written in the link when it holds no [/], [?], [#] or [%]
    ([plain_id]), which the collection's ids (hexadecimal) satisfy;
    percent-decoding by the router is not modelled. *)

From S2P Require Import Prelude.
From S2P Require Import Task.
From S2P Require Import TaskList.
From S2P Require Import Collection.
From S2P Require Import TaskListRefine.
From S2P Require Import EditTask.
From S2P Require Import Dashboard.
From S2P Require Import Theme.

Module App.

(** ** Routes *)

Inductive Route := RDashboard | RTasks | REdit (id : string).

#[export] Instance Route_eq_dec : EqDecision Route.
Proof. solve_decision. Defined.

(** The segments of a path after its leading [/]. *)
Fixpoint split_path (s : string) : list string :=
  match s with
  | EmptyString => [EmptyString]
  | String c r =>
      if Ascii.eqb c "/" then EmptyString :: split_path r
      else match split_path r with
           | seg :: segs => String c seg :: segs
           | [] => [String c EmptyString]
           end
  end.

(** The page a path is served by: [app/page.js], [app/tasks/page.js],
    [app/tasks/edit/[id]/page.js] with a non-empty [id]. *)
Definition resolve (path : string) : option Route :=
  match path with
  | String c rest =>
      if Ascii.eqb c "/" then
        match split_path rest with
        | [seg] =>
            if String.eqb seg "" then Some RDashboard
            else if String.eqb seg "tasks" then Some RTasks else None
        | [s1; s2; id] =>
            if String.eqb s1 "tasks" && String.eqb s2 "edit" && js_truthy id then Some (REdit id)
            else None
        | _ => None
        end
      else None
  | EmptyString => None
  end.

(** An id that is one path segment, read back as written. *)
Definition plain_id (id : string) : bool :=
  js_truthy id &&
  forallb (fun c => negb (Ascii.eqb c "/" || Ascii.eqb c "?" || Ascii.eqb c "#" || Ascii.eqb c "%"))
    (String.list_ascii_of_string id).

(** ** The header *)

(** [Header] (header.js, lines 33-47): the home link and the theme
    toggle of the context it is rendered in. *)
Record HeaderView := mkHeaderView {
  home_href : string;
  brand : string;
  toggle : Theme.ToggleView;
}.

Definition Header {S} `{Theme.ThemeContext S} (mounted : bool) (s : S) : HeaderView :=
  mkHeaderView "/" "Task Manager" (Theme.toggle_view mounted s).

(** ** Where each page leads *)

Definition header_targets : list string := ["/"].

(** The dashboard's header anchors, Add Task and View All Tasks (lines
    98-103), and its Quick Actions, Add New Task and View All Tasks
    (lines 185-190). *)
Definition dashboard_header_targets : list string := ["/tasks/new"; "/tasks"].
Definition quick_action_targets : list string := ["/tasks/new"; "/tasks"].

(** Both are rendered with the dashboard's content only (after the
    [if (loading)] and [if (error)] returns). *)
Definition dashboard_targets (ds : Dashboard.State) : list string :=
  match Dashboard.view ds with
  | Dashboard.VContent => dashboard_header_targets ++ quick_action_targets
  | _ => []
  end.

(** The list page's Add Task link (line 120) and its rows' Edit links
    (line 189). *)
Definition tasks_targets (tz : Z) (s : TasksPage.State) : list string :=
  "/tasks/new" ::
  match TasksPage.table_body tz s with
  | TasksPage.Rows rows => map TasksPage.row_edit rows
  | _ => []
  end.

(** The edit page's navigations, from what it handed to the browser. *)
Definition edit_targets (log : list EditTaskPage.Eff) : list string :=
  omap (fun e => match e with EditTaskPage.Navigate p => Some p | _ => None end) log.

Definition app_targets (tz : Z) (ds : Dashboard.State) (s : TasksPage.State)
    (log : list EditTaskPage.Eff) : list string :=
  header_targets ++ dashboard_targets ds ++ tasks_targets tz s ++ edit_targets log.

(** ** Routing the links *)

Lemma split_path_segment id :
  forallb (fun c => negb (Ascii.eqb c "/")) (String.list_ascii_of_string id) = true ->
  split_path id = [id].
Proof.
  induction id as [|c id IH]; [done|]. cbn. intros [Hc Hid]%andb_prop.
  apply negb_true_iff in Hc. by rewrite Hc, IH.
Qed.

Lemma plain_id_segment id :
  plain_id id = true ->
  js_truthy id = true /\ forallb (fun c => negb (Ascii.eqb c "/")) (String.list_ascii_of_string id) = true.
Proof.
  unfold plain_id. intros [Ht Hall]%andb_prop. split; [done|].
  apply forallb_forall. intros c Hc. eapply forallb_forall in Hall; [|exact Hc].
  by destruct (Ascii.eqb c "/").
Qed.

Lemma resolve_edit id : plain_id id = true -> resolve ("/tasks/edit/" +:+ id) = Some (REdit id).
Proof.
  intros [Ht Hs]%plain_id_segment. unfold resolve. rewrite !string_app_cons, string_app_nil.
  simpl. rewrite (split_path_segment id Hs). simpl. by rewrite Ht.
Qed.

(** A constant target, or one of the list: it resolves, or it is
    [/tasks/new]. *)
Local Ltac const_targets Hp :=
  repeat (apply elem_of_cons in Hp as [->|Hp]; [first [left; by eexists | by right]|]);
  by apply not_elem_of_nil in Hp.

Lemma row_edit_resolves tz (ts : list Task) p :
  Forall (fun t => plain_id t.(_id) = true) ts ->
  p ∈ map TasksPage.row_edit (map (TasksPage.row_of tz) ts) ->
  exists t, t ∈ ts /\ p = "/tasks/edit/" +:+ t.(_id) /\ resolve p = Some (REdit t.(_id)).
Proof.
  intros Hplain Hp. apply list_elem_of_In, in_map_iff in Hp as (r & <- & Hr).
  apply in_map_iff in Hr as (t & <- & Ht%list_elem_of_In).
  exists t. split_and!; [done|done|]. apply resolve_edit. by eapply Forall_forall in Hplain.
Qed.

Lemma table_rows tz s t :
  s.(TasksPage.loading) = false -> t ∈ s.(TasksPage.tasks) ->
  TasksPage.table_body tz s = TasksPage.Rows (map (TasksPage.row_of tz) s.(TasksPage.tasks)).
Proof.
  intros Hl Ht. unfold TasksPage.table_body. rewrite Hl, bool_decide_eq_true_2; [done|].
  destruct (TasksPage.tasks s); [by apply not_elem_of_nil in Ht|cbn; lia].
Qed.

(** C10: every place a page of the app leads to (the header's home link,
    the dashboard's anchors, the list page's Add Task and Edit links,
    the edit page's navigations in any reachable state) is served by a
    page of [src/app], except [/tasks/new], the target of the Add Task
    links. *)
Theorem links_resolve tz ds s taskId w p :
  Forall (fun t => plain_id t.(_id) = true) s.(TasksPage.tasks) ->
  EditTaskPage.reachable taskId w ->
  p ∈ app_targets tz ds s w.(EditTaskPage.log) ->
  is_Some (resolve p) \/ p = "/tasks/new".
Proof.
  intros Hplain Hr Hp. unfold app_targets in Hp. rewrite !elem_of_app in Hp.
  destruct Hp as [Hp|[Hp|[Hp|Hp]]].
  - unfold header_targets in Hp. const_targets Hp.
  - unfold dashboard_targets, dashboard_header_targets, quick_action_targets in Hp.
    destruct (Dashboard.view ds); cbn in Hp; const_targets Hp.
  - unfold tasks_targets in Hp. apply elem_of_cons in Hp as [->|Hp]; [by right|].
    unfold TasksPage.table_body in Hp.
    destruct (TasksPage.loading s); [by apply not_elem_of_nil in Hp|].
    case_bool_decide; [|by apply not_elem_of_nil in Hp].
    destruct (row_edit_resolves tz _ p Hplain Hp) as (t & _ & _ & ->). left. by eexists.
  - apply list_elem_of_omap in Hp as (e & He & Hpe).
    pose proof (EditTaskPage.nav_ok_reachable taskId w Hr) as Hnav.
    eapply Forall_forall in Hnav; [|exact He].
    destruct e; simplify_eq. unfold EditTaskPage.nav_ok in Hnav. subst p. left. by eexists.
Qed.

Section WithCollection.
Context {C : Type} `{Collection.TaskCollectionLaws C}.

(** C21: the Edit link of a row of a settled list page (the table shows
    the collection's answer to its query) leads to the edit page for
    that row's task; the page's only request is the GET of that task,
    and the collection's answer to it shows the form seeded with the
    row's task. *)
Theorem edit_link_loads_listed_task (c : C) w tz t :
  Collection.coll_wf c -> TaskListRefine.settled c w -> t ∈ w.(TasksPage.ui).(TasksPage.tasks) ->
  plain_id t.(_id) = true ->
  let r := TasksPage.row_of tz t in
  (exists rows, TasksPage.table_body tz w.(TasksPage.ui) = TasksPage.Rows rows /\ r ∈ rows) /\
  resolve r.(TasksPage.row_edit) = Some (REdit t.(_id)) /\
  (EditTaskPage.mount t.(_id)).(EditTaskPage.inflight) = [(0, EditTaskPage.GetReq)] /\
  (EditTaskPage.mount t.(_id)).(EditTaskPage.log) = [EditTaskPage.GetTask (EditTaskPage.task_url t.(_id))] /\
  exists w', EditTaskPage.deliver (EditTaskPage.mount t.(_id)) 0
               (EditTaskPage.GetArrives (Collection.serve_get c t.(_id))) = Some w' /\
    EditTaskPage.view w'.(EditTaskPage.ui) = EditTaskPage.VForm /\
    w'.(EditTaskPage.ui).(EditTaskPage.task) = Some t /\
    w'.(EditTaskPage.ui).(EditTaskPage.formData) =
      EditTaskPage.mkForm t.(title) t.(description) t.(status) t.(priority) (js_or_str t.(due_date) "").
Proof.
  intros Hwf (_ & _ & Htab & Hload) Ht Hplain r.
  pose proof (plain_id_segment _ Hplain) as [Htr _]. subst r.
  split_and!.
  - exists (map (TasksPage.row_of tz) w.(TasksPage.ui).(TasksPage.tasks)).
    split; [by apply (table_rows tz _ t)|]. apply list_elem_of_In, in_map. by apply list_elem_of_In.
  - by apply resolve_edit.
  - by rewrite EditTaskPage.mount_truthy.
  - by rewrite EditTaskPage.mount_truthy.
  - rewrite EditTaskPage.mount_truthy by done. unfold Collection.serve_get.
    rewrite (Collection.get_listed c (TasksPage.query_of w.(TasksPage.ui)) t Hwf) by (by rewrite <- Htab).
    eexists. split; [reflexivity|]. by split_and!.
Qed.

End WithCollection.

(** ** Witnesses *)

#[local] Existing Instance Collection.mem_collection.
#[local] Existing Instance Collection.mem_laws.

Definition list_state : TasksPage.State :=
  TasksPage.mkState [TasksPage.task_a; TasksPage.task_b] false None (TasksPage.mkFilters "all" "all") 0 "" 0 false None.

Lemma links_resolve_witness :
  is_Some (resolve "/tasks/edit/t1") \/ "/tasks/edit/t1" = "/tasks/new".
Proof.
  apply (links_resolve 0 Dashboard.initial list_state "t1" (EditTaskPage.mount "t1")).
  - repeat constructor.
  - apply star_refl.
  - apply list_elem_of_In. vm_compute. repeat (first [left; reflexivity | right]).
Defined.

Lemma edit_link_loads_listed_task_witness :
  exists w', EditTaskPage.deliver (EditTaskPage.mount "t1") 0
               (EditTaskPage.GetArrives (Collection.serve_get TaskListRefine.settled0.1 "t1")) = Some w' /\
    w'.(EditTaskPage.ui).(EditTaskPage.task) = Some TasksPage.task_a.
Proof.
  destruct (edit_link_loads_listed_task TaskListRefine.settled0.1 TaskListRefine.settled0.2 0 TasksPage.task_a)
    as (_ & _ & _ & _ & w' & Hd & _ & Ht & _).
  - split; [change (NoDup ["t1"; "t2"; "t3"])|change (Forall (fun t => t.(status) ∈ Collection.status_enum) TaskListRefine.collection0)];
      repeat constructor; rewrite ?not_elem_of_cons; repeat split; try done; apply not_elem_of_nil.
  - vm_compute. auto.
  - apply list_elem_of_In. vm_compute. repeat (first [left; reflexivity | right]).
  - reflexivity.
  - exists w'. split; [exact Hd|exact Ht].
Defined.

End App.
